(** * py-mcp-google-toolbox: the tool handlers and the credential store

    A shallow embedding of [server.py]: the credential acquisition
    function [get_google_credentials], the helper [_get_email_body] and
    the eleven tool handlers, with the properties of the specification
    stated and proved (or refuted) over them.

    Conventions of the embedding.
    - A Python [str] is held as the [string] of its UTF-8 bytes; a Python
      [bytes] is a [string] as well.  [bytes.decode('utf-8')] is therefore
      a validity check ([utf8_decode]).
    - Values that travel as JSON (tool results, API responses, request
      bodies) are [PyVal]; a [dict] is a [gmap string PyVal].
    - Everything outside the process (the token file, the clock, the OAuth
      token endpoint, the Google APIs) is a field of [World]; the replies of
      the network are scripted in the world and every request performed is
      appended to its log. *)

From Stdlib Require Import ZArith String Ascii List Lia Bool.
From stdpp Require Import base option list gmap strings pretty.

Set Warnings "-register-all".

#[local] Open Scope string_scope.
#[local] Open Scope list_scope.
#[local] Open Scope Z_scope.

(** ** Python strings *)

Module PyStr.

(** [old in s] for strings: [old] occurs in [s] as a contiguous run. *)
Fixpoint contains (old s : string) : bool :=
  if String.prefix old s then true
  else match s with
       | EmptyString => false
       | String _ rest => contains old rest
       end.

(** [s.startswith(p)] *)
Definition startswith (s p : string) : bool := String.prefix p s.

(** [s.replace(old, new)] where [old] is a single character, which is how
    the source calls it. *)
Fixpoint replace (old : ascii) (new s : string) : string :=
  match s with
  | EmptyString => EmptyString
  | String c rest =>
      if Ascii.eqb c old then new +:+ replace old new rest
      else String c (replace old new rest)
  end.

(** [s.lower()] on the ASCII letters.  The other code points either keep
    bytes above 127 or (U+0130, U+212A) produce a letter that completes none
    of the keywords searched for, so the keyword tests of [search_gdrive]
    read the same on this image as on Python's. *)
Definition lower_char (c : ascii) : ascii :=
  let n := N_of_ascii c in
  if ((65 <=? n) && (n <=? 90))%N then ascii_of_N (n + 32) else c.

Fixpoint lower (s : string) : string :=
  match s with
  | EmptyString => EmptyString
  | String c rest => String (lower_char c) (lower rest)
  end.

Definition bytes_str (l : list N) : string :=
  string_of_list_ascii (map ascii_of_N l).

(** The code points for which [str.isspace] holds, each as its UTF-8
    encoding: what [str.strip()] removes. *)
Definition whitespace : list string :=
  map bytes_str
    [ [9]; [10]; [11]; [12]; [13]; [28]; [29]; [30]; [31]; [32];
      [194; 133]; [194; 160];
      [225; 154; 128];
      [226; 128; 128]; [226; 128; 129]; [226; 128; 130]; [226; 128; 131];
      [226; 128; 132]; [226; 128; 133]; [226; 128; 134]; [226; 128; 135];
      [226; 128; 136]; [226; 128; 137]; [226; 128; 138];
      [226; 128; 168]; [226; 128; 169]; [226; 128; 175];
      [226; 129; 159];
      [227; 128; 128] ]%N.

Fixpoint drop (n : nat) (s : string) : string :=
  match n, s with
  | O, _ => s
  | S n', String _ rest => drop n' rest
  | S _, EmptyString => EmptyString
  end.

Definition rev (s : string) : string :=
  string_of_list_ascii (List.rev (list_ascii_of_string s)).

(** Remove leading characters drawn from [ws]; [fuel] bounds the number of
    characters removed and is the length of the string where it is used. *)
Fixpoint lstrip_with (ws : list string) (fuel : nat) (s : string) : string :=
  match fuel with
  | O => s
  | S fuel' =>
      match List.find (fun w => String.prefix w s) ws with
      | Some w => lstrip_with ws fuel' (drop (String.length w) s)
      | None => s
      end
  end.

Definition lstrip (s : string) : string :=
  lstrip_with whitespace (String.length s) s.

Definition rstrip (s : string) : string :=
  rev (lstrip_with (map rev whitespace) (String.length s) (rev s)).

(** [s.strip()] *)
Definition strip (s : string) : string := rstrip (lstrip s).

(** [sep.join(parts)] *)
Definition join (sep : string) (parts : list string) : string :=
  String.concat sep parts.

End PyStr.

(** ** The query predicate and page size of [search_gdrive] *)

Definition SPREADSHEET : string := "application/vnd.google-apps.spreadsheet".
Definition DOCUMENT : string := "application/vnd.google-apps.document".
Definition PRESENTATION : string := "application/vnd.google-apps.presentation".

(** Lines 816-840 of [search_gdrive]: the value of [search_query] that is
    passed as [q], as a function of the [query] argument. *)
Definition build_search_query (query : string) : string :=
  let user_query := PyStr.strip query in
  if String.eqb user_query "" then "trashed = false"
  else
    let escaped_query :=
      PyStr.replace "'" "\'" (PyStr.replace "\" "\\" user_query) in
    let conditions := ["name contains '" +:+ escaped_query +:+ "'"] in
    let conditions :=
      if PyStr.contains "sheet" (PyStr.lower user_query) then
        conditions ++ ["mimeType = '" +:+ SPREADSHEET +:+ "'"]
      else if PyStr.contains "doc" (PyStr.lower user_query) then
        conditions ++ ["mimeType = '" +:+ DOCUMENT +:+ "'"]
      else if PyStr.contains "presentation" (PyStr.lower user_query)
              || PyStr.contains "slide" (PyStr.lower user_query) then
        conditions ++ ["mimeType = '" +:+ PRESENTATION +:+ "'"]
      else conditions in
    "(" +:+ PyStr.join " or " conditions +:+ ") and trashed = false".

(** Lines 843-845 of [search_gdrive]: the value of [page_size] that is
    passed as [pageSize]. *)
Definition effective_page_size (page_size : option Z) : Z :=
  let page_size := match page_size with None => 10 | Some n => n end in
  Z.min (Z.max 1 page_size) 100.

(** *** Declarative reading of the query *)

(** [kw] occurs somewhere in [s]. *)
Definition Occurs (kw s : string) : Prop :=
  exists l r : string, s = l +:+ kw +:+ r.

(** The escaping of one character of the phrase. *)
Definition escape_char (c : ascii) : string :=
  if Ascii.eqb c "\" then "\\"
  else if Ascii.eqb c "'" then "\'"
  else String c "".

Fixpoint escape (s : string) : string :=
  match s with
  | EmptyString => EmptyString
  | String c rest => escape_char c +:+ escape rest
  end.

(** Following the specification: the name filter, the MIME-type filter when
    a keyword is present and [trashed = false], all conjoined.  It is
    [build_search_query] with [and] where the source writes [or]. *)
Definition claimed_search_query (query : string) : string :=
  let user_query := PyStr.strip query in
  if String.eqb user_query "" then "trashed = false"
  else
    let name_filter := "name contains '" +:+ escape user_query +:+ "'" in
    let lowered := PyStr.lower user_query in
    let filters :=
      if PyStr.contains "sheet" lowered then
        [name_filter; "mimeType = '" +:+ SPREADSHEET +:+ "'"]
      else if PyStr.contains "doc" lowered then
        [name_filter; "mimeType = '" +:+ DOCUMENT +:+ "'"]
      else if PyStr.contains "presentation" lowered
              || PyStr.contains "slide" lowered then
        [name_filter; "mimeType = '" +:+ PRESENTATION +:+ "'"]
      else [name_filter] in
    "(" +:+ PyStr.join " and " filters +:+ ") and trashed = false".


(** ** Python values, exceptions and the world outside the process *)

(** A JSON-like Python value.  Dictionaries have string keys. *)
Inductive PyVal : Type :=
| VNone
| VBool (b : bool)
| VInt (n : Z)
| VStr (s : string)
| VBytes (b : string)
| VList (l : list PyVal)
| VDict (d : gmap string PyVal).

(** The exceptions that reach the handlers.  [HttpError] is
    [googleapiclient.errors.HttpError] with [resp.status] and [content];
    [OtherError] stands for any other subclass of [Exception] raised by a
    library, with its message. *)
Inductive PyExc : Type :=
| HttpError (status : Z) (content : string)
| KeyError (key : string)
| TypeError
| AttributeError
| ValueError
| BinasciiError
| UnicodeDecodeError
| RefreshError
| OSError
| OtherError (msg : string).

Inductive Outcome (A : Type) : Type :=
| Return (a : A)
| Raise (e : PyExc).
Arguments Return {A} a.
Arguments Raise {A} e.

(** [google.oauth2.credentials.Credentials] *)
Record Credentials : Type := mkCredentials {
  token : option string;
  refresh_token : option string;
  token_uri : option string;
  client_id : option string;
  client_secret : option string;
  scopes : list string;
  expiry : option Z
}.

(** The JSON object of a token file.  For the three keys that
    [from_authorized_user_info] requires, [None] is a missing key and
    [Some None] a key holding [null]; for the others a missing key and
    [null] read the same.  [j_expiry] is the parsed time stamp. *)
Record TokenJson : Type := mkTokenJson {
  j_token : option string;
  j_refresh_token : option (option string);
  j_token_uri : option string;
  j_client_id : option (option string);
  j_client_secret : option (option string);
  j_scopes : option (list string);
  j_expiry : option Z
}.

(** What [token.json] holds when it exists: a JSON object, or anything on
    which [Credentials.from_authorized_user_file] raises for another reason
    than a missing key (unreadable file, malformed JSON or time stamp). *)
Inductive TokenFile : Type :=
| Unreadable
| Parsed (j : TokenJson).

(** How the disk answers [open(TOKEN_FILE, 'w')] followed by [write]. *)
Inductive Disk : Type :=
| DiskOk
| OpenFails
| WriteFails.

(** A reply of the OAuth token endpoint to a refresh grant: [None] when the
    request fails (transport fault, error reply, scopes not granted), and
    otherwise the new access token, its life time in seconds and the
    refresh token when the server rotates it. *)
Record Grant : Type := mkGrant {
  access_token : string;
  expires_in : option Z;
  rotated_refresh_token : option string
}.

(** The requests of the handlers to the Google APIs, with the arguments the
    source passes. *)
Inductive Request : Type :=
| GmailMessagesList (userId : string) (maxResults : Z) (q : string)
| GmailMessagesGet (userId : string) (id : PyVal) (format : string)
    (metadataHeaders : option (list string))
| GmailMessagesSend (userId : string) (body : PyVal)
| GmailMessagesModify (userId : string) (id : string) (body : PyVal)
| CalendarEventsList (calendarId timeMin timeMax : string) (maxResults : Z)
    (singleEvents : bool) (orderBy : string)
| CalendarEventsInsert (calendarId : string) (body : PyVal)
| CalendarEventsGet (calendarId eventId : string)
| CalendarEventsUpdate (calendarId eventId : string) (body : PyVal)
| CalendarEventsDelete (calendarId eventId : string)
| CustomSearchList (developerKey : option string) (q : string)
    (cx : option string) (num : Z)
| DriveFilesGet (fileId fields : string)
| DriveFilesExport (fileId mimeType : string)
| DriveFilesGetMedia (fileId : string)
| DriveFilesList (q : string) (pageSize : Z) (pageToken : option string)
    (orderBy fields : string).

(** What a call does to the outside, in the order it happens. *)
Inductive Event : Type :=
| TokenRequest (c : Credentials)
| TokenFileWrite (c : Credentials)
| ApiCall (r : Request).

Record World : Type := mkWorld {
  token_file : option TokenFile;
  disk : Disk;
  now : Z;
  token_endpoint : list (option Grant);
  api : list (Outcome PyVal);
  chunks : list (Outcome (string * bool));
  trace : list Event
}.

(** The constants read from the environment when the module is loaded. *)
Record Config : Type := mkConfig {
  GOOGLE_CLIENT_ID : option string;
  GOOGLE_CLIENT_SECRET : option string;
  GOOGLE_REFRESH_TOKEN : option string;
  GOOGLE_API_KEY : option string;
  GOOGLE_CSE_ID : option string
}.

(** ** The monad of handler code: state and exceptions *)

Definition Py (A : Type) : Type := World -> Outcome A * World.

#[global] Instance Py_ret : MRet Py := fun A a w => (Return a, w).

#[global] Instance Py_bind : MBind Py := fun A B k m w =>
  match m w with
  | (Return a, w') => k a w'
  | (Raise e, w') => (Raise e, w')
  end.

Definition raise {A : Type} (e : PyExc) : Py A := fun w => (Raise e, w).

(** [try: body except Exception as e: handler e] *)
Definition try_except {A : Type} (body : Py A) (handler : PyExc -> Py A) : Py A :=
  fun w =>
    match body w with
    | (Return a, w') => (Return a, w')
    | (Raise e, w') => handler e w'
    end.

Definition lift_outcome {A : Type} (o : Outcome A) : Py A := fun w => (o, w).

Definition emit (ev : Event) : Py unit := fun w =>
  (Return tt,
   mkWorld (token_file w) (disk w) (now w) (token_endpoint w) (api w)
     (chunks w) (trace w ++ [ev])).

Definition utcnow : Py Z := fun w => (Return (now w), w).

(** ** The credential store *)

(** *** The parts of google-auth that [get_google_credentials] calls

    Time is counted in whole seconds, the resolution at which an expiry is
    persisted. *)
Module GoogleAuth.

(** [google.auth._helpers.REFRESH_THRESHOLD]: 3 minutes 45 seconds. *)
Definition REFRESH_THRESHOLD : Z := 225.

Definition GOOGLE_OAUTH2_TOKEN_ENDPOINT : string :=
  "https://oauth2.googleapis.com/token".

(** [creds.expired] at time [t] *)
Definition expired_at (t : Z) (c : Credentials) : bool :=
  match expiry c with
  | None => false
  | Some e => e - REFRESH_THRESHOLD <=? t
  end.

(** [creds.valid] at time [t] *)
Definition valid_at (t : Z) (c : Credentials) : bool :=
  match token c with
  | None => false
  | Some _ => negb (expired_at t c)
  end.

(** [Credentials.from_authorized_user_file(TOKEN_FILE, scopes)] *)
Definition from_authorized_user_file (scopes : list string) : Py Credentials :=
  fun w =>
    match token_file w with
    | None => (Raise OSError, w)
    | Some Unreadable => (Raise ValueError, w)
    | Some (Parsed j) =>
        match j_refresh_token j, j_client_id j, j_client_secret j with
        | Some rt, Some cid, Some secret =>
            (Return
               {| token := j_token j;
                  refresh_token := rt;
                  token_uri := Some GOOGLE_OAUTH2_TOKEN_ENDPOINT;
                  client_id := cid;
                  client_secret := secret;
                  scopes := scopes;
                  expiry := Some (match j_expiry j with
                                  | Some e => e
                                  | None => now w - REFRESH_THRESHOLD
                                  end) |}, w)
        | _, _, _ => (Raise ValueError, w)
        end
    end.

(** [creds.refresh(Request())]: the record after the refresh.  Without the
    four fields of a refresh grant it raises before any request is made;
    otherwise one request goes to the token endpoint. *)
Definition refresh (c : Credentials) : Py Credentials :=
  fun w =>
    match refresh_token c, token_uri c, client_id c, client_secret c with
    | Some rt, Some _, Some _, Some _ =>
        let w' rest :=
          mkWorld (token_file w) (disk w) (now w) rest (api w) (chunks w)
            (trace w ++ [TokenRequest c]) in
        match token_endpoint w with
        | [] => (Raise RefreshError, w' [])
        | None :: rest => (Raise RefreshError, w' rest)
        | Some g :: rest =>
            (Return
               {| token := Some (access_token g);
                  refresh_token :=
                    Some (match rotated_refresh_token g with
                          | Some r => r
                          | None => rt
                          end);
                  token_uri := token_uri c;
                  client_id := client_id c;
                  client_secret := client_secret c;
                  scopes := scopes c;
                  expiry := match expires_in g with
                            | Some d => Some (now w + d)
                            | None => None
                            end |}, w' rest)
        end
    | _, _, _, _ => (Raise RefreshError, w)
    end.

(** [creds.to_json()]: entries that are [None] are left out. *)
Definition to_json (c : Credentials) : TokenJson :=
  {| j_token := token c;
     j_refresh_token := Some <$> refresh_token c;
     j_token_uri := token_uri c;
     j_client_id := Some <$> client_id c;
     j_client_secret := Some <$> client_secret c;
     j_scopes := Some (scopes c);
     j_expiry := expiry c |}.

End GoogleAuth.

Definition SCOPES : list string :=
  [ "https://www.googleapis.com/auth/gmail.readonly";
    "https://www.googleapis.com/auth/gmail.send";
    "https://www.googleapis.com/auth/gmail.modify";
    "https://www.googleapis.com/auth/calendar";
    "https://www.googleapis.com/auth/drive.file";
    "https://www.googleapis.com/auth/drive.readonly" ].

(** [os.path.exists(TOKEN_FILE)] *)
Definition token_file_exists : Py bool := fun w =>
  (Return (match token_file w with Some _ => true | None => false end), w).

(** [with open(TOKEN_FILE, 'w') as token: token.write(creds.to_json())].
    Opening truncates the file, so a failed write leaves it unreadable. *)
Definition write_token_file (c : Credentials) : Py unit := fun w =>
  let w' f :=
    mkWorld (Some f) (disk w) (now w) (token_endpoint w) (api w) (chunks w)
      (trace w ++ [TokenFileWrite c]) in
  match disk w with
  | OpenFails => (Raise OSError, w)
  | WriteFails => (Raise OSError, w' Unreadable)
  | DiskOk => (Return tt, w' (Parsed (GoogleAuth.to_json c)))
  end.

(** Truth value of an optional string: neither [None] nor empty. *)
Definition truthy (s : option string) : bool :=
  match s with
  | Some s => negb (String.eqb s "")
  | None => false
  end.

Section CredentialStore.

Variable cfg : Config.

(** [get_google_credentials()], lines 113-160.  [from_environment] is the
    body of the [elif] and [else] branches, written once. *)
Definition get_google_credentials : Py (option Credentials) :=
  file_exists ← token_file_exists;
  creds ← (if file_exists : bool then
             try_except
               (c ← GoogleAuth.from_authorized_user_file SCOPES; mret (Some c))
               (fun _ => mret None)
           else mret None);
  t ← utcnow;
  if negb (match creds with
           | Some c => GoogleAuth.valid_at t c
           | None => false
           end)
  then
    let from_environment : Py (option Credentials) :=
      if truthy (GOOGLE_REFRESH_TOKEN cfg)
         && truthy (GOOGLE_CLIENT_ID cfg)
         && truthy (GOOGLE_CLIENT_SECRET cfg) then
        try_except
          (let c := {| token := None;
                       refresh_token := GOOGLE_REFRESH_TOKEN cfg;
                       token_uri := Some "https://oauth2.googleapis.com/token";
                       client_id := GOOGLE_CLIENT_ID cfg;
                       client_secret := GOOGLE_CLIENT_SECRET cfg;
                       scopes := SCOPES;
                       expiry := None |} in
           c' ← GoogleAuth.refresh c;
           _ ← write_token_file c';
           mret (Some c'))
          (fun _ => mret None)
      else mret None in
    match creds with
    | Some c =>
        if GoogleAuth.expired_at t c && truthy (refresh_token c) then
          try_except
            (c' ← GoogleAuth.refresh c;
             _ ← write_token_file c';
             mret (Some c'))
            (fun _ => mret None)
        else from_environment
    | None => from_environment
    end
  else mret creds.

End CredentialStore.

(** *** Sample worlds *)

Definition sample_config : Config :=
  {| GOOGLE_CLIENT_ID := Some "client-id";
     GOOGLE_CLIENT_SECRET := Some "client-secret";
     GOOGLE_REFRESH_TOKEN := Some "refresh-token";
     GOOGLE_API_KEY := Some "api-key";
     GOOGLE_CSE_ID := Some "engine-id" |}.

(** A token file as [get_refresh_token.py] writes it: no expiry. *)
Definition sample_token_json : TokenJson :=
  {| j_token := Some "stale-access-token";
     j_refresh_token := Some (Some "refresh-token");
     j_token_uri := Some "https://oauth2.googleapis.com/token";
     j_client_id := Some (Some "client-id");
     j_client_secret := Some (Some "client-secret");
     j_scopes := Some SCOPES;
     j_expiry := None |}.

Definition sample_grant : Grant :=
  {| access_token := "fresh-access-token";
     expires_in := Some 3599;
     rotated_refresh_token := None |}.

(** The world at time 1000 with the sample token file and the given
    replies of the token endpoint and of the APIs. *)
Definition sample_world (grants : list (option Grant))
    (replies : list (Outcome PyVal)) : World :=
  {| token_file := Some (Parsed sample_token_json);
     disk := DiskOk;
     now := 1000;
     token_endpoint := grants;
     api := replies;
     chunks := [];
     trace := [] |}.

Definition set_now (t : Z) (w : World) : World :=
  mkWorld (token_file w) (disk w) t (token_endpoint w) (api w) (chunks w)
    (trace w).

(** *** Notions used to state the properties of the credential store *)

(** The next reply of the token endpoint; an exhausted script fails. *)
Definition next_grant (w : World) : option Grant :=
  match token_endpoint w with
  | g :: _ => g
  | [] => None
  end.

(** The record that [get_google_credentials] loads from the token file in
    world [w], if any. *)
Definition loaded_credentials (w : World) : option Credentials :=
  match token_file w with
  | None => None
  | Some _ =>
      match GoogleAuth.from_authorized_user_file SCOPES w with
      | (Return c, _) => Some c
      | (Raise _, _) => None
      end
  end.

(** The body shared by the two refreshing branches. *)
Definition refresh_and_store (c : Credentials) : Py (option Credentials) :=
  try_except
    (c' ← GoogleAuth.refresh c;
     _ ← write_token_file c';
     mret (Some c'))
    (fun _ => mret None).

(** The record assembled from the environment. *)
Definition environment_credentials (cfg : Config) : Credentials :=
  {| token := None;
     refresh_token := GOOGLE_REFRESH_TOKEN cfg;
     token_uri := Some "https://oauth2.googleapis.com/token";
     client_id := GOOGLE_CLIENT_ID cfg;
     client_secret := GOOGLE_CLIENT_SECRET cfg;
     scopes := SCOPES;
     expiry := None |}.

(** The record that a refresh grants in the sample world, and the world
    after the call that obtained it. *)
Definition refreshed_credentials : Credentials :=
  {| token := Some "fresh-access-token";
     refresh_token := Some "refresh-token";
     token_uri := Some "https://oauth2.googleapis.com/token";
     client_id := Some "client-id";
     client_secret := Some "client-secret";
     scopes := SCOPES;
     expiry := Some 4599 |}.

Definition world_after_refresh : World :=
  snd (get_google_credentials sample_config
         (sample_world [Some sample_grant] [])).

(** ** Codecs: UTF-8 and base64 *)

Module Codec.

Definition byte_in (lo hi : N) (c : ascii) : bool :=
  let n := N_of_ascii c in ((lo <=? n) && (n <=? hi))%N.

Definition str1 (a : ascii) : string := String a "".
Definition str2 (a b : ascii) : string := String a (String b "").
Definition str3 (a b c : ascii) : string := String a (String b (String c "")).
Definition str4 (a b c d : ascii) : string :=
  String a (String b (String c (String d ""))).

(** The well-formed two-, three- and four-byte sequences of UTF-8: no
    overlong form, no surrogate, nothing above U+10FFFF. *)
Definition two_bytes (a b : ascii) : bool :=
  byte_in 194 223 a && byte_in 128 191 b.

Definition three_bytes (a b c : ascii) : bool :=
  ((byte_in 224 224 a && byte_in 160 191 b)
   || (byte_in 225 236 a && byte_in 128 191 b)
   || (byte_in 237 237 a && byte_in 128 159 b)
   || (byte_in 238 239 a && byte_in 128 191 b))
  && byte_in 128 191 c.

Definition four_bytes (a b c d : ascii) : bool :=
  ((byte_in 240 240 a && byte_in 144 191 b)
   || (byte_in 241 243 a && byte_in 128 191 b)
   || (byte_in 244 244 a && byte_in 128 143 b))
  && byte_in 128 191 c && byte_in 128 191 d.

(** The characters of a byte string read as UTF-8, each as its encoding;
    [None] when the bytes are not well-formed UTF-8. *)
Fixpoint utf8_chars (s : string) : option (list string) :=
  match s with
  | EmptyString => Some []
  | String a r1 =>
      if byte_in 0 127 a then cons (str1 a) <$> utf8_chars r1
      else
        match r1 with
        | EmptyString => None
        | String b r2 =>
            if two_bytes a b then cons (str2 a b) <$> utf8_chars r2
            else
              match r2 with
              | EmptyString => None
              | String c r3 =>
                  if three_bytes a b c then cons (str3 a b c) <$> utf8_chars r3
                  else
                    match r3 with
                    | EmptyString => None
                    | String d r4 =>
                        if four_bytes a b c d
                        then cons (str4 a b c d) <$> utf8_chars r4
                        else None
                    end
              end
        end
  end.

(** [b.decode('utf-8')]: a [str] is held as its UTF-8 bytes, so decoding
    returns the bytes when they are well formed and raises otherwise. *)
Definition utf8_decode (b : string) : Outcome string :=
  match utf8_chars b with
  | Some _ => Return b
  | None => Raise UnicodeDecodeError
  end.

Definition is_ascii (s : string) : bool :=
  forallb (byte_in 0 127) (list_ascii_of_string s).

(** [binascii]'s table: the value of a base64 digit. *)
Definition b64_value (c : ascii) : option N :=
  let n := N_of_ascii c in
  if ((65 <=? n) && (n <=? 90))%N then Some (n - 65)%N
  else if ((97 <=? n) && (n <=? 122))%N then Some (n - 71)%N
  else if ((48 <=? n) && (n <=? 57))%N then Some (n + 4)%N
  else if (n =? 43)%N then Some 62%N
  else if (n =? 47)%N then Some 63%N
  else None.

(** [binascii.a2b_base64] in its default, non-strict mode: the loop over the
    input with its state [quad_pos], [leftchar] and [pads].  Characters
    outside the alphabet are skipped; a complete pad sequence ends the
    decoding; input that ends inside a quad is an error. *)
Fixpoint a2b_base64 (quad_pos leftchar pads : N) (data : string)
    : Outcome string :=
  match data with
  | EmptyString =>
      if (quad_pos =? 0)%N then Return "" else Raise BinasciiError
  | String this_ch rest =>
      if Ascii.eqb this_ch "=" then
        if (2 <=? quad_pos)%N then
          if (4 <=? quad_pos + (pads + 1))%N then Return ""
          else a2b_base64 quad_pos leftchar (pads + 1) rest
        else a2b_base64 quad_pos leftchar pads rest
      else
        match b64_value this_ch with
        | None => a2b_base64 quad_pos leftchar pads rest
        | Some v =>
            let emit (byte : N) (o : Outcome string) : Outcome string :=
              match o with
              | Return out => Return (String (ascii_of_N byte) out)
              | Raise e => Raise e
              end in
            if (quad_pos =? 0)%N then a2b_base64 1 v 0 rest
            else if (quad_pos =? 1)%N then
              emit (N.lor (N.shiftl leftchar 2) (N.shiftr v 4))
                (a2b_base64 2 (N.land v 15) 0 rest)
            else if (quad_pos =? 2)%N then
              emit (N.lor (N.shiftl leftchar 4) (N.shiftr v 2))
                (a2b_base64 3 (N.land v 3) 0 rest)
            else
              emit (N.lor (N.shiftl leftchar 6) v) (a2b_base64 0 0 0 rest)
        end
  end.

(** The translation of the URL-safe alphabet to the standard one. *)
Definition urlsafe_translate (c : ascii) : ascii :=
  if Ascii.eqb c "-" then "+"%char
  else if Ascii.eqb c "_" then "/"%char
  else c.

Fixpoint translate (f : ascii -> ascii) (s : string) : string :=
  match s with
  | EmptyString => EmptyString
  | String c rest => String (f c) (translate f rest)
  end.

(** The digit of a value below 64, in the standard alphabet. *)
Definition b64_digit (v : N) : ascii :=
  if (v <? 26)%N then ascii_of_N (v + 65)
  else if (v <? 52)%N then ascii_of_N (v + 71)
  else if (v <? 62)%N then ascii_of_N (v - 4)
  else if (v =? 62)%N then "+"%char
  else "/"%char.

(** [binascii.b2a_base64] without the newline: three bytes to four digits,
    the last group padded. *)
Fixpoint b2a_base64 (data : string) : string :=
  match data with
  | EmptyString => EmptyString
  | String a EmptyString =>
      let x := N_of_ascii a in
      str4 (b64_digit (N.shiftr x 2))
           (b64_digit (N.shiftl (N.land x 3) 4)) "=" "="
  | String a (String b EmptyString) =>
      let x := N_of_ascii a in
      let y := N_of_ascii b in
      str4 (b64_digit (N.shiftr x 2))
           (b64_digit (N.lor (N.shiftl (N.land x 3) 4) (N.shiftr y 4)))
           (b64_digit (N.shiftl (N.land y 15) 2)) "="
  | String a (String b (String c rest)) =>
      let x := N_of_ascii a in
      let y := N_of_ascii b in
      let z := N_of_ascii c in
      str4 (b64_digit (N.shiftr x 2))
           (b64_digit (N.lor (N.shiftl (N.land x 3) 4) (N.shiftr y 4)))
           (b64_digit (N.lor (N.shiftl (N.land y 15) 2) (N.shiftr z 6)))
           (b64_digit (N.land z 63))
      +:+ b2a_base64 rest
  end.

(** [base64.b64encode(b)] *)
Definition b64encode (b : string) : string := b2a_base64 b.

(** [base64.urlsafe_b64encode(b)] *)
Definition urlsafe_b64encode (b : string) : string :=
  translate (fun c => if Ascii.eqb c "+" then "-"%char
                      else if Ascii.eqb c "/" then "_"%char
                      else c)
    (b2a_base64 b).

End Codec.

(** ** Python operations on values *)

Definition dict (items : list (string * PyVal)) : PyVal :=
  VDict (list_to_map items).

(** Truth value, as [if v:] and [not v] read it. *)
Definition truth (v : PyVal) : bool :=
  match v with
  | VNone => false
  | VBool b => b
  | VInt n => negb (n =? 0)
  | VStr s => negb (String.eqb s "")
  | VBytes b => negb (String.eqb b "")
  | VList l => match l with [] => false | _ :: _ => true end
  | VDict d => negb (Nat.eqb (size d) 0)
  end.

(** [v == s] for a string literal [s] *)
Definition eq_str (v : PyVal) (s : string) : bool :=
  match v with
  | VStr t => String.eqb t s
  | _ => false
  end.

(** [d.get(key, default)] *)
Definition py_get (d : PyVal) (key : string) (default : PyVal) : Outcome PyVal :=
  match d with
  | VDict m => Return (match m !! key with Some v => v | None => default end)
  | _ => Raise AttributeError
  end.

(** [d[key]] for a string [key] *)
Definition py_item (d : PyVal) (key : string) : Outcome PyVal :=
  match d with
  | VDict m =>
      match m !! key with
      | Some v => Return v
      | None => Raise (KeyError key)
      end
  | _ => Raise TypeError
  end.

(** The elements that [for x in v] runs through.  A dictionary yields its
    keys (in the order of the map: the loops of the source raise on the first
    key, whichever it is) and a string its characters. *)
Definition py_iter (v : PyVal) : Outcome (list PyVal) :=
  match v with
  | VList l => Return l
  | VDict m => Return (VStr <$> (map_to_list m).*1)
  | VStr s =>
      match Codec.utf8_chars s with
      | Some cs => Return (VStr <$> cs)
      | None => Return []
      end
  | _ => Raise TypeError
  end.

(** [key in v] for a string literal [key] *)
Definition py_in (key : string) (v : PyVal) : Outcome bool :=
  match v with
  | VDict m => Return (bool_decide (is_Some (m !! key)))
  | VList l => Return (existsb (fun x => eq_str x key) l)
  | VStr s => Return (PyStr.contains key s)
  | _ => Raise TypeError
  end.

(** [v.startswith(prefix)] *)
Definition py_startswith (v : PyVal) (prefix : string) : Outcome bool :=
  match v with
  | VStr s => Return (PyStr.startswith s prefix)
  | VBytes _ => Raise TypeError
  | _ => Raise AttributeError
  end.

(** [d.update(other)]: the entries of [other] are written over those of [d]. *)
Definition py_update (d : PyVal) (other : gmap string PyVal) : Outcome PyVal :=
  match d with
  | VDict m => Return (VDict (other ∪ m))
  | _ => Raise AttributeError
  end.

(** [a or b] on optional strings, where [b] is a string. *)
Definition or_str (a : option string) (b : string) : string :=
  match a with
  | Some s => if String.eqb s "" then b else s
  | None => b
  end.

(** Truth value of an optional list: neither [None] nor empty. *)
Definition truthy_list {A : Type} (l : option (list A)) : bool :=
  match l with
  | Some (_ :: _) => true
  | _ => false
  end.

(** What the interpreter and the libraries decide and the source only
    uses: the text of an exception, the text of a container inside an
    f-string, the ISO form of a time and the bytes of a MIME message. *)
Record Runtime : Type := mkRuntime {
  exc_str : PyExc -> string;
  repr : PyVal -> string;
  isoformat : Z -> string;
  mime_bytes :
    string -> string -> string -> option string -> option string ->
    Outcome string
}.

(** [f"{v}"] *)
Definition format_value (rt : Runtime) (v : PyVal) : string :=
  match v with
  | VStr s => s
  | VInt n => pretty n
  | VNone => "None"
  | VBool true => "True"
  | VBool false => "False"
  | _ => repr rt v
  end.

(** ** Calls to the Google APIs *)

(** [request.execute()]: the next scripted reply; the request is logged.
    When the script is exhausted the transport fails. *)
Definition execute (r : Request) : Py PyVal := fun w =>
  let w' rest :=
    mkWorld (token_file w) (disk w) (now w) (token_endpoint w) rest (chunks w)
      (trace w ++ [ApiCall r]) in
  match api w with
  | [] => (Raise (OtherError "no reply"), w' [])
  | reply :: rest => (reply, w' rest)
  end.

(** [downloader.next_chunk()] of a [MediaIoBaseDownload] over [r]: the data
    received and whether the download is complete. *)
Definition next_chunk (r : Request) : Py (string * bool) := fun w =>
  let w' rest :=
    mkWorld (token_file w) (disk w) (now w) (token_endpoint w) (api w) rest
      (trace w ++ [ApiCall r]) in
  match chunks w with
  | [] => (Raise (OtherError "no reply"), w' [])
  | reply :: rest => (reply, w' rest)
  end.

(** [while not done: _, done = downloader.next_chunk()], the bytes gathered
    in [file_content].  Every iteration consumes a scripted reply, so
    [fuel] above the length of the script is never exhausted. *)
Fixpoint download_loop (fuel : nat) (r : Request) (file_content : string)
    : Py string :=
  match fuel with
  | O => raise (OtherError "no reply")
  | S fuel' =>
      chunk ← next_chunk r;
      let '(data, done) := chunk in
      if done : bool then mret (file_content +:+ data)
      else download_loop fuel' r (file_content +:+ data)
  end.

Definition download (r : Request) : Py string := fun w =>
  download_loop (S (length (chunks w))) r "" w.

(** [for x in xs: ...] collecting one result per element, and a list
    comprehension. *)
Fixpoint for_each {A B : Type} (f : A -> Py B) (xs : list A) : Py (list B) :=
  match xs with
  | [] => mret []
  | x :: rest =>
      y ← f x;
      ys ← for_each f rest;
      mret (y :: ys)
  end.

(** ** [_get_email_body] *)

#[global] Instance Outcome_ret : MRet Outcome := fun A a => Return a.

#[global] Instance Outcome_bind : MBind Outcome := fun A B k o =>
  match o with
  | Return a => k a
  | Raise e => Raise e
  end.

(** [base64.urlsafe_b64decode(v)]: a [str] must be ASCII; the URL-safe
    digits are translated and the result goes through [a2b_base64]. *)
Definition urlsafe_b64decode (v : PyVal) : Outcome string :=
  match v with
  | VStr s =>
      if Codec.is_ascii s
      then Codec.a2b_base64 0 0 0 (Codec.translate Codec.urlsafe_translate s)
      else Raise ValueError
  | VBytes b => Codec.a2b_base64 0 0 0 (Codec.translate Codec.urlsafe_translate b)
  | _ => Raise TypeError
  end.

(** [part['mimeType'] == 'text/plain' and 'body' in part
     and 'data' in part['body']] *)
Definition is_plain_text_with_data (part : PyVal) : Outcome bool :=
  mime ← py_item part "mimeType";
  if eq_str mime "text/plain" then
    has_body ← py_in "body" part;
    if has_body : bool then
      body ← py_item part "body";
      py_in "data" body
    else mret false
  else mret false.

(** [base64.urlsafe_b64decode(part['body']['data']).decode('utf-8')] *)
Definition decode_body_data (part : PyVal) : Outcome string :=
  body ← py_item part "body";
  data ← py_item body "data";
  raw ← urlsafe_b64decode data;
  Codec.utf8_decode raw.

(** The loop of lines 178-180 (and the inner loop of lines 183-185): the
    value returned from inside the loop, or [None] when the loop ends. *)
Fixpoint first_plain_text (parts : list PyVal) : Outcome (option string) :=
  match parts with
  | [] => mret None
  | part :: rest =>
      found ← is_plain_text_with_data part;
      if found : bool then
        text ← decode_body_data part;
        mret (Some text)
      else first_plain_text rest
  end.

(** The loop of lines 181-185. *)
Fixpoint first_alternative_text (parts : list PyVal) : Outcome (option string) :=
  match parts with
  | [] => mret None
  | part :: rest =>
      mime ← py_item part "mimeType";
      returned ←
        (if eq_str mime "multipart/alternative" then
           has_parts ← py_in "parts" part;
           if has_parts : bool then
             sub_parts ← py_item part "parts";
             sub_parts ← py_iter sub_parts;
             first_plain_text sub_parts
           else mret None
         else mret None);
      match returned with
      | Some text => mret (Some text)
      | None => first_alternative_text rest
      end
  end.

Definition NO_BODY : string := "(No body content)".
Definition NO_PLAIN_TEXT : string := "(Could not extract plain text body)".

(** [_get_email_body(payload)], lines 172-190. *)
Definition _get_email_body (payload : PyVal) : Outcome string :=
  if negb (truth payload) then mret NO_BODY
  else
    has_parts ← py_in "parts" payload;
    returned ←
      (if has_parts : bool then
         parts ← py_item payload "parts";
         parts ← py_iter parts;
         returned ← first_plain_text parts;
         match returned with
         | Some text => mret (Some text)
         | None =>
             parts ← py_item payload "parts";
             parts ← py_iter parts;
             first_alternative_text parts
         end
       else mret None);
    match returned with
    | Some text => mret text
    | None =>
        has_body ← py_in "body" payload;
        has_data ← (if has_body : bool then
                      body ← py_item payload "body";
                      py_in "data" body
                    else mret false);
        if has_data : bool then
          mime_type ← py_get payload "mimeType" (VStr "text/plain");
          is_plain ← py_in "text/plain" mime_type;
          if is_plain : bool then decode_body_data payload
          else mret NO_PLAIN_TEXT
        else mret NO_PLAIN_TEXT
    end.

(** The payload of the specification's example. *)
Definition hello_payload : PyVal :=
  dict [("parts",
         VList [dict [("mimeType", VStr "text/plain");
                      ("body", dict [("data", VStr "aGVsbG8=")])]])].


(** ** The tool handlers *)

Definition AUTH_FAILED : string := "Google authentication failed.".

(** The message of [modify_email] when no label is given. *)
Definition LABELS_REQUIRED : string :=
  "add_labels 또는 remove_labels 중 하나는 제공되어야 합니다.".

Section Handlers.

Variable cfg : Config.
Variable rt : Runtime.

(** [{h['name']: h['value'] for h in headers}].  Keys that are not strings
    are hashed like the others (a list or a dictionary raises) but can never
    answer the string lookups made on the result, so they are not kept. *)
Fixpoint header_dict (hs : list PyVal) (acc : gmap string PyVal)
    : Outcome (gmap string PyVal) :=
  match hs with
  | [] => mret acc
  | h :: rest =>
      name ← py_item h "name";
      value ← py_item h "value";
      match name with
      | VStr k => header_dict rest (<[k := value]> acc)
      | VList _ | VDict _ => Raise TypeError
      | _ => header_dict rest acc
      end
  end.

(** [headers.get(key, default)] on the dictionary built above *)
Definition header (headers : gmap string PyVal) (key : string)
    (default : PyVal) : PyVal :=
  match headers !! key with
  | Some v => v
  | None => default
  end.

(** The two [except] clauses of the Gmail and Calendar handlers. *)
Definition except_api (api_name : string) (e : PyExc) : Py PyVal :=
  match e with
  | HttpError status content =>
      body ← lift_outcome (Codec.utf8_decode content);
      mret (VStr (api_name +:+ " API 오류: " +:+ pretty status +:+ " - " +:+ body))
  | _ => mret (VStr ("예상치 못한 오류 발생: " +:+ exc_str rt e))
  end.

(** The [except] clauses of [update_event] and [delete_event], which
    answer status 404 on its own. *)
Definition except_event (event_id : string) (e : PyExc) : Py PyVal :=
  match e with
  | HttpError status content =>
      if status =? 404 then
        mret (VStr ("ID '" +:+ event_id +:+ "'의 이벤트를 찾을 수 없습니다."))
      else
        body ← lift_outcome (Codec.utf8_decode content);
        mret (VStr ("Calendar API 오류: " +:+ pretty status +:+ " - " +:+ body))
  | _ => mret (VStr ("예상치 못한 오류 발생: " +:+ exc_str rt e))
  end.

(** The [except] clauses of the Drive handlers; [extra] is the [files]
    entry that [search_gdrive] adds. *)
Definition except_drive (extra : list (string * PyVal)) (e : PyExc) : Py PyVal :=
  match e with
  | HttpError _ _ =>
      mret (dict ([("success", VBool false);
                   ("error", VStr ("Google Drive API Error: " +:+ exc_str rt e))]
                  ++ extra))
  | _ =>
      mret (dict ([("success", VBool false);
                   ("error", VStr ("예상치 못한 오류 발생: " +:+ exc_str rt e))]
                  ++ extra))
  end.

(** [list_emails(query, max_results)], lines 213-258. *)
Definition list_emails (query : string) (max_results : Z) : Py PyVal :=
  creds ← get_google_credentials cfg;
  match creds with
  | None => mret (VStr AUTH_FAILED)
  | Some _ =>
      try_except
        (results ← execute (GmailMessagesList "me" max_results
                              (or_str (Some query) ""));
         messages ← lift_outcome (py_get results "messages" (VList []));
         messages ← lift_outcome (py_iter messages);
         email_details ←
           for_each
             (fun msg =>
                id ← lift_outcome (py_item msg "id");
                msg_data ← execute (GmailMessagesGet "me" id "metadata"
                                      (Some ["Subject"; "From"; "Date"]));
                payload ← lift_outcome (py_get msg_data "payload" (dict []));
                hs ← lift_outcome (py_get payload "headers" (VList []));
                hs ← lift_outcome (py_iter hs);
                headers ← lift_outcome (header_dict hs ∅);
                id ← lift_outcome (py_item msg "id");
                threadId ← lift_outcome (py_get msg "threadId" VNone);
                snippet ← lift_outcome (py_get msg_data "snippet" VNone);
                mret (dict [("id", id);
                            ("threadId", threadId);
                            ("subject", header headers "Subject" (VStr "(No Subject)"));
                            ("from", header headers "From" VNone);
                            ("date", header headers "Date" VNone);
                            ("snippet", snippet)]))
             messages;
         mret (VList email_details))
        (except_api "Gmail")
  end.

(** [search_emails(query, max_results)], lines 265-314. *)
Definition search_emails (query : string) (max_results : Z) : Py PyVal :=
  creds ← get_google_credentials cfg;
  match creds with
  | None => mret (VStr AUTH_FAILED)
  | Some _ =>
      try_except
        (results ← execute (GmailMessagesList "me" max_results query);
         messages ← lift_outcome (py_get results "messages" (VList []));
         messages ← lift_outcome (py_iter messages);
         email_details ←
           for_each
             (fun msg =>
                id ← lift_outcome (py_item msg "id");
                msg_full ← execute (GmailMessagesGet "me" id "full" None);
                payload ← lift_outcome (py_get msg_full "payload" (dict []));
                hs ← lift_outcome (py_get payload "headers" (VList []));
                hs ← lift_outcome (py_iter hs);
                headers ← lift_outcome (header_dict hs ∅);
                body ← lift_outcome (_get_email_body payload);
                id ← lift_outcome (py_item msg "id");
                threadId ← lift_outcome (py_get msg "threadId" VNone);
                labels ← lift_outcome (py_get msg_full "labelIds" (VList []));
                snippet ← lift_outcome (py_get msg_full "snippet" VNone);
                mret (dict [("id", id);
                            ("threadId", threadId);
                            ("subject", header headers "Subject" (VStr "(No Subject)"));
                            ("from", header headers "From" VNone);
                            ("to", header headers "To" VNone);
                            ("date", header headers "Date" VNone);
                            ("body", VStr body);
                            ("labels", labels);
                            ("snippet", snippet)]))
             messages;
         mret (VList email_details))
        (except_api "Gmail")
  end.

(** [send_email(to, subject, body, cc, bcc)], lines 321-361. *)
Definition send_email (to subject body : string) (cc bcc : option string)
    : Py PyVal :=
  creds ← get_google_credentials cfg;
  match creds with
  | None => mret (VStr AUTH_FAILED)
  | Some _ =>
      try_except
        (message ← lift_outcome
                     (mime_bytes rt to subject body
                        (if truthy cc then cc else None)
                        (if truthy bcc then bcc else None));
         let encoded_message := Codec.urlsafe_b64encode message in
         let create_message := dict [("raw", VStr encoded_message)] in
         send_message ← execute (GmailMessagesSend "me" create_message);
         id ← lift_outcome (py_item send_message "id");
         mret (VStr ("이메일 발송 성공. 메시지 ID: " +:+ format_value rt id)))
        (except_api "Gmail")
  end.

(** [modify_email(id, add_labels, remove_labels)], lines 368-404. *)
Definition modify_email (id : string) (add_labels remove_labels : option (list string))
    : Py PyVal :=
  creds ← get_google_credentials cfg;
  match creds with
  | None => mret (VStr AUTH_FAILED)
  | Some _ =>
      if negb (truthy_list add_labels) && negb (truthy_list remove_labels) then
        mret (VStr LABELS_REQUIRED)
      else
        try_except
          (let body : gmap string PyVal := ∅ in
           let body :=
             match add_labels with
             | Some ((_ :: _) as labels) => <["addLabelIds" := VList (VStr <$> labels)]> body
             | _ => body
             end in
           let body :=
             match remove_labels with
             | Some ((_ :: _) as labels) => <["removeLabelIds" := VList (VStr <$> labels)]> body
             | _ => body
             end in
           message ← execute (GmailMessagesModify "me" id (VDict body));
           mid ← lift_outcome (py_item message "id");
           mret (VStr ("이메일 수정 성공. 메시지 ID " +:+ format_value rt mid
                       +:+ "의 라벨 업데이트 완료.")))
          (except_api "Gmail")
  end.

(** [a or b] on values *)
Definition or_val (a : PyVal) (b : Outcome PyVal) : Outcome PyVal :=
  if truth a then Return a else b.

(** [list_events(time_min, time_max, max_results)], lines 411-461. *)
Definition list_events (time_min time_max : option string) (max_results : Z)
    : Py PyVal :=
  creds ← get_google_credentials cfg;
  match creds with
  | None => mret (VStr AUTH_FAILED)
  | Some _ =>
      try_except
        (t ← utcnow;
         let now_iso := isoformat rt t in
         let time_min := or_str time_min now_iso in
         let time_max := or_str time_max now_iso in
         events_result ← execute (CalendarEventsList "primary" time_min time_max
                                    max_results true "startTime");
         events ← lift_outcome (py_get events_result "items" (VList []));
         events ← lift_outcome (py_iter events);
         event_list ←
           for_each
             (fun event =>
                lift_outcome
                  (id ← py_get event "id" VNone;
                   summary ← py_get event "summary" VNone;
                   start ← py_get event "start" (dict []);
                   start ← py_get start "dateTime" VNone;
                   start ← or_val start (start ← py_get event "start" (dict []);
                                         py_get start "date" VNone);
                   end_ ← py_get event "end" (dict []);
                   end_ ← py_get end_ "dateTime" VNone;
                   end_ ← or_val end_ (end_ ← py_get event "end" (dict []);
                                       py_get end_ "date" VNone);
                   location ← py_get event "location" VNone;
                   description ← py_get event "description" VNone;
                   mret (dict [("id", id);
                               ("summary", summary);
                               ("start", start);
                               ("end", end_);
                               ("location", location);
                               ("description", description)])))
             events;
         mret (VList event_list))
        (except_api "Calendar")
  end.

Definition event_tz : string := "Asia/Seoul".

(** [{'dateTime': t, 'timeZone': event_tz}] *)
Definition event_time (t : string) : PyVal :=
  dict [("dateTime", VStr t); ("timeZone", VStr event_tz)].

(** [[{'email': email} for email in attendees]] *)
Definition attendee_list (attendees : list string) : PyVal :=
  VList ((fun email => dict [("email", VStr email)]) <$> attendees).

(** [create_event(summary, start, end, location, description, attendees)],
    lines 468-511. *)
Definition create_event (summary start end_ : string)
    (location description : option string) (attendees : option (list string))
    : Py PyVal :=
  creds ← get_google_credentials cfg;
  match creds with
  | None => mret (VStr AUTH_FAILED)
  | Some _ =>
      try_except
        (let event : gmap string PyVal :=
           list_to_map [("summary", VStr summary);
                        ("location", VStr (or_str location ""));
                        ("description", VStr (or_str description ""));
                        ("start", event_time start);
                        ("end", event_time end_)] in
         let event :=
           match attendees with
           | Some ((_ :: _) as emails) => <["attendees" := attendee_list emails]> event
           | _ => event
           end in
         created_event ← execute (CalendarEventsInsert "primary" (VDict event));
         _ ← lift_outcome (py_get created_event "htmlLink" VNone);
         id ← lift_outcome (py_item created_event "id");
         mret (VStr ("이벤트 생성 성공. 이벤트 ID: " +:+ format_value rt id)))
        (except_api "Calendar")
  end.

(** Lines 546-552 of [update_event]: the fields to overlay, one entry for
    every argument that is not [None]. *)
Definition update_payload (summary start end_ location description : option string)
    (attendees : option (list string)) : gmap string PyVal :=
  let update_payload : gmap string PyVal := ∅ in
  let update_payload :=
    match summary with
    | Some s => <["summary" := VStr s]> update_payload
    | None => update_payload
    end in
  let update_payload :=
    match location with
    | Some s => <["location" := VStr s]> update_payload
    | None => update_payload
    end in
  let update_payload :=
    match description with
    | Some s => <["description" := VStr s]> update_payload
    | None => update_payload
    end in
  let update_payload :=
    match start with
    | Some t => <["start" := event_time t]> update_payload
    | None => update_payload
    end in
  let update_payload :=
    match end_ with
    | Some t => <["end" := event_time t]> update_payload
    | None => update_payload
    end in
  match attendees with
  | Some emails => <["attendees" := attendee_list emails]> update_payload
  | None => update_payload
  end.

(** [update_event(event_id, summary, start, end, location, description,
    attendees)], lines 518-568. *)
Definition update_event (event_id : string)
    (summary start end_ location description : option string)
    (attendees : option (list string)) : Py PyVal :=
  creds ← get_google_credentials cfg;
  match creds with
  | None => mret (VStr AUTH_FAILED)
  | Some _ =>
      try_except
        (event ← execute (CalendarEventsGet "primary" event_id);
         let update_payload :=
           update_payload summary start end_ location description attendees in
         event ← lift_outcome (py_update event update_payload);
         updated_event ← execute (CalendarEventsUpdate "primary" event_id event);
         _ ← lift_outcome (py_get updated_event "htmlLink" VNone);
         id ← lift_outcome (py_item updated_event "id");
         mret (VStr ("이벤트 업데이트 성공. 이벤트 ID: " +:+ format_value rt id)))
        (except_event event_id)
  end.

(** [delete_event(event_id)], lines 575-602. *)
Definition delete_event (event_id : string) : Py PyVal :=
  creds ← get_google_credentials cfg;
  match creds with
  | None => mret (VStr AUTH_FAILED)
  | Some _ =>
      try_except
        (_ ← execute (CalendarEventsDelete "primary" event_id);
         mret (VStr ("이벤트 삭제 성공. 이벤트 ID: " +:+ event_id)))
        (except_event event_id)
  end.

(** [base64.b64encode(v).decode('utf-8')] *)
Definition b64encode_value (v : PyVal) : Outcome PyVal :=
  match v with
  | VBytes b => Return (VStr (Codec.b64encode b))
  | _ => Raise TypeError
  end.

(** Lines 712-722 of [read_gdrive_file]: the export format of a native
    document. *)
Definition export_format (mime_type : PyVal) : string :=
  if eq_str mime_type "application/vnd.google-apps.document" then "text/markdown"
  else if eq_str mime_type "application/vnd.google-apps.spreadsheet" then "text/csv"
  else if eq_str mime_type "application/vnd.google-apps.presentation" then "text/plain"
  else if eq_str mime_type "application/vnd.google-apps.drawing" then "image/png"
  else "text/plain".

(** [search_google(query, num_results)], lines 609-668.  It reads no
    credentials: the search service is built with the API key. *)
Definition search_google (query : string) (num_results : Z) : Py PyVal :=
  try_except
    (result ← execute (CustomSearchList (GOOGLE_API_KEY cfg) query
                         (GOOGLE_CSE_ID cfg) num_results);
     has_items ← lift_outcome (py_in "items" result);
     formatted_results ←
       (if has_items : bool then
          items ← lift_outcome (py_item result "items");
          items ← lift_outcome (py_iter items);
          for_each
            (fun item =>
               lift_outcome
                 (title ← py_get item "title" (VStr "");
                  link ← py_get item "link" (VStr "");
                  snippet ← py_get item "snippet" (VStr "");
                  mret (dict [("title", title);
                              ("link", link);
                              ("snippet", snippet)])))
            items
        else mret []);
     info ← lift_outcome (py_get result "searchInformation" (dict []));
     total ← lift_outcome (py_get info "totalResults" (VStr "0"));
     mret (dict [("success", VBool true);
                 ("results", VList formatted_results);
                 ("total_results", total)]))
    (fun e =>
       match e with
       | HttpError _ _ =>
           mret (dict [("success", VBool false);
                       ("error", VStr ("API Error: " +:+ exc_str rt e));
                       ("results", VList [])])
       | _ =>
           mret (dict [("success", VBool false);
                       ("error", VStr (exc_str rt e));
                       ("results", VList [])])
       end).

(** [read_gdrive_file(file_id)], lines 674-782. *)
Definition read_gdrive_file (file_id : string) : Py PyVal :=
  creds ← get_google_credentials cfg;
  match creds with
  | None => mret (dict [("success", VBool false); ("error", VStr AUTH_FAILED)])
  | Some _ =>
      try_except
        (file ← execute (DriveFilesGet file_id "mimeType,name");
         file_name ← lift_outcome (py_get file "name" (VStr file_id));
         mime_type ← lift_outcome
                        (py_get file "mimeType" (VStr "application/octet-stream"));
         native ← lift_outcome (py_startswith mime_type "application/vnd.google-apps");
         if native : bool then
           let export_mime_type := export_format mime_type in
           response ← execute (DriveFilesExport file_id export_mime_type);
           let is_text := PyStr.startswith export_mime_type "text/"
                          || String.eqb export_mime_type "application/json" in
           content ← (if is_text then mret response
                      else lift_outcome (b64encode_value response));
           mret (dict [("success", VBool true);
                       ("name", file_name);
                       ("mime_type", VStr export_mime_type);
                       ("content", content);
                       ("is_text", VBool is_text)])
         else
           content_bytes ← download (DriveFilesGetMedia file_id);
           is_text ← lift_outcome
                       (text ← py_startswith mime_type "text/";
                        mret (text || eq_str mime_type "application/json"));
           content ← (if is_text : bool
                      then lift_outcome (Codec.utf8_decode content_bytes)
                      else mret (Codec.b64encode content_bytes));
           mret (dict [("success", VBool true);
                       ("name", file_name);
                       ("mime_type", mime_type);
                       ("content", VStr content);
                       ("is_text", VBool is_text)]))
        (except_drive [])
  end.

(** [search_gdrive(query, page_token, page_size)], lines 788-892. *)
Definition search_gdrive (query : string) (page_token : option string)
    (page_size : option Z) : Py PyVal :=
  creds ← get_google_credentials cfg;
  match creds with
  | None => mret (dict [("success", VBool false); ("error", VStr AUTH_FAILED)])
  | Some _ =>
      try_except
        (let search_query := build_search_query query in
         let page_size := effective_page_size page_size in
         response ← execute (DriveFilesList search_query page_size page_token
                               "modifiedTime desc"
                               "nextPageToken, files(id, name, mimeType, modifiedTime, size)");
         files ← lift_outcome (py_get response "files" (VList []));
         next_page_token ← lift_outcome (py_get response "nextPageToken" VNone);
         files ← lift_outcome (py_iter files);
         formatted_files ←
           for_each
             (fun file =>
                lift_outcome
                  (id ← py_get file "id" (VStr "");
                   name ← py_get file "name" (VStr "");
                   mime_type ← py_get file "mimeType" (VStr "");
                   modified_time ← py_get file "modifiedTime" (VStr "");
                   size ← py_get file "size" (VStr "N/A");
                   mret (dict [("id", id);
                               ("name", name);
                               ("mime_type", mime_type);
                               ("modified_time", modified_time);
                               ("size", size)])))
             files;
         mret (dict [("success", VBool true);
                     ("files", VList formatted_files);
                     ("total_files", VInt (Z.of_nat (length formatted_files)));
                     ("next_page_token", next_page_token)]))
        (except_drive [("files", VList [])])
  end.

End Handlers.

(** *** More sample worlds *)

Definition sample_runtime : Runtime :=
  {| exc_str := fun e =>
       match e with
       | HttpError status _ => "<HttpError " +:+ pretty status +:+ ">"
       | KeyError key => "'" +:+ key +:+ "'"
       | OtherError msg => msg
       | _ => "error"
       end;
     repr := fun _ => "<value>";
     isoformat := fun t => "T+" +:+ pretty t;
     mime_bytes := fun to subject body _ _ =>
       Return ("To: " +:+ to +:+ " Subject: " +:+ subject +:+ " " +:+ body) |}.

(** A world whose stored token is valid until 5000: acquisition succeeds
    without a refresh. *)
Definition valid_token_json : TokenJson :=
  {| j_token := Some "access-token";
     j_refresh_token := Some (Some "refresh-token");
     j_token_uri := Some "https://oauth2.googleapis.com/token";
     j_client_id := Some (Some "client-id");
     j_client_secret := Some (Some "client-secret");
     j_scopes := Some SCOPES;
     j_expiry := Some 5000 |}.

Definition authorized_world (replies : list (Outcome PyVal)) : World :=
  {| token_file := Some (Parsed valid_token_json);
     disk := DiskOk;
     now := 1000;
     token_endpoint := [];
     api := replies;
     chunks := [];
     trace := [] |}.

(** A world without a token file (and, with [no_secrets], without
    credentials of any kind). *)
Definition unauthorized_world (replies : list (Outcome PyVal)) : World :=
  {| token_file := None;
     disk := DiskOk;
     now := 1000;
     token_endpoint := [];
     api := replies;
     chunks := [];
     trace := [] |}.

Definition no_secrets : Config :=
  {| GOOGLE_CLIENT_ID := None;
     GOOGLE_CLIENT_SECRET := None;
     GOOGLE_REFRESH_TOKEN := None;
     GOOGLE_API_KEY := Some "api-key";
     GOOGLE_CSE_ID := Some "engine-id" |}.

(** An error reply whose body is the single byte 0xFF: not UTF-8. *)
Definition undecodable_error : PyExc :=
  HttpError 500 (PyStr.bytes_str [255%N]).

(** *** Notions used to state the properties of the handlers *)

(** The MIME-type clause that [search_gdrive] adds for a phrase whose
    lower-case form is [lowered]: the first keyword found decides, in the
    order sheet, doc, presentation or slide. *)
Definition MimeClause (lowered clause : string) : Prop :=
  (Occurs "sheet" lowered ->
   clause = " or mimeType = 'application/vnd.google-apps.spreadsheet'")
  /\ (~ Occurs "sheet" lowered -> Occurs "doc" lowered ->
      clause = " or mimeType = 'application/vnd.google-apps.document'")
  /\ (~ Occurs "sheet" lowered -> ~ Occurs "doc" lowered ->
      Occurs "presentation" lowered \/ Occurs "slide" lowered ->
      clause = " or mimeType = 'application/vnd.google-apps.presentation'")
  /\ (~ Occurs "sheet" lowered -> ~ Occurs "doc" lowered ->
      ~ Occurs "presentation" lowered -> ~ Occurs "slide" lowered ->
      clause = "").

(** The fields that [search_gdrive] always passes to [files().list]. *)
Definition FILES_ORDER : string := "modifiedTime desc".
Definition FILES_FIELDS : string :=
  "nextPageToken, files(id, name, mimeType, modifiedTime, size)".

(** An event is a request to one of the Google APIs. *)
Definition is_api_call (ev : Event) : bool :=
  match ev with
  | ApiCall _ => true
  | _ => false
  end.

(** The record that [get_google_credentials] returns in [authorized_world]. *)
Definition stored_credentials : Credentials :=
  {| token := Some "access-token";
     refresh_token := Some "refresh-token";
     token_uri := Some "https://oauth2.googleapis.com/token";
     client_id := Some "client-id";
     client_secret := Some "client-secret";
     scopes := SCOPES;
     expiry := Some 5000 |}.

(** The six fields that [update_event] can overlay. *)
Definition UPDATABLE : list string :=
  ["summary"; "location"; "description"; "start"; "end"; "attendees"].

(** A stored event with a location and two attendees. *)
Definition stored_event : gmap string PyVal :=
  list_to_map [("id", VStr "ev1");
               ("summary", VStr "Weekly sync");
               ("location", VStr "Room 4");
               ("attendees", attendee_list ["ann@example.com"; "bob@example.com"])].

(** ** Tool invocations *)

(** A call of one of the eleven registered tools with its validated
    arguments ([get_available_google_tools] lists the names). *)
Inductive Invocation : Type :=
| ListEmails (query : string) (max_results : Z)
| SearchEmails (query : string) (max_results : Z)
| SendEmail (to subject body : string) (cc bcc : option string)
| ModifyEmail (id : string) (add_labels remove_labels : option (list string))
| ListEvents (time_min time_max : option string) (max_results : Z)
| CreateEvent (summary start end_ : string) (location description : option string)
    (attendees : option (list string))
| UpdateEvent (event_id : string)
    (summary start end_ location description : option string)
    (attendees : option (list string))
| DeleteEvent (event_id : string)
| SearchGoogle (query : string) (num_results : Z)
| ReadGdriveFile (file_id : string)
| SearchGdrive (query : string) (page_token : option string) (page_size : option Z).

Definition tool_name (call : Invocation) : string :=
  match call with
  | ListEmails _ _ => "list_emails"
  | SearchEmails _ _ => "search_emails"
  | SendEmail _ _ _ _ _ => "send_email"
  | ModifyEmail _ _ _ => "modify_email"
  | ListEvents _ _ _ => "list_events"
  | CreateEvent _ _ _ _ _ _ => "create_event"
  | UpdateEvent _ _ _ _ _ _ _ => "update_event"
  | DeleteEvent _ => "delete_event"
  | SearchGoogle _ _ => "search_google"
  | ReadGdriveFile _ => "read_gdrive_file"
  | SearchGdrive _ _ _ => "search_gdrive"
  end.

(** The handler that the server runs for an invocation. *)
Definition run_tool (cfg : Config) (rt : Runtime) (call : Invocation) : Py PyVal :=
  match call with
  | ListEmails query max_results => list_emails cfg rt query max_results
  | SearchEmails query max_results => search_emails cfg rt query max_results
  | SendEmail to subject body cc bcc => send_email cfg rt to subject body cc bcc
  | ModifyEmail id add_labels remove_labels =>
      modify_email cfg rt id add_labels remove_labels
  | ListEvents time_min time_max max_results =>
      list_events cfg rt time_min time_max max_results
  | CreateEvent summary start end_ location description attendees =>
      create_event cfg rt summary start end_ location description attendees
  | UpdateEvent event_id summary start end_ location description attendees =>
      update_event cfg rt event_id summary start end_ location description attendees
  | DeleteEvent event_id => delete_event cfg rt event_id
  | SearchGoogle query num_results => search_google cfg rt query num_results
  | ReadGdriveFile file_id => read_gdrive_file cfg rt file_id
  | SearchGdrive query page_token page_size =>
      search_gdrive cfg rt query page_token page_size
  end.

(** The handlers that begin with [get_google_credentials()]: all but
    [search_google]. *)
Definition acquires_credentials (call : Invocation) : bool :=
  match call with
  | SearchGoogle _ _ => false
  | _ => true
  end.

(** What a handler returns when the credentials are missing: the message
    itself, or for the two Drive handlers a dictionary that carries it. *)
Definition auth_failed_payload (call : Invocation) : PyVal :=
  match call with
  | ReadGdriveFile _ | SearchGdrive _ _ _ =>
      dict [("success", VBool false); ("error", VStr AUTH_FAILED)]
  | _ => VStr AUTH_FAILED
  end.

(** [m] neither sends a request nor touches the token file. *)
Definition pure_py {A : Type} (m : Py A) : Prop := forall w, (m w).2 = w.

(** All that [m] does to the outside is send requests to the APIs. *)
Definition api_only {A : Type} (m : Py A) : Prop :=
  forall w, exists evs,
    trace (m w).2 = trace w ++ evs /\ forallb is_api_call evs = true.

(** *** Message parts as Gmail delivers them *)

(** A [MessagePart] of the Gmail API: its MIME type, the base64 data of
    its body when it has any, and its sub-parts. *)
Inductive MessagePart : Type :=
| Part (mimeType : string) (data : option string) (parts : list MessagePart).

(** The JSON value of a message part: [mimeType] and [body] always, [data]
    inside the body and [parts] when there are any. *)
Fixpoint part_value (p : MessagePart) : PyVal :=
  match p with
  | Part mimeType data parts =>
      dict ([("mimeType", VStr mimeType);
             ("body", dict (match data with
                            | Some d => [("data", VStr d)]
                            | None => []
                            end))]
            ++ match parts with
               | [] => []
               | _ :: _ => [("parts", VList (map part_value parts))]
               end)
  end.

Definition sub_parts (p : MessagePart) : list MessagePart :=
  match p with Part _ _ parts => parts end.

(** The data of a part that is [text/plain] and has body data. *)
Definition plain_text_data (p : MessagePart) : option string :=
  match p with
  | Part mimeType (Some d) _ =>
      if String.eqb mimeType "text/plain" then Some d else None
  | Part _ None _ => None
  end.

Definition is_alternative (p : MessagePart) : bool :=
  match p with Part mimeType _ _ => String.eqb mimeType "multipart/alternative" end.

(** URL-safe base64, then UTF-8. *)
Definition decode_data (d : string) : Outcome string :=
  raw ← urlsafe_b64decode (VStr d);
  Codec.utf8_decode raw.

(** The text that a search of two levels finds: the first plain-text part
    among the parts of the payload; failing that, the first plain-text part
    among the parts of its [multipart/alternative] parts; failing that, the
    body of the payload itself when its type mentions [text/plain]. *)
Definition two_level_body (p : MessagePart) : Outcome string :=
  match p with
  | Part mimeType data parts =>
      match head (omap plain_text_data parts) with
      | Some d => decode_data d
      | None =>
          match head (omap plain_text_data
                        (flat_map sub_parts (List.filter is_alternative parts))) with
          | Some d => decode_data d
          | None =>
              match data with
              | Some d =>
                  if PyStr.contains "text/plain" mimeType then decode_data d
                  else Return NO_PLAIN_TEXT
              | None => Return NO_PLAIN_TEXT
              end
          end
      end
  end.

(** Following the specification: the first [text/plain] leaf met by a
    depth-first traversal of the whole structure. *)
Fixpoint first_plain_leaf (p : MessagePart) : option string :=
  match p with
  | Part mimeType data parts =>
      match parts with
      | [] => if String.eqb mimeType "text/plain" then data else None
      | _ :: _ =>
          (fix first_of (ps : list MessagePart) : option string :=
             match ps with
             | [] => None
             | q :: rest =>
                 match first_plain_leaf q with
                 | Some d => Some d
                 | None => first_of rest
                 end
             end) parts
      end
  end.

Definition claimed_email_body (p : MessagePart) : Outcome string :=
  match first_plain_leaf p with
  | Some d => decode_data d
  | None => Return NO_PLAIN_TEXT
  end.

(** A message whose plain text lies three levels down:
    mixed > related > alternative > text/plain. *)
Definition nested_message : MessagePart :=
  Part "multipart/mixed" None
    [Part "multipart/related" None
       [Part "multipart/alternative" None
          [Part "text/plain" (Some "aGVsbG8=") [];
           Part "text/html" (Some "PGI-aGVsbG88L2I-") []];
        Part "image/png" None []];
     Part "application/pdf" None []].

(** The only exception [m] can raise is [UnicodeDecodeError]. *)
Definition raises_only_decode_error {A : Type} (m : Py A) : Prop :=
  forall w e w', m w = (Raise e, w') -> e = UnicodeDecodeError.

(** [m] never raises. *)
Definition never_raises {A : Type} (m : Py A) : Prop :=
  forall w, exists a w', m w = (Return a, w').

(** The handlers whose [except] clauses render the error with [str(error)]
    and decode nothing. *)
Definition renders_error_with_str (call : Invocation) : bool :=
  match call with
  | SearchGoogle _ _ | ReadGdriveFile _ | SearchGdrive _ _ _ => true
  | _ => false
  end.

(** The result of a loop that returns the decoded data [d] when it finds
    some, and runs to its end otherwise. *)
Definition loop_result (found : option string) : Outcome (option string) :=
  match found with
  | Some d => text ← decode_data d; mret (Some text)
  | None => mret None
  end.

(** ** Further notions for the properties beyond the claims *)


(** [get_available_google_tools()], lines 198-206: the list it returns. *)
Definition get_available_google_tools : list string :=
  [ "list_emails"; "search_emails"; "send_email"; "modify_email";
    "list_events"; "create_event"; "update_event"; "delete_event";
    "search_google"; "read_gdrive_file"; "search_gdrive" ].

(** [get_refresh_token.py], lines 31-40: the object it dumps to
    [token.json].  The six keys are always written, [null] for a value
    that is [None]; there is no [expiry]. *)
Definition token_data (creds : Credentials) : TokenJson :=
  {| j_token := token creds;
     j_refresh_token := Some (refresh_token creds);
     j_token_uri := token_uri creds;
     j_client_id := Some (client_id creds);
     j_client_secret := Some (client_secret creds);
     j_scopes := Some (scopes creds);
     j_expiry := None |}.

(** [get_refresh_token()], lines 15-45, given what the interactive flow
    [flow.run_local_server] produced: the credentials are printed and
    written to [token.json]; any exception is caught and printed. *)
Definition get_refresh_token (flow : Outcome Credentials) (w : World) : World :=
  match flow with
  | Raise _ => w
  | Return creds =>
      let w' f :=
        mkWorld (Some f) (disk w) (now w) (token_endpoint w) (api w) (chunks w)
          (trace w) in
      match disk w with
      | OpenFails => w
      | WriteFails => w' Unreadable
      | DiskOk => w' (Parsed (token_data creds))
      end
  end.

(** The credentials that the interactive flow hands to
    [get_refresh_token] in the examples. *)
Definition flow_credentials : Credentials :=
  {| token := Some "first-access-token";
     refresh_token := Some "refresh-token";
     token_uri := Some "https://oauth2.googleapis.com/token";
     client_id := Some "client-id";
     client_secret := Some "client-secret";
     scopes := SCOPES;
     expiry := Some 4600 |}.

(** A world with nothing on disk. *)
Definition fresh_world (grants : list (option Grant)) : World :=
  {| token_file := None;
     disk := DiskOk;
     now := 1000;
     token_endpoint := grants;
     api := [];
     chunks := [];
     trace := [] |}.

(** [authorized_world] on a disk that refuses writes. *)
Definition read_only_world : World :=
  {| token_file := Some (Parsed valid_token_json);
     disk := OpenFails;
     now := 1000;
     token_endpoint := [Some sample_grant];
     api := [];
     chunks := [];
     trace := [] |}.

(** The result envelope of the search and Drive handlers: a dictionary
    with a boolean [success], and an [error] message when it is false. *)
Definition is_envelope (v : PyVal) : Prop :=
  exists (d : gmap string PyVal) (success : bool),
    v = VDict d
    /\ d !! "success" = Some (VBool success)
    /\ (success = false -> exists msg, d !! "error" = Some (VStr msg)).

(** Every value that [m] returns is an envelope. *)
Definition returns_envelope (m : Py PyVal) : Prop :=
  forall w v w', m w = (Return v, w') -> is_envelope v.

(** The message of [update_event] and [delete_event] for a missing event. *)
Definition event_not_found (event_id : string) : string :=
  "ID '" +:+ event_id +:+ "'의 이벤트를 찾을 수 없습니다.".

(** The replies of a download that delivers [parts] one after the other
    and reports completion with [last]. *)
Definition chunk_replies (parts : list string) (last : string)
    : list (Outcome (string * bool)) :=
  ((fun data => Return (data, false)) <$> parts) ++ [Return (last, true)].

(** The bytes of the chunks, joined. *)
Fixpoint joined (parts : list string) : string :=
  match parts with
  | [] => ""
  | data :: rest => data +:+ joined rest
  end.

Definition DRAWING : string := "application/vnd.google-apps.drawing".

(** A world with valid credentials, the given API replies and the given
    replies to [next_chunk]. *)
Definition download_world (replies : list (Outcome PyVal))
    (chunk_script : list (Outcome (string * bool))) : World :=
  {| token_file := Some (Parsed valid_token_json);
     disk := DiskOk;
     now := 1000;
     token_endpoint := [];
     api := replies;
     chunks := chunk_script;
     trace := [] |}.

(** The metadata of a plain text file and of a drawing. *)
Definition text_file_meta : gmap string PyVal :=
  list_to_map [("name", VStr "notes.txt"); ("mimeType", VStr "text/plain")].

Definition drawing_meta : gmap string PyVal :=
  list_to_map [("name", VStr "sketch"); ("mimeType", VStr DRAWING)].

(** [d.get(key, default)] on a dictionary that is known to be one *)
Definition get_or (d : gmap string PyVal) (key : string) (default : PyVal) : PyVal :=
  match d !! key with
  | Some v => v
  | None => default
  end.

(** The entry of [search_gdrive]'s result for one file of the listing. *)
Definition format_file (file : gmap string PyVal) : PyVal :=
  dict [("id", get_or file "id" (VStr ""));
        ("name", get_or file "name" (VStr ""));
        ("mime_type", get_or file "mimeType" (VStr ""));
        ("modified_time", get_or file "modifiedTime" (VStr ""));
        ("size", get_or file "size" (VStr "N/A"))].

(** A listing of two files, the second without a size. *)
Definition sample_listing : gmap string PyVal :=
  list_to_map
    [("files",
      VList [dict [("id", VStr "f1"); ("name", VStr "a.txt"); ("size", VStr "12")];
             dict [("id", VStr "f2"); ("name", VStr "b")]]);
     ("nextPageToken", VStr "page-2")].

(** ** Base64 digits and bytes, for the round trip of the codec *)

(** The translation that [urlsafe_b64encode] applies to each digit. *)
Definition to_urlsafe (c : ascii) : ascii :=
  if Ascii.eqb c "+" then "-"%char
  else if Ascii.eqb c "/" then "_"%char
  else c.

(** One more byte in front of a decoder's output. *)
Definition emit_byte (a : ascii) (o : Outcome string) : Outcome string :=
  match o with
  | Return out => Return (String a out)
  | Raise e => Raise e
  end.

Definition all_bytes : list ascii := map ascii_of_nat (seq 0 256).
Definition all_digits : list N := map N.of_nat (seq 0 64).

(** The four digits of a group of three bytes. *)
Definition digit1 (x : ascii) : N := N.shiftr (N_of_ascii x) 2.
Definition digit2 (x y : ascii) : N :=
  N.lor (N.shiftl (N.land (N_of_ascii x) 3) 4) (N.shiftr (N_of_ascii y) 4).
Definition digit3 (y z : ascii) : N :=
  N.lor (N.shiftl (N.land (N_of_ascii y) 15) 2) (N.shiftr (N_of_ascii z) 6).
Definition digit4 (z : ascii) : N := N.land (N_of_ascii z) 63.

Definition digit_ok (v : N) : bool :=
  let d := Codec.b64_digit v in
  match Codec.b64_value d with Some u => (u =? v)%N | None => false end
  && negb (Ascii.eqb d "=")
  && Codec.byte_in 0 127 (to_urlsafe d)
  && Ascii.eqb (Codec.urlsafe_translate (to_urlsafe d)) d.

Definition first_byte_ok (x y : ascii) : bool :=
  (digit1 x <? 64)%N && (digit2 x y <? 64)%N
  && Ascii.eqb (ascii_of_N (N.lor (N.shiftl (digit1 x) 2) (N.shiftr (digit2 x y) 4))) x
  && (N.land (digit2 x y) 15 =? N.shiftr (N_of_ascii y) 4)%N.

Definition second_byte_ok (y z : ascii) : bool :=
  (digit3 y z <? 64)%N
  && Ascii.eqb (ascii_of_N (N.lor (N.shiftl (N.shiftr (N_of_ascii y) 4) 4)
                                  (N.shiftr (digit3 y z) 2))) y
  && (N.land (digit3 y z) 3 =? N.shiftr (N_of_ascii z) 6)%N.

Definition third_byte_ok (z : ascii) : bool :=
  (digit4 z <? 64)%N
  && Ascii.eqb (ascii_of_N (N.lor (N.shiftl (N.shiftr (N_of_ascii z) 6) 6) (digit4 z))) z.

(** A [text/plain] message part with the given body data. *)
Definition plain_text_payload (data : string) : PyVal :=
  dict [("mimeType", VStr "text/plain"); ("body", dict [("data", VStr data)])].

(** The entry of [search_google]'s result for one item of the reply. *)
Definition format_item (item : gmap string PyVal) : PyVal :=
  dict [("title", get_or item "title" (VStr ""));
        ("link", get_or item "link" (VStr ""));
        ("snippet", get_or item "snippet" (VStr ""))].

(** A reply of the Custom Search API with one item that has no snippet. *)
Definition sample_search_reply : gmap string PyVal :=
  list_to_map
    [("items", VList [dict [("title", VStr "Rocq"); ("link", VStr "https://rocq-prover.org")]])].

(** *** Messages as Gmail lists and describes them *)

(** An entry of [messages.list]: the ids of the message and its thread. *)
Record Listed : Type := mkListed { l_id : string; l_thread : string }.

Definition listed_value (l : Listed) : PyVal :=
  dict [("id", VStr (l_id l)); ("threadId", VStr (l_thread l))].

(** The reply of [messages.get] in the metadata format: the headers, in
    the order of the message, and the snippet. *)
Record Metadata : Type := mkMetadata {
  m_headers : list (string * string);
  m_snippet : string
}.

Definition header_value (h : string * string) : PyVal :=
  dict [("name", VStr h.1); ("value", VStr h.2)].

Definition metadata_value (m : Metadata) : PyVal :=
  dict [("payload", dict [("headers", VList (header_value <$> m_headers m))]);
        ("snippet", VStr (m_snippet m))].

(** The value of the last header with the given name, the case of the
    name included. *)
Fixpoint last_header (name : string) (hs : list (string * string))
    : option string :=
  match hs with
  | [] => None
  | (n, v) :: rest =>
      match last_header name rest with
      | Some x => Some x
      | None => if String.eqb n name then Some v else None
      end
  end.

Definition header_or (name : string) (hs : list (string * string))
    (default : PyVal) : PyVal :=
  match last_header name hs with
  | Some v => VStr v
  | None => default
  end.

(** The entry of [list_emails]'s result for a listed message and its
    metadata. *)
Definition email_summary (lm : Listed * Metadata) : PyVal :=
  dict [("id", VStr (l_id lm.1));
        ("threadId", VStr (l_thread lm.1));
        ("subject", header_or "Subject" (m_headers lm.2) (VStr "(No Subject)"));
        ("from", header_or "From" (m_headers lm.2) VNone);
        ("date", header_or "Date" (m_headers lm.2) VNone);
        ("snippet", VStr (m_snippet lm.2))].

(** The request [list_emails] makes for a listed message. *)
Definition metadata_request (lm : Listed * Metadata) : Event :=
  ApiCall (GmailMessagesGet "me" (VStr (l_id lm.1)) "metadata"
             (Some ["Subject"; "From"; "Date"])).

(** Two listed messages; the first has two subjects and a lower-case
    [from], the second no header at all. *)
Definition sample_mailbox : list (Listed * Metadata) :=
  [(mkListed "m1" "t1",
    mkMetadata [("Subject", "draft"); ("from", "a@example.org");
                ("Subject", "final")] "Hello");
   (mkListed "m2" "t1", mkMetadata [] "")].

(** The listing of [sample_mailbox] and the replies of Gmail to
    [list_emails] on it. *)
Definition sample_mail_listing : gmap string PyVal :=
  list_to_map
    [("messages", VList ((fun lm => listed_value lm.1) <$> sample_mailbox))].

Definition sample_mail_replies : list (Outcome PyVal) :=
  Return (VDict sample_mail_listing)
  :: ((fun lm => Return (metadata_value lm.2)) <$> sample_mailbox) ++ [].

(** *** Calendar events as [list_events] shows them *)

(** The [start] or [end] of an event is absent or an object. *)
Definition is_time (t : option PyVal) : bool :=
  match t with
  | None | Some (VDict _) => true
  | Some _ => false
  end.

Definition well_timed (event : gmap string PyVal) : bool :=
  is_time (event !! "start") && is_time (event !! "end").

(** The time shown for a [start] or [end]: its [dateTime] when it has a
    non-empty one, its [date] otherwise, [None] when it has neither. *)
Definition shown_time (t : option PyVal) : PyVal :=
  match t with
  | Some (VDict time) =>
      if truth (get_or time "dateTime" VNone) then get_or time "dateTime" VNone
      else get_or time "date" VNone
  | _ => VNone
  end.

(** The entry of [list_events]'s result for one event of the reply. *)
Definition format_event (event : gmap string PyVal) : PyVal :=
  dict [("id", get_or event "id" VNone);
        ("summary", get_or event "summary" VNone);
        ("start", shown_time (event !! "start"));
        ("end", shown_time (event !! "end"));
        ("location", get_or event "location" VNone);
        ("description", get_or event "description" VNone)].

(** A timed event and an all-day event without a summary. *)
Definition sample_events : list (gmap string PyVal) :=
  [list_to_map [("id", VStr "e1"); ("summary", VStr "Review");
                ("start", dict [("dateTime", VStr "2026-01-05T10:00:00+09:00")]);
                ("end", dict [("dateTime", VStr "2026-01-05T11:00:00+09:00")])];
   list_to_map [("id", VStr "e2");
                ("start", dict [("date", VStr "2026-01-06")]);
                ("end", dict [("date", VStr "2026-01-07")])]].

Definition sample_calendar : gmap string PyVal :=
  list_to_map [("items", VList (VDict <$> sample_events))].


(** * Properties *)

(** ** Lemmas on strings *)

Section StringFacts.

Lemma append_nil (b : string) : "" +:+ b = b.
Proof. reflexivity. Qed.

Lemma append_cons (c : ascii) (a b : string) :
  String c a +:+ b = String c (a +:+ b).
Proof. reflexivity. Qed.

Lemma append_assoc (a b c : string) : (a +:+ b) +:+ c = a +:+ (b +:+ c).
Proof.
  induction a as [|x a IH]; [reflexivity |].
  now rewrite !append_cons, IH.
Qed.

Lemma prefix_split (p s : string) :
  String.prefix p s = true <-> exists r, s = p +:+ r.
Proof.
  revert s; induction p as [|a p IH]; intros s.
  - split; [intros _; now exists s | now destruct s].
  - destruct s as [|b s]; simpl.
    + split; [discriminate | intros [r Hr]; discriminate].
    + destruct (ascii_dec a b) as [->|Hne].
      * rewrite IH. split; intros [r Hr]; exists r.
        -- now rewrite Hr.
        -- rewrite append_cons in Hr. now injection Hr.
      * split; [discriminate | intros [r Hr]].
        rewrite append_cons in Hr. injection Hr as Hb _. now subst.
Qed.

Lemma contains_nil (kw : string) :
  PyStr.contains kw "" = String.prefix kw "".
Proof. now destruct kw. Qed.

Lemma contains_cons (kw : string) (c : ascii) (s : string) :
  PyStr.contains kw (String c s)
  = if String.prefix kw (String c s) then true else PyStr.contains kw s.
Proof. reflexivity. Qed.

Lemma contains_occurs (kw s : string) :
  PyStr.contains kw s = true <-> Occurs kw s.
Proof.
  unfold Occurs. induction s as [|c s IH].
  - rewrite contains_nil, prefix_split. split.
    + intros [r Hr]. now exists "", r.
    + intros (l & r & Hlr). destruct l; [now exists r | discriminate].
  - rewrite contains_cons.
    destruct (String.prefix kw (String c s)) eqn:Hp.
    + split; [intros _ | reflexivity].
      apply prefix_split in Hp as [r Hr]. now exists "", r.
    + rewrite IH. split.
      * intros (l & r & ->). now exists (String c l), r.
      * intros (l & r & Hlr). destruct l as [|c' l].
        -- rewrite append_nil in Hlr.
           assert (String.prefix kw (String c s) = true) as Hp'
             by (apply prefix_split; now exists r).
           congruence.
        -- rewrite append_cons in Hlr. injection Hlr as _ ->. now exists l, r.
Qed.

Lemma replace_append (old : ascii) (new a b : string) :
  PyStr.replace old new (a +:+ b)
  = PyStr.replace old new a +:+ PyStr.replace old new b.
Proof.
  induction a as [|c a IH]; [reflexivity |].
  rewrite append_cons. simpl.
  destruct (Ascii.eqb c old); rewrite IH; [| reflexivity].
  now rewrite append_assoc.
Qed.

(** The two replacements of the source, applied one after the other,
    escape every character on its own: the backslashes introduced by the
    second replacement are not seen by the first. *)
Lemma replace_twice_escape (s : string) :
  PyStr.replace "'" "\'" (PyStr.replace "\" "\\" s) = escape s.
Proof.
  induction s as [|c s IH]; simpl; [reflexivity |].
  unfold escape_char. destruct (Ascii.eqb c "\") eqn:Hb.
  - rewrite replace_append, IH. reflexivity.
  - simpl. destruct (Ascii.eqb c "'"); now rewrite IH.
Qed.

End StringFacts.

(** ** The credential store *)

Section CredentialFacts.

Variable cfg : Config.

(** [get_google_credentials] by cases on the loaded record. *)
Lemma get_google_credentials_cases (w : World) :
  get_google_credentials cfg w =
    match loaded_credentials w with
    | Some c =>
        if GoogleAuth.valid_at (now w) c then (Return (Some c), w)
        else if GoogleAuth.expired_at (now w) c && truthy (refresh_token c)
        then refresh_and_store c w
        else if truthy (GOOGLE_REFRESH_TOKEN cfg)
                && truthy (GOOGLE_CLIENT_ID cfg)
                && truthy (GOOGLE_CLIENT_SECRET cfg)
        then refresh_and_store (environment_credentials cfg) w
        else (Return None, w)
    | None =>
        if truthy (GOOGLE_REFRESH_TOKEN cfg)
           && truthy (GOOGLE_CLIENT_ID cfg)
           && truthy (GOOGLE_CLIENT_SECRET cfg)
        then refresh_and_store (environment_credentials cfg) w
        else (Return None, w)
    end.
Proof.
  unfold get_google_credentials, loaded_credentials, refresh_and_store,
    environment_credentials, token_file_exists, utcnow, try_except,
    GoogleAuth.from_authorized_user_file, mbind, Py_bind, mret, Py_ret.
  set (env := truthy (GOOGLE_REFRESH_TOKEN cfg) && truthy (GOOGLE_CLIENT_ID cfg)
              && truthy (GOOGLE_CLIENT_SECRET cfg)).
  destruct w as [tf dk t ep ap ch tr].
  cbn -[GoogleAuth.refresh write_token_file GoogleAuth.valid_at
        GoogleAuth.expired_at truthy].
  destruct tf as [[|j]|];
    cbn -[GoogleAuth.refresh write_token_file GoogleAuth.valid_at
          GoogleAuth.expired_at truthy];
    [ destruct env; reflexivity | | destruct env; reflexivity ].
  destruct (j_refresh_token j) as [rt|], (j_client_id j) as [cid|],
    (j_client_secret j) as [secret|];
    cbn -[GoogleAuth.refresh write_token_file GoogleAuth.valid_at
          GoogleAuth.expired_at truthy];
    try (destruct env; reflexivity).
  match goal with
  | |- context [GoogleAuth.valid_at t ?c] =>
      destruct (GoogleAuth.valid_at t c);
      cbn -[GoogleAuth.refresh write_token_file GoogleAuth.valid_at
            GoogleAuth.expired_at truthy]; [reflexivity |];
      destruct (GoogleAuth.expired_at t c), (truthy rt);
      cbn -[GoogleAuth.refresh write_token_file GoogleAuth.valid_at
            GoogleAuth.expired_at truthy];
      try reflexivity; destruct env; reflexivity
  end.
Qed.

Ltac run_refresh_and_store :=
  unfold refresh_and_store, try_except, GoogleAuth.refresh, write_token_file,
    mbind, Py_bind, mret, Py_ret; cbn beta iota zeta.

(** A refresh that the token endpoint fails yields [None], leaves the file as
    it was and sends at most one request. *)
Lemma refresh_and_store_denied (c : Credentials) (w : World) :
  next_grant w = None ->
  exists w', refresh_and_store c w = (Return None, w')
             /\ token_file w' = token_file w
             /\ (trace w' = trace w \/ trace w' = trace w ++ [TokenRequest c]).
Proof.
  unfold next_grant. intros Hg. run_refresh_and_store.
  destruct (refresh_token c), (token_uri c), (client_id c), (client_secret c);
    try (eexists; split; [reflexivity | split; [reflexivity | now left]]).
  destruct (token_endpoint w) as [|[g|] rest]; try discriminate;
    eexists; (split; [reflexivity | split; [reflexivity | now right]]).
Qed.

(** A refresh that returns a record has sent one request, received a grant
    and stored the refreshed record. *)
Lemma refresh_and_store_granted (c c' : Credentials) (w w' : World) :
  refresh_and_store c w = (Return (Some c'), w') ->
  exists g rt rest,
    token_endpoint w = Some g :: rest
    /\ refresh_token c = Some rt
    /\ is_Some (client_id c) /\ is_Some (client_secret c)
    /\ c' = {| token := Some (access_token g);
               refresh_token := Some (match rotated_refresh_token g with
                                      | Some r => r
                                      | None => rt
                                      end);
               token_uri := token_uri c;
               client_id := client_id c;
               client_secret := client_secret c;
               scopes := scopes c;
               expiry := match expires_in g with
                         | Some d => Some (now w + d)
                         | None => None
                         end |}
    /\ w' = mkWorld (Some (Parsed (GoogleAuth.to_json c'))) DiskOk (now w) rest
              (api w) (chunks w)
              (trace w ++ [TokenRequest c; TokenFileWrite c']).
Proof.
  run_refresh_and_store.
  destruct (refresh_token c) as [rt|]; [| discriminate].
  destruct (token_uri c); [| discriminate].
  destruct (client_id c) eqn:Hid; [| discriminate].
  destruct (client_secret c) eqn:Hsec; [| discriminate].
  destruct (token_endpoint w) as [|[g|] rest]; try discriminate.
  cbn. destruct (disk w) eqn:Hd; cbn; try discriminate.
  intros H. injection H as <- <-.
  exists g, rt, rest. rewrite <- app_assoc. cbn.
  repeat split; eauto.
Qed.

Lemma refresh_and_store_total (c : Credentials) (w : World) :
  exists r w', refresh_and_store c w = (Return r, w').
Proof.
  run_refresh_and_store.
  destruct (refresh_token c), (token_uri c), (client_id c), (client_secret c);
    try (eexists _, _; reflexivity).
  destruct (token_endpoint w) as [|[g|] rest]; cbn;
    try (eexists _, _; reflexivity).
  destruct (disk w); cbn; eexists _, _; reflexivity.
Qed.

End CredentialFacts.

(** C5. When the refresh call fails, credential acquisition yields no
    credentials, does not retry and leaves the token file unmodified.  In a
    world whose token endpoint fails the next request, a call of
    [get_google_credentials] returns without raising and leaves the token
    file as it was; it returns a record only when the record loaded from the
    file is valid, in which case nothing is done at all; in every other
    case it returns [None], having sent at most one request to the token
    endpoint and written nothing. *)
Theorem refresh_failure_yields_no_credentials (cfg : Config) (w : World) :
  next_grant w = None ->
  exists r w',
    get_google_credentials cfg w = (Return r, w')
    /\ token_file w' = token_file w
    /\ ((exists c, r = Some c /\ loaded_credentials w = Some c
                   /\ GoogleAuth.valid_at (now w) c = true /\ w' = w)
        \/ (r = None
            /\ (trace w' = trace w
                \/ exists c, trace w' = trace w ++ [TokenRequest c]))).
Proof.
  intros Hg. rewrite get_google_credentials_cases.
  assert (forall c, exists r w',
             refresh_and_store c w = (Return r, w')
             /\ token_file w' = token_file w
             /\ ((exists c0, r = Some c0 /\ loaded_credentials w = Some c0
                      /\ GoogleAuth.valid_at (now w) c0 = true /\ w' = w)
                 \/ (r = None
                     /\ (trace w' = trace w
                         \/ exists c0, trace w' = trace w ++ [TokenRequest c0]))))
    as Hdenied.
  { intros c. destruct (refresh_and_store_denied c w Hg) as (w' & -> & Hf & Ht).
    exists None, w'. split; [reflexivity |]. split; [exact Hf |].
    right. split; [reflexivity |]. destruct Ht; eauto. }
  assert (exists r w',
             (Return None, w) = (Return r, w')
             /\ token_file w' = token_file w
             /\ ((exists c0, r = Some c0 /\ loaded_credentials w = Some c0
                      /\ GoogleAuth.valid_at (now w) c0 = true /\ w' = w)
                 \/ (r = None
                     /\ (trace w' = trace w
                         \/ exists c0, trace w' = trace w ++ [TokenRequest c0]))))
    as Hnone.
  { exists None, w. repeat split; auto. }
  destruct (loaded_credentials w) as [c|] eqn:Hl.
  - destruct (GoogleAuth.valid_at (now w) c) eqn:Hv.
    + exists (Some c), w. repeat split; auto. left. exists c. auto.
    + destruct (GoogleAuth.expired_at (now w) c && truthy (refresh_token c));
        [apply Hdenied |].
      destruct (truthy (GOOGLE_REFRESH_TOKEN cfg) && truthy (GOOGLE_CLIENT_ID cfg)
                && truthy (GOOGLE_CLIENT_SECRET cfg)); [apply Hdenied | exact Hnone].
  - destruct (truthy (GOOGLE_REFRESH_TOKEN cfg) && truthy (GOOGLE_CLIENT_ID cfg)
              && truthy (GOOGLE_CLIENT_SECRET cfg)); [apply Hdenied | exact Hnone].
Qed.

(** The sample world with an expired token file and a failing endpoint:
    one request, no credentials, the file untouched. *)
Lemma refresh_failure_yields_no_credentials_witness :
  exists r w',
    get_google_credentials sample_config (sample_world [None; Some sample_grant] [])
      = (Return r, w')
    /\ token_file w' = token_file (sample_world [None; Some sample_grant] [])
    /\ ((exists c, r = Some c
           /\ loaded_credentials (sample_world [None; Some sample_grant] []) = Some c
           /\ GoogleAuth.valid_at (now (sample_world [None; Some sample_grant] [])) c = true
           /\ w' = sample_world [None; Some sample_grant] [])
        \/ (r = None
            /\ (trace w' = trace (sample_world [None; Some sample_grant] [])
                \/ exists c, trace w'
                     = trace (sample_world [None; Some sample_grant] [])
                       ++ [TokenRequest c]))).
Proof.
  apply (refresh_failure_yields_no_credentials sample_config
           (sample_world [None; Some sample_grant] [])).
  reflexivity.
Defined.

(** Loading what [to_json] stored gives the record back, when the record
    carries an expiry and the fields of a refresh grant. *)
Lemma load_stored_credentials (c : Credentials) (w : World) (e : Z) :
  token_file w = Some (Parsed (GoogleAuth.to_json c)) ->
  expiry c = Some e ->
  is_Some (refresh_token c) -> is_Some (client_id c) ->
  is_Some (client_secret c) ->
  token_uri c = Some GoogleAuth.GOOGLE_OAUTH2_TOKEN_ENDPOINT ->
  scopes c = SCOPES ->
  loaded_credentials w = Some c.
Proof.
  intros Hf He [rt Hrt] [cid Hcid] [sec Hsec] Huri Hsc.
  unfold loaded_credentials, GoogleAuth.from_authorized_user_file.
  rewrite Hf. destruct c as [tk rt' uri cid' sec' sc ex]; cbn in *.
  subst. reflexivity.
Qed.

(** What [get_google_credentials] loads has the endpoint and the scopes of
    the source. *)
Lemma loaded_credentials_shape (w : World) (c : Credentials) :
  loaded_credentials w = Some c ->
  token_uri c = Some GoogleAuth.GOOGLE_OAUTH2_TOKEN_ENDPOINT
  /\ scopes c = SCOPES
  /\ exists j, token_file w = Some (Parsed j)
               /\ token c = j_token j
               /\ j_refresh_token j = Some (refresh_token c)
               /\ j_client_id j = Some (client_id c)
               /\ j_client_secret j = Some (client_secret c)
               /\ expiry c = Some (match j_expiry j with
                                   | Some e => e
                                   | None => now w - GoogleAuth.REFRESH_THRESHOLD
                                   end).
Proof.
  unfold loaded_credentials, GoogleAuth.from_authorized_user_file.
  destruct (token_file w) as [[|j]|]; try discriminate.
  destruct (j_refresh_token j) eqn:Hrt, (j_client_id j) eqn:Hid,
    (j_client_secret j) eqn:Hsec; try discriminate.
  intros H. injection H as <-. cbn. split; [reflexivity |].
  split; [reflexivity |]. exists j. repeat split; auto.
Qed.

(** C8. Two consecutive acquisitions within the expiry window return the
    same record without a second refresh.  If a call of
    [get_google_credentials] returned the record [c], a second call made at
    any time [t2] before the expiry of [c] (less the refresh threshold of
    google-auth) returns [c] again and leaves the world as the first call
    left it: no request to the token endpoint, no write.  And whenever the
    record loaded from the token file is valid, the call returns it and
    does nothing else. *)
Theorem consecutive_acquisitions_return_same_record (cfg : Config) :
  (forall (w w1 : World) (c : Credentials) (e t2 : Z),
      get_google_credentials cfg w = (Return (Some c), w1) ->
      expiry c = Some e ->
      t2 < e - GoogleAuth.REFRESH_THRESHOLD ->
      get_google_credentials cfg (set_now t2 w1)
        = (Return (Some c), set_now t2 w1))
  /\ (forall (w : World) (c : Credentials),
        loaded_credentials w = Some c ->
        GoogleAuth.valid_at (now w) c = true ->
        get_google_credentials cfg w = (Return (Some c), w)).
Proof.
  assert (forall (w : World) (c : Credentials),
             loaded_credentials w = Some c ->
             GoogleAuth.valid_at (now w) c = true ->
             get_google_credentials cfg w = (Return (Some c), w)) as Hskip.
  { intros w c Hl Hv. now rewrite get_google_credentials_cases, Hl, Hv. }
  split; [| exact Hskip].
  intros w w1 c e t2 Hcall He Ht2.
  assert (forall c0, refresh_and_store c0 w = (Return (Some c), w1) ->
                     token_uri c0 = Some GoogleAuth.GOOGLE_OAUTH2_TOKEN_ENDPOINT ->
                     scopes c0 = SCOPES ->
                     loaded_credentials (set_now t2 w1) = Some c
                     /\ token c <> None) as Hstored.
  { intros c0 Hr Huri Hsc.
    apply refresh_and_store_granted in Hr
      as (g & rt & rest & _ & _ & Hid & Hsec & Hc & ->).
    split; [| rewrite Hc; discriminate].
    apply (load_stored_credentials c _ e); auto; rewrite Hc; cbn; eauto. }
  assert (loaded_credentials (set_now t2 w1) = Some c /\ token c <> None)
    as [Hl Htok].
  { rewrite get_google_credentials_cases in Hcall.
    destruct (loaded_credentials w) as [c0|] eqn:Hl0.
    - apply loaded_credentials_shape in Hl0 as Hshape.
      destruct Hshape as (Huri & Hsc & j & Hf & Htk & Hrt & Hid & Hsec & Hex).
      destruct (GoogleAuth.valid_at (now w) c0) eqn:Hv.
      + injection Hcall as <- <-. split.
        * unfold loaded_credentials, GoogleAuth.from_authorized_user_file.
          cbn. rewrite Hf, Hrt, Hid, Hsec.
          destruct (j_expiry j) as [ej|] eqn:Hej.
          -- destruct c0; cbn in *; subst. congruence.
          -- exfalso. unfold GoogleAuth.valid_at, GoogleAuth.expired_at in Hv.
             rewrite Hex in Hv. destruct (token c0); [| discriminate].
             apply negb_true_iff, Z.leb_gt in Hv.
             unfold GoogleAuth.REFRESH_THRESHOLD in Hv. lia.
        * unfold GoogleAuth.valid_at in Hv. destruct (token c0); congruence.
      + destruct (GoogleAuth.expired_at (now w) c0 && truthy (refresh_token c0)).
        * now apply (Hstored c0).
        * destruct (truthy (GOOGLE_REFRESH_TOKEN cfg)
                    && truthy (GOOGLE_CLIENT_ID cfg)
                    && truthy (GOOGLE_CLIENT_SECRET cfg)); [| discriminate].
          now apply (Hstored (environment_credentials cfg)).
    - destruct (truthy (GOOGLE_REFRESH_TOKEN cfg)
                && truthy (GOOGLE_CLIENT_ID cfg)
                && truthy (GOOGLE_CLIENT_SECRET cfg)); [| discriminate].
      now apply (Hstored (environment_credentials cfg)). }
  apply Hskip; [exact Hl |].
  unfold GoogleAuth.valid_at, GoogleAuth.expired_at. rewrite He. cbn.
  destruct (token c); [| congruence].
  apply negb_true_iff, Z.leb_gt. lia.
Qed.

(** The sample world: the first call refreshes at time 1000 and obtains a
    token that expires at 4599; a second call at time 2000 returns the same
    record and changes nothing. *)
Lemma consecutive_acquisitions_return_same_record_witness :
  get_google_credentials sample_config (sample_world [Some sample_grant] [])
    = (Return (Some refreshed_credentials), world_after_refresh)
  /\ get_google_credentials sample_config (set_now 2000 world_after_refresh)
     = (Return (Some refreshed_credentials), set_now 2000 world_after_refresh).
Proof.
  split; [reflexivity |].
  apply (proj1 (consecutive_acquisitions_return_same_record sample_config)
           (sample_world [Some sample_grant] []) world_after_refresh
           refreshed_credentials 4599 2000);
    reflexivity.
Defined.

(** ** The monad: computations that leave the world alone *)

Section PyFacts.

Lemma pure_ret {A : Type} (a : A) : pure_py (mret a).
Proof. intros w. reflexivity. Qed.

Lemma pure_lift {A : Type} (o : Outcome A) : pure_py (lift_outcome o).
Proof. intros w. reflexivity. Qed.

Lemma pure_raise {A : Type} (e : PyExc) : pure_py (raise e : Py A).
Proof. intros w. reflexivity. Qed.

Lemma pure_utcnow : pure_py utcnow.
Proof. intros w. reflexivity. Qed.

Lemma bind_world {A B : Type} (m : Py A) (k : A -> Py B) (w : World) :
  (forall a, pure_py (k a)) -> ((m ≫= k) w).2 = (m w).2.
Proof.
  intros Hk. unfold mbind, Py_bind. destruct (m w) as [[a|e] w']; cbn.
  - apply Hk.
  - reflexivity.
Qed.

Lemma pure_bind {A B : Type} (m : Py A) (k : A -> Py B) :
  pure_py m -> (forall a, pure_py (k a)) -> pure_py (m ≫= k).
Proof. intros Hm Hk w. rewrite bind_world by exact Hk. apply Hm. Qed.

Lemma try_except_world {A : Type} (body : Py A) (h : PyExc -> Py A) (w : World) :
  (forall e, pure_py (h e)) -> (try_except body h w).2 = (body w).2.
Proof.
  intros Hh. unfold try_except. destruct (body w) as [[a|e] w']; cbn.
  - reflexivity.
  - apply Hh.
Qed.

Lemma pure_for_each {A B : Type} (f : A -> Py B) (xs : list A) :
  (forall x, pure_py (f x)) -> pure_py (for_each f xs).
Proof.
  intros Hf. induction xs as [|x xs IH]; cbn [for_each].
  - apply pure_ret.
  - apply pure_bind; [apply Hf | intros y].
    apply pure_bind; [exact IH | intros ys]. apply pure_ret.
Qed.

(** A [try] whose handler returns never raises, whatever its body does. *)
Lemma try_except_returns {A : Type} (body : Py A) (h : PyExc -> Py A) (w : World) :
  (forall e w0, exists a w', h e w0 = (Return a, w')) ->
  exists a w', try_except body h w = (Return a, w').
Proof.
  intros Hh. unfold try_except. destruct (body w) as [[a|e] w'].
  - now exists a, w'.
  - apply Hh.
Qed.

Lemma execute_world (r : Request) (w : World) :
  (execute r w).2
  = mkWorld (token_file w) (disk w) (now w) (token_endpoint w) (tail (api w))
      (chunks w) (trace w ++ [ApiCall r]).
Proof. unfold execute. destruct (api w); reflexivity. Qed.

Lemma execute_reply (r : Request) (w : World) (reply : Outcome PyVal)
    (rest : list (Outcome PyVal)) :
  api w = reply :: rest -> (execute r w).1 = reply.
Proof. unfold execute. now intros ->. Qed.

End PyFacts.

Ltac solve_pure :=
  repeat first
    [ apply pure_ret | apply pure_lift | apply pure_raise | apply pure_utcnow
    | apply pure_bind; [| intros ?]
    | apply pure_for_each; intros ?
    | match goal with
      | |- pure_py (if ?b then _ else _) => destruct b
      | |- pure_py (match ?x with _ => _ end) => destruct x
      | |- pure_py (fun _ => _) => idtac
      end ].

(** ** The handlers: what is sent after the credentials are acquired *)

Section HandlerFacts.

Variable cfg : Config.
Variable rt : Runtime.

Lemma bind_returned {A B : Type} (m : Py A) (k : A -> Py B) (w w1 : World) (a : A) :
  m w = (Return a, w1) -> (m ≫= k) w = k a w1.
Proof. intros H. unfold mbind, Py_bind. now rewrite H. Qed.

Lemma pure_except_api (name : string) (e : PyExc) : pure_py (except_api rt name e).
Proof. unfold except_api. destruct e; solve_pure. Qed.

Lemma pure_except_event (event_id : string) (e : PyExc) :
  pure_py (except_event rt event_id e).
Proof. unfold except_event. destruct e; solve_pure. Qed.

Lemma pure_except_drive (extra : list (string * PyVal)) (e : PyExc) :
  pure_py (except_drive rt extra e).
Proof. unfold except_drive. destruct e; solve_pure. Qed.

(** With credentials, [search_gdrive] sends one request: the file listing. *)
Lemma search_gdrive_world (query : string) (page_token : option string)
    (page_size : option Z) (w w1 : World) (c : Credentials) :
  get_google_credentials cfg w = (Return (Some c), w1) ->
  (search_gdrive cfg rt query page_token page_size w).2
  = (execute (DriveFilesList (build_search_query query)
                (effective_page_size page_size) page_token "modifiedTime desc"
                "nextPageToken, files(id, name, mimeType, modifiedTime, size)")
       w1).2.
Proof.
  intros H. unfold search_gdrive. rewrite (bind_returned _ _ _ _ _ H).
  rewrite try_except_world by apply pure_except_drive.
  cbn zeta. rewrite bind_world; [reflexivity |].
  intros response. solve_pure.
Qed.

(** With credentials, [list_events] sends one request: the event listing. *)
Lemma list_events_world (time_min time_max : option string) (max_results : Z)
    (w w1 : World) (c : Credentials) :
  get_google_credentials cfg w = (Return (Some c), w1) ->
  (list_events cfg rt time_min time_max max_results w).2
  = (execute (CalendarEventsList "primary"
                (or_str time_min (isoformat rt (now w1)))
                (or_str time_max (isoformat rt (now w1)))
                max_results true "startTime") w1).2.
Proof.
  intros H. unfold list_events. rewrite (bind_returned _ _ _ _ _ H).
  rewrite try_except_world by apply pure_except_api.
  unfold utcnow at 1. unfold mbind at 1, Py_bind at 1. cbn zeta beta iota.
  rewrite bind_world; [reflexivity |].
  intros response. solve_pure.
Qed.

End HandlerFacts.

(** ** [search_gdrive]: the query predicate and the page size *)

Lemma not_contains_occurs (kw s : string) :
  PyStr.contains kw s = false <-> ~ Occurs kw s.
Proof.
  rewrite <- contains_occurs. destruct (PyStr.contains kw s); split; intros H.
  - discriminate.
  - now contradict H.
  - discriminate.
  - reflexivity.
Qed.

(** The predicate of [search_gdrive], read declaratively. *)
Lemma build_search_query_shape (query : string) :
  (PyStr.strip query = "" -> build_search_query query = "trashed = false")
  /\ (PyStr.strip query <> "" ->
      exists clause,
        build_search_query query
        = "(name contains '" +:+ escape (PyStr.strip query) +:+ "'" +:+ clause
          +:+ ") and trashed = false"
        /\ MimeClause (PyStr.lower (PyStr.strip query)) clause).
Proof.
  unfold build_search_query. cbn zeta.
  destruct (String.eqb_spec (PyStr.strip query) "") as [He|Hne].
  - split; [reflexivity | intros H; now contradict H].
  - split; [intros H; now contradict Hne |]. intros _.
    rewrite replace_twice_escape.
    set (lowered := PyStr.lower (PyStr.strip query)).
    set (name := escape (PyStr.strip query)).
    assert (forall mime : string,
               "(" +:+ PyStr.join " or "
                         (["name contains '" +:+ name +:+ "'"]
                          ++ ["mimeType = '" +:+ mime +:+ "'"])
               +:+ ") and trashed = false"
               = "(name contains '" +:+ name +:+ "'"
                 +:+ (" or mimeType = '" +:+ mime +:+ "'")
                 +:+ ") and trashed = false") as Hjoin.
    { intros mime. unfold PyStr.join. cbn [app String.concat].
      change ("(" +:+ ?x) with (String "(" x).
      rewrite !append_assoc. reflexivity. }
    unfold MimeClause.
    destruct (PyStr.contains "sheet" lowered) eqn:Hsheet.
    { apply contains_occurs in Hsheet.
      exists (" or mimeType = '" +:+ SPREADSHEET +:+ "'").
      split; [apply Hjoin |].
      repeat split; intros; try reflexivity; contradiction. }
    apply not_contains_occurs in Hsheet.
    destruct (PyStr.contains "doc" lowered) eqn:Hdoc.
    { apply contains_occurs in Hdoc.
      exists (" or mimeType = '" +:+ DOCUMENT +:+ "'").
      split; [apply Hjoin |].
      repeat split; intros; try reflexivity; contradiction. }
    apply not_contains_occurs in Hdoc.
    destruct (PyStr.contains "presentation" lowered) eqn:Hpres; cbn [orb].
    { apply contains_occurs in Hpres.
      exists (" or mimeType = '" +:+ PRESENTATION +:+ "'").
      split; [apply Hjoin |].
      repeat split; intros; try reflexivity; contradiction. }
    apply not_contains_occurs in Hpres.
    destruct (PyStr.contains "slide" lowered) eqn:Hslide.
    { apply contains_occurs in Hslide.
      exists (" or mimeType = '" +:+ PRESENTATION +:+ "'").
      split; [apply Hjoin |].
      repeat split; intros; try reflexivity; contradiction. }
    apply not_contains_occurs in Hslide.
    exists "". split.
    + unfold PyStr.join. cbn [String.concat].
      change ("(" +:+ ?x) with (String "(" x).
      rewrite !append_assoc. reflexivity.
    + repeat split; intros; try reflexivity; try contradiction.
      destruct H1; contradiction.
Qed.

(** Acquisition leaves the clock and the scripted replies of the APIs as
    they are, and sends nothing to the APIs. *)
Lemma refresh_and_store_frame (c : Credentials) (w w1 : World)
    (r : Outcome (option Credentials)) :
  refresh_and_store c w = (r, w1) ->
  now w1 = now w /\ api w1 = api w /\ chunks w1 = chunks w.
Proof.
  unfold refresh_and_store, try_except, GoogleAuth.refresh, write_token_file,
    mbind, Py_bind, mret, Py_ret. cbn beta iota zeta.
  destruct (refresh_token c), (token_uri c), (client_id c), (client_secret c);
    try (intros H; injection H as <- <-; now repeat split).
  destruct (token_endpoint w) as [|[g|] rest]; cbn;
    try (intros H; injection H as <- <-; now repeat split).
  destruct (disk w); cbn; intros H; injection H as <- <-; now repeat split.
Qed.

Lemma get_google_credentials_frame (cfg : Config) (w w1 : World)
    (r : Outcome (option Credentials)) :
  get_google_credentials cfg w = (r, w1) ->
  now w1 = now w /\ api w1 = api w /\ chunks w1 = chunks w.
Proof.
  rewrite get_google_credentials_cases.
  assert (forall c, refresh_and_store c w = (r, w1) ->
                    now w1 = now w /\ api w1 = api w /\ chunks w1 = chunks w)
    as Hr.
  { intros c H. now apply refresh_and_store_frame in H. }
  assert ((Return None, w) = (r, w1) ->
          now w1 = now w /\ api w1 = api w /\ chunks w1 = chunks w) as Hn.
  { intros H. injection H as <- <-. auto. }
  destruct (loaded_credentials w) as [c|].
  - destruct (GoogleAuth.valid_at (now w) c).
    + intros H. injection H as <- <-. auto.
    + destruct (GoogleAuth.expired_at (now w) c && truthy (refresh_token c));
        [apply Hr |].
      destruct (truthy (GOOGLE_REFRESH_TOKEN cfg) && truthy (GOOGLE_CLIENT_ID cfg)
                && truthy (GOOGLE_CLIENT_SECRET cfg)); [apply Hr | exact Hn].
  - destruct (truthy (GOOGLE_REFRESH_TOKEN cfg) && truthy (GOOGLE_CLIENT_ID cfg)
              && truthy (GOOGLE_CLIENT_SECRET cfg)); [apply Hr | exact Hn].
Qed.

Lemma get_google_credentials_total (cfg : Config) (w : World) :
  exists r w1, get_google_credentials cfg w = (Return r, w1).
Proof.
  rewrite get_google_credentials_cases.
  destruct (loaded_credentials w) as [c|].
  - destruct (GoogleAuth.valid_at (now w) c); [eauto |].
    destruct (GoogleAuth.expired_at (now w) c && truthy (refresh_token c));
      [apply refresh_and_store_total |].
    destruct (truthy (GOOGLE_REFRESH_TOKEN cfg) && truthy (GOOGLE_CLIENT_ID cfg)
              && truthy (GOOGLE_CLIENT_SECRET cfg));
      [apply refresh_and_store_total | eauto].
  - destruct (truthy (GOOGLE_REFRESH_TOKEN cfg) && truthy (GOOGLE_CLIENT_ID cfg)
              && truthy (GOOGLE_CLIENT_SECRET cfg));
      [apply refresh_and_store_total | eauto].
Qed.

(** C1 (amended). The predicate that [search_gdrive] sends.  Once the
    credentials are acquired the handler sends one request, the file
    listing, whose [q] is: ["trashed = false"] when the stripped phrase is
    empty; otherwise the parenthesised name filter over the stripped
    phrase, each backslash and single quote escaped by a backslash,
    followed inside the parentheses by [or] and a MIME-type filter when the
    lower-cased phrase contains "sheet", else "doc", else "presentation" or
    "slide", and outside the parentheses by [and trashed = false]. *)
Theorem search_gdrive_query_predicate (cfg : Config) (rt : Runtime)
    (query : string) (page_token : option string) (page_size : option Z)
    (w w1 : World) (c : Credentials) :
  get_google_credentials cfg w = (Return (Some c), w1) ->
  exists q,
    trace (search_gdrive cfg rt query page_token page_size w).2
    = trace w1 ++ [ApiCall (DriveFilesList q (effective_page_size page_size)
                              page_token FILES_ORDER FILES_FIELDS)]
    /\ (PyStr.strip query = "" -> q = "trashed = false")
    /\ (PyStr.strip query <> "" ->
        exists clause,
          q = "(name contains '" +:+ escape (PyStr.strip query) +:+ "'"
              +:+ clause +:+ ") and trashed = false"
          /\ MimeClause (PyStr.lower (PyStr.strip query)) clause).
Proof.
  intros H. exists (build_search_query query). split.
  - rewrite (search_gdrive_world cfg rt _ _ _ _ _ _ H), execute_world.
    reflexivity.
  - apply build_search_query_shape.
Qed.

(** C9. The page size that [search_gdrive] sends is the given one clamped
    into [1, 100], and 10 when none is given. *)
Theorem search_gdrive_page_size (cfg : Config) (rt : Runtime)
    (query : string) (page_token : option string) (page_size : option Z)
    (w w1 : World) (c : Credentials) :
  get_google_credentials cfg w = (Return (Some c), w1) ->
  exists n,
    trace (search_gdrive cfg rt query page_token page_size w).2
    = trace w1 ++ [ApiCall (DriveFilesList (build_search_query query) n
                              page_token FILES_ORDER FILES_FIELDS)]
    /\ 1 <= n <= 100
    /\ (page_size = None -> n = 10)
    /\ (forall p, page_size = Some p ->
          (p < 1 -> n = 1) /\ (1 <= p <= 100 -> n = p) /\ (100 < p -> n = 100)).
Proof.
  intros H. exists (effective_page_size page_size). split.
  - rewrite (search_gdrive_world cfg rt _ _ _ _ _ _ H), execute_world.
    reflexivity.
  - unfold effective_page_size. cbn zeta. split; [lia |].
    split; [now intros -> |]. intros p ->. lia.
Qed.

(** C10. With neither bound given, [list_events] asks for an empty window.
    When [time_min] and [time_max] are absent or empty and the credentials
    are acquired, the handler sends one request, the event listing, whose
    [timeMin] and [timeMax] are both the ISO form of the time of the
    call. *)
Theorem list_events_default_window_is_empty (cfg : Config) (rt : Runtime)
    (time_min time_max : option string) (max_results : Z)
    (w w1 : World) (c : Credentials) :
  get_google_credentials cfg w = (Return (Some c), w1) ->
  time_min = None \/ time_min = Some "" ->
  time_max = None \/ time_max = Some "" ->
  trace (list_events cfg rt time_min time_max max_results w).2
  = trace w1 ++ [ApiCall (CalendarEventsList "primary"
                            (isoformat rt (now w)) (isoformat rt (now w))
                            max_results true "startTime")].
Proof.
  intros H Hmin Hmax.
  rewrite (list_events_world cfg rt _ _ _ _ _ _ H), execute_world. cbn.
  destruct (get_google_credentials_frame _ _ _ _ H) as (-> & _ & _).
  destruct Hmin as [-> | ->], Hmax as [-> | ->]; reflexivity.
Qed.

(** ** [update_event]: read, merge, write *)

Section UpdateEvent.

Variables (summary start end_ location description : option string)
          (attendees : option (list string)).

Lemma update_payload_other (key : string) :
  key ∉ UPDATABLE ->
  update_payload summary start end_ location description attendees !! key = None.
Proof.
  unfold UPDATABLE. intros Hkey. unfold update_payload. cbn zeta.
  assert (key <> "summary" /\ key <> "location" /\ key <> "description"
          /\ key <> "start" /\ key <> "end" /\ key <> "attendees")
    as (H1 & H2 & H3 & H4 & H5 & H6).
  { repeat split; intros ->; apply Hkey; set_solver. }
  destruct summary, location, description, start, end_, attendees;
    rewrite ?lookup_insert_ne by congruence; apply lookup_empty.
Qed.

Lemma update_payload_fields :
  let p := update_payload summary start end_ location description attendees in
  p !! "summary" = VStr <$> summary
  /\ p !! "location" = VStr <$> location
  /\ p !! "description" = VStr <$> description
  /\ p !! "start" = event_time <$> start
  /\ p !! "end" = event_time <$> end_
  /\ p !! "attendees" = attendee_list <$> attendees.
Proof.
  unfold update_payload. cbn zeta.
  destruct summary, location, description, start, end_, attendees;
    repeat split; reflexivity.
Qed.

End UpdateEvent.

(** With credentials and an event found, [update_event] sends two requests:
    the read, and the write of the stored event overlaid with the payload. *)
Lemma update_event_world (cfg : Config) (rt : Runtime) (event_id : string)
    (summary start end_ location description : option string)
    (attendees : option (list string)) (w w1 : World) (c : Credentials)
    (event : gmap string PyVal) (rest : list (Outcome PyVal)) :
  get_google_credentials cfg w = (Return (Some c), w1) ->
  api w1 = Return (VDict event) :: rest ->
  trace (update_event cfg rt event_id summary start end_ location description
           attendees w).2
  = trace w1
    ++ [ApiCall (CalendarEventsGet "primary" event_id);
        ApiCall (CalendarEventsUpdate "primary" event_id
                   (VDict (update_payload summary start end_ location
                             description attendees ∪ event)))].
Proof.
  intros H Hapi. unfold update_event. rewrite (bind_returned _ _ _ _ _ H).
  rewrite try_except_world by apply pure_except_event.
  assert (execute (CalendarEventsGet "primary" event_id) w1
          = (Return (VDict event), (execute (CalendarEventsGet "primary" event_id) w1).2))
    as Hget.
  { unfold execute. rewrite Hapi. reflexivity. }
  rewrite (bind_returned _ _ _ _ _ Hget). cbn zeta.
  erewrite bind_returned by reflexivity.
  rewrite bind_world by (intros updated; solve_pure).
  rewrite !execute_world. cbn. now rewrite <- app_assoc.
Qed.

(** C3. [update_event] is a read-merge-write.  With credentials acquired
    and the event found, the handler reads the event and then writes back
    an event in which each of the six fields is the argument when the
    argument is present (start and end with the time zone, attendees as
    e-mail entries) and the stored value when it is absent, and every
    other field is the stored one. *)
Theorem update_event_read_merge_write (cfg : Config) (rt : Runtime)
    (event_id : string) (summary start end_ location description : option string)
    (attendees : option (list string)) (w w1 : World) (c : Credentials)
    (event : gmap string PyVal) (rest : list (Outcome PyVal)) :
  get_google_credentials cfg w = (Return (Some c), w1) ->
  api w1 = Return (VDict event) :: rest ->
  exists merged : gmap string PyVal,
    trace (update_event cfg rt event_id summary start end_ location
             description attendees w).2
    = trace w1
      ++ [ApiCall (CalendarEventsGet "primary" event_id);
          ApiCall (CalendarEventsUpdate "primary" event_id (VDict merged))]
    /\ merged !! "summary"
       = match summary with Some s => Some (VStr s) | None => event !! "summary" end
    /\ merged !! "location"
       = match location with Some s => Some (VStr s) | None => event !! "location" end
    /\ merged !! "description"
       = match description with
         | Some s => Some (VStr s)
         | None => event !! "description"
         end
    /\ merged !! "start"
       = match start with Some t => Some (event_time t) | None => event !! "start" end
    /\ merged !! "end"
       = match end_ with Some t => Some (event_time t) | None => event !! "end" end
    /\ merged !! "attendees"
       = match attendees with
         | Some emails => Some (attendee_list emails)
         | None => event !! "attendees"
         end
    /\ (forall key, key ∉ UPDATABLE -> merged !! key = event !! key).
Proof.
  intros H Hapi.
  exists (update_payload summary start end_ location description attendees ∪ event).
  split; [now apply (update_event_world cfg rt) with (c := c) (rest := rest) |].
  destruct (update_payload_fields summary start end_ location description attendees)
    as (H1 & H2 & H3 & H4 & H5 & H6).
  repeat split.
  - rewrite lookup_union, H1. now destruct summary, (event !! "summary").
  - rewrite lookup_union, H2. now destruct location, (event !! "location").
  - rewrite lookup_union, H3. now destruct description, (event !! "description").
  - rewrite lookup_union, H4. now destruct start, (event !! "start").
  - rewrite lookup_union, H5. now destruct end_, (event !! "end").
  - rewrite lookup_union, H6. now destruct attendees, (event !! "attendees").
  - intros key Hkey. rewrite lookup_union, update_payload_other by exact Hkey.
    now destruct (event !! key).
Qed.

(** Setting only the summary of [stored_event]: the event written back has
    the new summary and the stored location and attendees. *)
Lemma update_event_read_merge_write_witness :
  exists merged : gmap string PyVal,
    trace (update_event sample_config sample_runtime "ev1" (Some "Renamed")
             None None None None None
             (authorized_world [Return (VDict stored_event)])).2
    = trace (authorized_world [Return (VDict stored_event)])
      ++ [ApiCall (CalendarEventsGet "primary" "ev1");
          ApiCall (CalendarEventsUpdate "primary" "ev1" (VDict merged))]
    /\ merged !! "summary" = Some (VStr "Renamed")
    /\ merged !! "location" = stored_event !! "location"
    /\ merged !! "description" = stored_event !! "description"
    /\ merged !! "start" = stored_event !! "start"
    /\ merged !! "end" = stored_event !! "end"
    /\ merged !! "attendees" = stored_event !! "attendees"
    /\ (forall key, key ∉ UPDATABLE -> merged !! key = stored_event !! key).
Proof.
  apply (update_event_read_merge_write sample_config sample_runtime "ev1"
           (Some "Renamed") None None None None None
           (authorized_world [Return (VDict stored_event)])
           (authorized_world [Return (VDict stored_event)])
           stored_credentials stored_event []);
    reflexivity.
Defined.

(** ** Handlers send requests only *)

Section ApiOnly.

Lemma api_only_pure {A : Type} (m : Py A) : pure_py m -> api_only m.
Proof.
  intros Hm w. exists []. rewrite Hm, app_nil_r. now split.
Qed.

Lemma api_only_execute (r : Request) : api_only (execute r).
Proof.
  intros w. exists [ApiCall r]. rewrite execute_world. now split.
Qed.

Lemma api_only_next_chunk (r : Request) : api_only (next_chunk r).
Proof.
  intros w. exists [ApiCall r]. unfold next_chunk.
  destruct (chunks w); now split.
Qed.

Lemma api_only_bind {A B : Type} (m : Py A) (k : A -> Py B) :
  api_only m -> (forall a, api_only (k a)) -> api_only (m ≫= k).
Proof.
  intros Hm Hk w. unfold mbind, Py_bind.
  destruct (Hm w) as (evs & Ht & Hall).
  destruct (m w) as [[a|e] w']; cbn in *.
  - destruct (Hk a w') as (evs' & Ht' & Hall').
    exists (evs ++ evs'). rewrite Ht', Ht, app_assoc. split; [reflexivity |].
    rewrite forallb_app, Hall, Hall'. reflexivity.
  - now exists evs.
Qed.

Lemma api_only_try_except {A : Type} (body : Py A) (h : PyExc -> Py A) :
  api_only body -> (forall e, api_only (h e)) -> api_only (try_except body h).
Proof.
  intros Hb Hh w. unfold try_except.
  destruct (Hb w) as (evs & Ht & Hall).
  destruct (body w) as [[a|e] w']; cbn in *.
  - now exists evs.
  - destruct (Hh e w') as (evs' & Ht' & Hall').
    exists (evs ++ evs'). rewrite Ht', Ht, app_assoc. split; [reflexivity |].
    rewrite forallb_app, Hall, Hall'. reflexivity.
Qed.

Lemma api_only_for_each {A B : Type} (f : A -> Py B) (xs : list A) :
  (forall x, api_only (f x)) -> api_only (for_each f xs).
Proof.
  intros Hf. induction xs as [|x xs IH]; cbn [for_each].
  - apply api_only_pure, pure_ret.
  - apply api_only_bind; [apply Hf | intros y].
    apply api_only_bind; [exact IH | intros ys].
    apply api_only_pure, pure_ret.
Qed.

Lemma api_only_download_loop (fuel : nat) (r : Request) (acc : string) :
  api_only (download_loop fuel r acc).
Proof.
  revert acc. induction fuel as [|fuel IH]; intros acc; cbn [download_loop].
  - apply api_only_pure, pure_raise.
  - apply api_only_bind; [apply api_only_next_chunk |].
    intros [data [|]]; [apply api_only_pure, pure_ret | apply IH].
Qed.

Lemma api_only_download (r : Request) : api_only (download r).
Proof. intros w. unfold download. apply api_only_download_loop. Qed.

End ApiOnly.

Ltac solve_api_only :=
  repeat first
    [ apply api_only_execute
    | apply api_only_download
    | apply api_only_pure; solve [solve_pure]
    | apply api_only_bind; [| intros ?]
    | apply api_only_try_except; [| intros ?]
    | apply api_only_for_each; intros ?
    | match goal with
      | |- api_only (if ?b then _ else _) => destruct b
      | |- api_only (match ?x with _ => _ end) => destruct x
      end ].

(** ** Credential acquisition comes first *)

(** Every handler but [search_google] is [get_google_credentials()]
    followed by a continuation that only sends API requests and that, given
    no credentials, returns the authentication failure at once. *)
Lemma run_tool_acquires_first (cfg : Config) (rt : Runtime) (call : Invocation) :
  acquires_credentials call = true ->
  exists k : option Credentials -> Py PyVal,
    run_tool cfg rt call = get_google_credentials cfg ≫= k
    /\ (forall creds, api_only (k creds))
    /\ k None = mret (auth_failed_payload call).
Proof.
  intros Hcall.
  destruct call; try discriminate Hcall; cbn [run_tool];
    (eexists; split; [reflexivity |]; split; [| reflexivity];
     intros [c|]; [| apply api_only_pure, pure_ret]).
  - apply api_only_try_except; [| intros e; apply api_only_pure, pure_except_api].
    solve_api_only.
  - apply api_only_try_except; [| intros e; apply api_only_pure, pure_except_api].
    solve_api_only.
  - apply api_only_try_except; [| intros e; apply api_only_pure, pure_except_api].
    solve_api_only.
  - destruct (negb (truthy_list add_labels) && negb (truthy_list remove_labels));
      [apply api_only_pure, pure_ret |].
    apply api_only_try_except; [| intros e; apply api_only_pure, pure_except_api].
    solve_api_only.
  - apply api_only_try_except; [| intros e; apply api_only_pure, pure_except_api].
    solve_api_only.
  - apply api_only_try_except; [| intros e; apply api_only_pure, pure_except_api].
    solve_api_only.
  - apply api_only_try_except;
      [| intros e; apply api_only_pure, pure_except_event].
    solve_api_only.
  - apply api_only_try_except;
      [| intros e; apply api_only_pure, pure_except_event].
    solve_api_only.
  - apply api_only_try_except;
      [| intros e; apply api_only_pure, pure_except_drive].
    solve_api_only.
  - apply api_only_try_except;
      [| intros e; apply api_only_pure, pure_except_drive].
    solve_api_only.
Qed.

(** C6 (amended). Every handler except [search_google] acquires the
    credentials before anything else and gives up at once without them.
    For an invocation of any of the ten other tools, the call of
    [get_google_credentials] returns, everything the handler does to the
    outside after it is API requests, and when it returned [None] the
    handler returns the authentication failure (the message, inside a
    dictionary for the two Drive tools) in the very world that the
    acquisition left: no request is sent. *)
Theorem handlers_acquire_credentials_first (cfg : Config) (rt : Runtime)
    (call : Invocation) (w : World) :
  acquires_credentials call = true ->
  exists (r : option Credentials) (w1 : World) (evs : list Event),
    get_google_credentials cfg w = (Return r, w1)
    /\ trace (run_tool cfg rt call w).2 = trace w1 ++ evs
    /\ forallb is_api_call evs = true
    /\ (r = None ->
        run_tool cfg rt call w = (Return (auth_failed_payload call), w1)).
Proof.
  intros Hcall.
  destruct (run_tool_acquires_first cfg rt call Hcall) as (k & -> & Hk & Hnone).
  destruct (get_google_credentials_total cfg w) as (r & w1 & Hacq).
  rewrite (bind_returned _ _ _ _ _ Hacq).
  destruct (Hk r w1) as (evs & Ht & Hall).
  exists r, w1, evs. repeat split; auto.
  intros ->. now rewrite Hnone.
Qed.

(** The world of C6's counterexample: no token file and no secrets, so
    acquisition fails; [search_google] sends its request all the same and
    reports success. *)
Lemma search_google_skips_credentials :
  get_google_credentials no_secrets (unauthorized_world [Return (dict [])])
  = (Return None, unauthorized_world [Return (dict [])])
  /\ (run_tool no_secrets sample_runtime (SearchGoogle "rocq" 5)
        (unauthorized_world [Return (dict [])])).1
     = Return (dict [("success", VBool true);
                     ("results", VList []);
                     ("total_results", VStr "0")])
  /\ trace (run_tool no_secrets sample_runtime (SearchGoogle "rocq" 5)
              (unauthorized_world [Return (dict [])])).2
     = [ApiCall (CustomSearchList (Some "api-key") "rocq" (Some "engine-id") 5)].
Proof. repeat split; vm_compute; reflexivity. Qed.

(** Without credentials [list_emails] returns the failure and sends
    nothing. *)
Lemma handlers_acquire_credentials_first_witness :
  exists (r : option Credentials) (w1 : World) (evs : list Event),
    get_google_credentials no_secrets (unauthorized_world []) = (Return r, w1)
    /\ trace (run_tool no_secrets sample_runtime (ListEmails "is:unread" 10)
                (unauthorized_world [])).2
       = trace w1 ++ evs
    /\ forallb is_api_call evs = true
    /\ (r = None ->
        run_tool no_secrets sample_runtime (ListEmails "is:unread" 10)
          (unauthorized_world [])
        = (Return (auth_failed_payload (ListEmails "is:unread" 10)), w1)).
Proof.
  apply (handlers_acquire_credentials_first no_secrets sample_runtime
           (ListEmails "is:unread" 10) (unauthorized_world [])).
  reflexivity.
Defined.

(** ** [modify_email] without labels *)

(** C7 (amended). A call of [modify_email] whose [add_labels] and
    [remove_labels] are both empty or absent sends no request to the mail
    service: it returns in the world that credential acquisition left,
    with the validation message when the credentials were acquired and
    with the authentication failure when they were not. *)
Theorem modify_email_without_labels (cfg : Config) (rt : Runtime) (id : string)
    (add_labels remove_labels : option (list string)) (w : World) :
  add_labels = None \/ add_labels = Some [] ->
  remove_labels = None \/ remove_labels = Some [] ->
  exists (r : option Credentials) (w1 : World),
    get_google_credentials cfg w = (Return r, w1)
    /\ modify_email cfg rt id add_labels remove_labels w
       = (Return (VStr (match r with
                        | Some _ => LABELS_REQUIRED
                        | None => AUTH_FAILED
                        end)), w1).
Proof.
  intros Hadd Hremove.
  destruct (get_google_credentials_total cfg w) as (r & w1 & Hacq).
  exists r, w1. split; [exact Hacq |].
  unfold modify_email. rewrite (bind_returned _ _ _ _ _ Hacq).
  destruct r as [c|]; [| reflexivity].
  destruct Hadd as [-> | ->], Hremove as [-> | ->]; reflexivity.
Qed.

(** With valid credentials and two empty lists: the validation message,
    nothing sent. *)
Lemma modify_email_without_labels_witness :
  exists (r : option Credentials) (w1 : World),
    get_google_credentials sample_config (authorized_world []) = (Return r, w1)
    /\ modify_email sample_config sample_runtime "m1" (Some []) None
         (authorized_world [])
       = (Return (VStr (match r with
                        | Some _ => LABELS_REQUIRED
                        | None => AUTH_FAILED
                        end)), w1).
Proof.
  apply (modify_email_without_labels sample_config sample_runtime "m1"
           (Some []) None (authorized_world []));
    [now right | now left].
Defined.

(** Without credentials the same call returns the authentication failure,
    not the validation message. *)
Lemma modify_email_without_labels_unauthorized :
  modify_email no_secrets sample_runtime "m1" None None (unauthorized_world [])
  = (Return (VStr AUTH_FAILED), unauthorized_world [])
  /\ VStr AUTH_FAILED <> VStr LABELS_REQUIRED.
Proof. split; [reflexivity | discriminate]. Qed.

(** ** [search_gdrive] and [list_events] on sample calls *)

(** The phrase "sheet": the MIME-type filter is joined to the name filter
    by [or], where the specification has a conjunction. *)
Lemma search_gdrive_query_is_a_disjunction :
  trace (search_gdrive sample_config sample_runtime "sheet" None None
           (authorized_world [])).2
  = [ApiCall (DriveFilesList
                "(name contains 'sheet' or mimeType = 'application/vnd.google-apps.spreadsheet') and trashed = false"
                10 None FILES_ORDER FILES_FIELDS)]
  /\ claimed_search_query "sheet"
     = "(name contains 'sheet' and mimeType = 'application/vnd.google-apps.spreadsheet') and trashed = false"
  /\ build_search_query "sheet" <> claimed_search_query "sheet".
Proof.
  split; [vm_compute; reflexivity |].
  split; [vm_compute; reflexivity |].
  vm_compute. discriminate.
Qed.

(** The phrase of the specification's example. *)
Lemma search_gdrive_query_predicate_witness :
  exists q,
    trace (search_gdrive sample_config sample_runtime "O'Brien" None None
             (authorized_world [])).2
    = trace (authorized_world [])
      ++ [ApiCall (DriveFilesList q (effective_page_size None) None
                     FILES_ORDER FILES_FIELDS)]
    /\ (PyStr.strip "O'Brien" = "" -> q = "trashed = false")
    /\ (PyStr.strip "O'Brien" <> "" ->
        exists clause,
          q = "(name contains '" +:+ escape (PyStr.strip "O'Brien") +:+ "'"
              +:+ clause +:+ ") and trashed = false"
          /\ MimeClause (PyStr.lower (PyStr.strip "O'Brien")) clause).
Proof.
  apply (search_gdrive_query_predicate sample_config sample_runtime "O'Brien"
           None None (authorized_world []) (authorized_world [])
           stored_credentials).
  reflexivity.
Defined.

Example search_gdrive_query_examples :
  build_search_query "O'Brien" = "(name contains 'O\'Brien') and trashed = false"
  /\ build_search_query "" = "trashed = false"
  /\ build_search_query "   " = "trashed = false"
  /\ build_search_query " Q3 Slides "
     = "(name contains 'Q3 Slides' or mimeType = 'application/vnd.google-apps.presentation') and trashed = false".
Proof. repeat split; vm_compute; reflexivity. Qed.

(** A page size of 500. *)
Lemma search_gdrive_page_size_witness :
  exists n,
    trace (search_gdrive sample_config sample_runtime "report" None (Some 500)
             (authorized_world [])).2
    = trace (authorized_world [])
      ++ [ApiCall (DriveFilesList (build_search_query "report") n None
                     FILES_ORDER FILES_FIELDS)]
    /\ 1 <= n <= 100
    /\ (Some 500 = None -> n = 10)
    /\ (forall p, Some 500 = Some p ->
          (p < 1 -> n = 1) /\ (1 <= p <= 100 -> n = p) /\ (100 < p -> n = 100)).
Proof.
  apply (search_gdrive_page_size sample_config sample_runtime "report" None
           (Some 500) (authorized_world []) (authorized_world [])
           stored_credentials).
  reflexivity.
Defined.

Example effective_page_size_examples :
  effective_page_size (Some 500) = 100
  /\ effective_page_size (Some 0) = 1
  /\ effective_page_size None = 10
  /\ effective_page_size (Some 42) = 42.
Proof. repeat split. Qed.

(** No bound given, at time 1000. *)
Lemma list_events_default_window_is_empty_witness :
  trace (list_events sample_config sample_runtime None (Some "") 10
           (authorized_world [])).2
  = trace (authorized_world [])
    ++ [ApiCall (CalendarEventsList "primary"
                   (isoformat sample_runtime (now (authorized_world [])))
                   (isoformat sample_runtime (now (authorized_world [])))
                   10 true "startTime")].
Proof.
  apply (list_events_default_window_is_empty sample_config sample_runtime None
           (Some "") 10 (authorized_world []) (authorized_world [])
           stored_credentials);
    [reflexivity | now left | now right].
Defined.

(** ** What escapes a handler *)

Section Escapes.

Variable cfg : Config.
Variable rt : Runtime.

Lemma try_except_raises_only {A : Type} (body : Py A) (h : PyExc -> Py A) :
  (forall e, raises_only_decode_error (h e)) ->
  raises_only_decode_error (try_except body h).
Proof.
  intros Hh w e w'. unfold try_except.
  destruct (body w) as [[a|e0] w0]; [discriminate |]. apply Hh.
Qed.

Lemma try_except_never_raises {A : Type} (body : Py A) (h : PyExc -> Py A) :
  (forall e, never_raises (h e)) -> never_raises (try_except body h).
Proof.
  intros Hh w. unfold try_except.
  destruct (body w) as [[a|e0] w0]; [eauto |]. apply Hh.
Qed.

Lemma except_api_raises_only (name : string) (e : PyExc) :
  raises_only_decode_error (except_api rt name e).
Proof.
  intros w e' w'. unfold except_api.
  destruct e; try discriminate.
  unfold mbind, Py_bind, lift_outcome, Codec.utf8_decode.
  destruct (Codec.utf8_chars content); [discriminate |].
  now intros [= <- _].
Qed.

Lemma except_event_raises_only (event_id : string) (e : PyExc) :
  raises_only_decode_error (except_event rt event_id e).
Proof.
  intros w e' w'. unfold except_event.
  destruct e; try discriminate.
  destruct (status =? 404); [discriminate |].
  unfold mbind, Py_bind, lift_outcome, Codec.utf8_decode.
  destruct (Codec.utf8_chars content); [discriminate |].
  now intros [= <- _].
Qed.

Lemma except_drive_never_raises (extra : list (string * PyVal)) (e : PyExc) :
  never_raises (except_drive rt extra e).
Proof. intros w. unfold except_drive. destruct e; eauto. Qed.

Lemma bind_acquired_raises_only (k : option Credentials -> Py PyVal) :
  (forall creds, raises_only_decode_error (k creds)) ->
  raises_only_decode_error (get_google_credentials cfg ≫= k).
Proof.
  intros Hk w e w'.
  destruct (get_google_credentials_total cfg w) as (r & w1 & Hacq).
  rewrite (bind_returned _ _ _ _ _ Hacq). apply Hk.
Qed.

Lemma bind_acquired_never_raises (k : option Credentials -> Py PyVal) :
  (forall creds, never_raises (k creds)) ->
  never_raises (get_google_credentials cfg ≫= k).
Proof.
  intros Hk w.
  destruct (get_google_credentials_total cfg w) as (r & w1 & Hacq).
  rewrite (bind_returned _ _ _ _ _ Hacq). apply Hk.
Qed.

Lemma ret_raises_only {A : Type} (a : A) : raises_only_decode_error (mret a).
Proof. intros w e w'. discriminate. Qed.

Lemma ret_never_raises {A : Type} (a : A) : never_raises (mret a).
Proof. intros w. now exists a, w. Qed.

End Escapes.

Lemma str_handlers_never_raise (cfg : Config) (rt : Runtime) (call : Invocation) :
  renders_error_with_str call = true -> never_raises (run_tool cfg rt call).
Proof.
  destruct call; try discriminate; intros _; cbn [run_tool].
  - unfold search_google. apply try_except_never_raises.
    intros e w. destruct e; eauto.
  - apply bind_acquired_never_raises. intros [c|]; [| apply ret_never_raises].
    apply try_except_never_raises, except_drive_never_raises.
  - apply bind_acquired_never_raises. intros [c|]; [| apply ret_never_raises].
    apply try_except_never_raises, except_drive_never_raises.
Qed.

Lemma decoding_handlers_raise_only (cfg : Config) (rt : Runtime) (call : Invocation) :
  renders_error_with_str call = false ->
  raises_only_decode_error (run_tool cfg rt call).
Proof.
  destruct call; try discriminate; intros _; cbn [run_tool];
    apply bind_acquired_raises_only; intros [c|];
    try apply ret_raises_only;
    try (apply try_except_raises_only, except_api_raises_only);
    try (apply try_except_raises_only, except_event_raises_only).
  destruct (negb (truthy_list add_labels) && negb (truthy_list remove_labels));
    [apply ret_raises_only |].
  apply try_except_raises_only, except_api_raises_only.
Qed.

(** C2 (failing input). [list_emails] called with valid credentials while
    the message listing fails with an [HttpError] whose body is the byte
    0xFF: the [except HttpError] clause evaluates [error.content.decode()],
    which raises [UnicodeDecodeError] inside the clause, and the exception
    leaves the handler. *)
Theorem list_emails_lets_decode_error_escape (cfg : Config) (rt : Runtime) :
  (run_tool cfg rt (ListEmails "" 10)
     (authorized_world [Raise undecodable_error])).1
  = Raise UnicodeDecodeError.
Proof. vm_compute. reflexivity. Qed.

(** ** [_get_email_body] on message parts *)

Section EmailBody.

Lemma part_value_eq (m : string) (d : option string) (ps : list MessagePart) :
  part_value (Part m d ps)
  = dict ([("mimeType", VStr m);
           ("body", dict (match d with
                          | Some x => [("data", VStr x)]
                          | None => []
                          end))]
          ++ match ps with
             | [] => []
             | _ :: _ => [("parts", VList (map part_value ps))]
             end).
Proof. reflexivity. Qed.

Lemma part_fields (m : string) (d : option string) (ps : list MessagePart) :
  let v := part_value (Part m d ps) in
  truth v = true
  /\ py_item v "mimeType" = Return (VStr m)
  /\ py_get v "mimeType" (VStr "text/plain") = Return (VStr m)
  /\ py_in "body" v = Return true
  /\ py_item v "body"
     = Return (dict (match d with
                     | Some x => [("data", VStr x)]
                     | None => []
                     end))
  /\ py_in "parts" v = Return (match ps with [] => false | _ :: _ => true end)
  /\ py_item v "parts"
     = match ps with
       | [] => Raise (KeyError "parts")
       | _ :: _ => Return (VList (map part_value ps))
       end.
Proof.
  cbn zeta. rewrite part_value_eq.
  destruct ps as [|q qs]; repeat split; vm_compute; reflexivity.
Qed.

Lemma body_has_data (d : option string) :
  py_in "data" (dict (match d with
                      | Some x => [("data", VStr x)]
                      | None => []
                      end))
  = Return (match d with Some _ => true | None => false end).
Proof. destruct d; vm_compute; reflexivity. Qed.

Lemma body_data (x : string) :
  py_item (dict [("data", VStr x)]) "data" = Return (VStr x).
Proof. vm_compute. reflexivity. Qed.

Lemma is_plain_text_with_data_part (q : MessagePart) :
  is_plain_text_with_data (part_value q)
  = Return (match plain_text_data q with Some _ => true | None => false end).
Proof.
  destruct q as [m d ps]. unfold is_plain_text_with_data.
  destruct (part_fields m d ps) as (_ & Hmime & _ & Hin & Hbody & _).
  rewrite Hmime. cbn [mbind Outcome_bind eq_str].
  unfold plain_text_data.
  destruct (String.eqb m "text/plain").
  - rewrite Hin. cbn [mbind Outcome_bind]. rewrite Hbody.
    cbn [mbind Outcome_bind]. rewrite body_has_data. now destruct d.
  - now destruct d.
Qed.

Lemma decode_body_data_part (m x : string) (ps : list MessagePart) :
  decode_body_data (part_value (Part m (Some x) ps)) = decode_data x.
Proof.
  unfold decode_body_data, decode_data.
  destruct (part_fields m (Some x) ps) as (_ & _ & _ & _ & Hbody & _).
  rewrite Hbody. cbn [mbind Outcome_bind]. rewrite body_data. reflexivity.
Qed.

Lemma omap_cons {A B : Type} (f : A -> option B) (a : A) (l : list A) :
  omap f (a :: l)
  = match f a with
    | Some b => b :: omap f l
    | None => omap f l
    end.
Proof. reflexivity. Qed.

Lemma plain_text_data_some (q : MessagePart) (x : string) :
  plain_text_data q = Some x ->
  exists m ps, q = Part m (Some x) ps.
Proof.
  destruct q as [m [d|] ps]; cbn; [| discriminate].
  destruct (String.eqb m "text/plain"); [| discriminate].
  intros [= ->]. eauto.
Qed.

Lemma first_plain_text_parts (ps : list MessagePart) :
  first_plain_text (map part_value ps)
  = loop_result (head (omap plain_text_data ps)).
Proof.
  induction ps as [|q ps IH]; [reflexivity |].
  cbn [map first_plain_text]. rewrite is_plain_text_with_data_part, omap_cons.
  cbn [mbind Outcome_bind].
  destruct (plain_text_data q) as [x|] eqn:Hq.
  - apply plain_text_data_some in Hq as (m & qs & ->).
    rewrite decode_body_data_part. reflexivity.
  - exact IH.
Qed.

Lemma head_app_omap {A B : Type} (f : A -> option B) (l1 l2 : list A) :
  head (omap f (l1 ++ l2))
  = match head (omap f l1) with
    | Some b => Some b
    | None => head (omap f l2)
    end.
Proof.
  induction l1 as [|a l1 IH]; [reflexivity |].
  cbn [app]. rewrite !omap_cons.
  destruct (f a); [reflexivity | exact IH].
Qed.

Lemma first_alternative_text_parts (ps : list MessagePart) :
  first_alternative_text (map part_value ps)
  = loop_result
      (head (omap plain_text_data
               (flat_map sub_parts (List.filter is_alternative ps)))).
Proof.
  induction ps as [|q ps IH]; [reflexivity |].
  cbn [map first_alternative_text List.filter].
  destruct q as [m d qs].
  destruct (part_fields m d qs) as (_ & Hmime & _ & _ & _ & Hin & Hparts).
  rewrite Hmime. cbn [mbind Outcome_bind eq_str is_alternative].
  destruct (String.eqb m "multipart/alternative").
  - rewrite Hin. cbn [mbind Outcome_bind flat_map sub_parts].
    rewrite head_app_omap.
    destruct qs as [|q0 qs].
    + cbn [mbind Outcome_bind mret Outcome_ret omap head]. exact IH.
    + rewrite Hparts. cbn [mbind Outcome_bind py_iter].
      rewrite first_plain_text_parts.
      destruct (head (omap plain_text_data (q0 :: qs))) as [x|].
      * unfold loop_result. cbn [mbind Outcome_bind].
        destruct (decode_data x); reflexivity.
      * cbn [loop_result mbind Outcome_bind mret Outcome_ret]. exact IH.
  - cbn [mbind Outcome_bind mret Outcome_ret]. exact IH.
Qed.

(** The payload itself, when none of its parts gave a text. *)
Lemma get_email_body_part (m : string) (d : option string) (ps : list MessagePart) :
  _get_email_body (part_value (Part m d ps)) = two_level_body (Part m d ps).
Proof.
  unfold _get_email_body, two_level_body.
  destruct (part_fields m d ps) as (Htruth & _ & Hget & Hbody_in & Hbody & Hin & Hparts).
  rewrite Htruth. cbn [negb]. rewrite Hin. cbn [mbind Outcome_bind].
  assert (forall returned : Outcome (option string),
             returned = loop_result
                          (match head (omap plain_text_data ps) with
                           | Some x => Some x
                           | None =>
                               head (omap plain_text_data
                                       (flat_map sub_parts
                                          (List.filter is_alternative ps)))
                           end) ->
             (returned ≫= fun returned =>
                match returned with
                | Some text => mret text
                | None =>
                    has_body ← py_in "body" (part_value (Part m d ps));
                    has_data ← (if has_body : bool then
                                  body ← py_item (part_value (Part m d ps)) "body";
                                  py_in "data" body
                                else mret false);
                    if has_data : bool then
                      mime_type ← py_get (part_value (Part m d ps)) "mimeType"
                                    (VStr "text/plain");
                      is_plain ← py_in "text/plain" mime_type;
                      if is_plain : bool
                      then decode_body_data (part_value (Part m d ps))
                      else mret NO_PLAIN_TEXT
                    else mret NO_PLAIN_TEXT
                end)
             = match head (omap plain_text_data ps) with
               | Some x => decode_data x
               | None =>
                   match head (omap plain_text_data
                                 (flat_map sub_parts
                                    (List.filter is_alternative ps))) with
                   | Some x => decode_data x
                   | None =>
                       match d with
                       | Some x =>
                           if PyStr.contains "text/plain" m then decode_data x
                           else Return NO_PLAIN_TEXT
                       | None => Return NO_PLAIN_TEXT
                       end
                   end
               end) as Hrest.
  { intros returned ->.
    assert (forall x, loop_result (Some x) ≫= (fun returned : option string =>
                match returned with
                | Some text => mret text
                | None =>
                    has_body ← py_in "body" (part_value (Part m d ps));
                    has_data ← (if has_body : bool then
                                  body ← py_item (part_value (Part m d ps)) "body";
                                  py_in "data" body
                                else mret false);
                    if has_data : bool then
                      mime_type ← py_get (part_value (Part m d ps)) "mimeType"
                                    (VStr "text/plain");
                      is_plain ← py_in "text/plain" mime_type;
                      if is_plain : bool
                      then decode_body_data (part_value (Part m d ps))
                      else mret NO_PLAIN_TEXT
                    else mret NO_PLAIN_TEXT
                end) = decode_data x) as Hsome.
    { intros x. unfold loop_result. cbn [mbind Outcome_bind].
      destruct (decode_data x); reflexivity. }
    destruct (head (omap plain_text_data ps)) as [x|]; [apply Hsome |].
    destruct (head (omap plain_text_data
                      (flat_map sub_parts (List.filter is_alternative ps))))
      as [x|]; [apply Hsome |].
    cbn [loop_result mbind Outcome_bind mret Outcome_ret].
    rewrite Hbody_in. cbn [mbind Outcome_bind]. rewrite Hbody.
    cbn [mbind Outcome_bind]. rewrite body_has_data. cbn [mbind Outcome_bind].
    destruct d as [x|]; [| reflexivity].
    rewrite Hget. cbn [mbind Outcome_bind py_in].
    destruct (PyStr.contains "text/plain" m); [| reflexivity].
    apply decode_body_data_part. }
  destruct ps as [|q ps].
  - cbn [mbind Outcome_bind mret Outcome_ret]. apply (Hrest (Return None)).
    reflexivity.
  - rewrite Hparts. cbn [mbind Outcome_bind py_iter].
    rewrite first_plain_text_parts.
    destruct (head (omap plain_text_data (q :: ps))) as [x|] eqn:Hfirst.
    + unfold loop_result at 1. cbn [mbind Outcome_bind].
      destruct (decode_data x) as [text|e]; reflexivity.
    + cbn [loop_result mbind Outcome_bind mret Outcome_ret].
      rewrite first_alternative_text_parts. apply Hrest. reflexivity.
Qed.

End EmailBody.

(** C4 (amended). [_get_email_body] searches two levels.  For a message
    part as Gmail delivers it, the result is the decoded data (URL-safe
    base64, then UTF-8) of the first [text/plain] part with body data among
    the parts of the payload; failing that, of the first such part among
    the parts of the payload's [multipart/alternative] parts; failing that,
    of the payload's own body when its type mentions [text/plain]; and
    otherwise the sentinel "(Could not extract plain text body)".  Parts
    nested deeper are not looked at.  The payload of the specification's
    example yields "hello", and an empty payload "(No body content)". *)
Theorem get_email_body_searches_two_levels :
  (forall p : MessagePart, _get_email_body (part_value p) = two_level_body p)
  /\ _get_email_body hello_payload = Return "hello"
  /\ _get_email_body (dict []) = Return NO_BODY.
Proof.
  split; [intros [m d ps]; apply get_email_body_part |].
  split; vm_compute; reflexivity.
Qed.

(** A message whose only plain text lies under
    mixed > related > alternative: a depth-first traversal finds "hello",
    the source returns the sentinel. *)
Lemma get_email_body_misses_nested_leaf :
  _get_email_body (part_value nested_message) = Return NO_PLAIN_TEXT
  /\ claimed_email_body nested_message = Return "hello".
Proof. split; vm_compute; reflexivity. Qed.

(** * Properties beyond the claims *)

(** ** The escaping of the search phrase *)



(** ** The list of tools *)

(** X2. The discovery resource lists the registered tools: its eleven
    names are distinct, every handler's tool name is in the list, and every
    name of the list is the name of a handler. *)
Theorem available_tools_are_the_registered_tools :
  NoDup get_available_google_tools
  /\ (forall call : Invocation, tool_name call ∈ get_available_google_tools)
  /\ (forall name : string,
        name ∈ get_available_google_tools ->
        exists call : Invocation, tool_name call = name).
Proof.
  split; [| split].
  - apply (bool_decide_unpack _). vm_compute. exact I.
  - intros call.
    destruct call; cbn [tool_name]; apply (bool_decide_unpack _);
      vm_compute; exact I.
  - intros name Hname. unfold get_available_google_tools in Hname.
    repeat (apply elem_of_cons in Hname as [-> | Hname]);
      [ exists (ListEmails "" 0) | exists (SearchEmails "" 0)
      | exists (SendEmail "" "" "" None None) | exists (ModifyEmail "" None None)
      | exists (ListEvents None None 0) | exists (CreateEvent "" "" "" None None None)
      | exists (UpdateEvent "" None None None None None None)
      | exists (DeleteEvent "") | exists (SearchGoogle "" 0)
      | exists (ReadGdriveFile "") | exists (SearchGdrive "" None None) | ];
      try reflexivity.
    now apply elem_of_nil in Hname.
Qed.

(** ** The credential store, beyond the claims *)

Lemma refresh_and_store_outcomes (c : Credentials) (w : World) :
  exists r w1,
    refresh_and_store c w = (Return r, w1)
    /\ ((r = None /\ token_file w1 = token_file w
         /\ (trace w1 = trace w \/ trace w1 = trace w ++ [TokenRequest c]))
        \/ exists c',
             trace w1 = trace w ++ [TokenRequest c; TokenFileWrite c']
             /\ ((r = Some c' /\ disk w = DiskOk /\ is_Some (token c')
                  /\ token_file w1 = Some (Parsed (GoogleAuth.to_json c')))
                 \/ (r = None /\ disk w = WriteFails
                     /\ token_file w1 = Some Unreadable))).
Proof.
  unfold refresh_and_store, try_except, GoogleAuth.refresh, write_token_file,
    mbind, Py_bind, mret, Py_ret; cbn beta iota zeta.
  destruct (refresh_token c), (token_uri c), (client_id c), (client_secret c);
    try (eexists _, _; split; [reflexivity |]; left; auto).
  destruct (token_endpoint w) as [|[g|] rest]; cbn;
    try (eexists _, _; split; [reflexivity |]; left; auto).
  destruct (disk w) eqn:Hd; cbn.
  - eexists _, _. split; [reflexivity |]. right. eexists. cbn.
    rewrite <- app_assoc. split; [reflexivity |]. left. cbn. eauto.
  - eexists _, _. split; [reflexivity |]. left. auto.
  - eexists _, _. split; [reflexivity |]. right. eexists. cbn.
    rewrite <- app_assoc. split; [reflexivity |]. right. auto.
Qed.

(** The outcomes of a call, by what it did. *)
Lemma get_google_credentials_outcomes (cfg : Config) (w : World) :
  exists r w1,
    get_google_credentials cfg w = (Return r, w1)
    /\ ((w1 = w
         /\ (r = None
             \/ exists c, r = Some c /\ loaded_credentials w = Some c
                          /\ GoogleAuth.valid_at (now w) c = true))
        \/ (r = None /\ token_file w1 = token_file w
            /\ exists c0, trace w1 = trace w ++ [TokenRequest c0])
        \/ exists c0 c',
             trace w1 = trace w ++ [TokenRequest c0; TokenFileWrite c']
             /\ ((r = Some c' /\ disk w = DiskOk /\ is_Some (token c')
                  /\ token_file w1 = Some (Parsed (GoogleAuth.to_json c')))
                 \/ (r = None /\ disk w = WriteFails
                     /\ token_file w1 = Some Unreadable))).
Proof.
  rewrite get_google_credentials_cases.
  assert (forall c0, exists r w1,
             refresh_and_store c0 w = (Return r, w1)
             /\ ((w1 = w
                  /\ (r = None
                      \/ exists c, r = Some c /\ loaded_credentials w = Some c
                                   /\ GoogleAuth.valid_at (now w) c = true))
                 \/ (r = None /\ token_file w1 = token_file w
                     /\ exists c1, trace w1 = trace w ++ [TokenRequest c1])
                 \/ exists c1 c',
                      trace w1 = trace w ++ [TokenRequest c1; TokenFileWrite c']
                      /\ ((r = Some c' /\ disk w = DiskOk /\ is_Some (token c')
                           /\ token_file w1 = Some (Parsed (GoogleAuth.to_json c')))
                          \/ (r = None /\ disk w = WriteFails
                              /\ token_file w1 = Some Unreadable)))) as Hr.
  { intros c0.
    destruct (refresh_and_store_outcomes c0 w) as (r & w1 & Heq & Hcases).
    exists r, w1. split; [exact Heq |].
    destruct Hcases as [(-> & Hf & [Ht | Ht]) | (c' & Ht & Hc)].
    - left. split; [| now left].
      unfold refresh_and_store, try_except, GoogleAuth.refresh,
        write_token_file, mbind, Py_bind, mret, Py_ret in Heq.
      cbn beta iota zeta in Heq.
      destruct (refresh_token c0), (token_uri c0), (client_id c0),
        (client_secret c0); try (now injection Heq as <-).
      destruct (token_endpoint w) as [|[g|] rest]; cbn in Heq;
        try (injection Heq as <-; cbn in Ht;
             apply (f_equal length) in Ht; rewrite length_app in Ht;
             cbn in Ht; lia).
      destruct (disk w); cbn in Heq; try discriminate;
        injection Heq as <-; cbn in Ht;
        apply (f_equal length) in Ht; rewrite !length_app in Ht;
        cbn in Ht; lia.
    - right. left. eauto.
    - right. right. eauto. }
  destruct (loaded_credentials w) as [c|] eqn:Hl.
  - destruct (GoogleAuth.valid_at (now w) c) eqn:Hv.
    + exists (Some c), w. split; [reflexivity |]. left. split; [reflexivity |].
      right. eauto.
    + destruct (GoogleAuth.expired_at (now w) c && truthy (refresh_token c));
        [apply Hr |].
      destruct (truthy (GOOGLE_REFRESH_TOKEN cfg) && truthy (GOOGLE_CLIENT_ID cfg)
                && truthy (GOOGLE_CLIENT_SECRET cfg)); [apply Hr |].
      exists None, w. split; [reflexivity |]. left. auto.
  - destruct (truthy (GOOGLE_REFRESH_TOKEN cfg) && truthy (GOOGLE_CLIENT_ID cfg)
              && truthy (GOOGLE_CLIENT_SECRET cfg)); [apply Hr |].
    exists None, w. split; [reflexivity |]. left. auto.
Qed.

(** X3. [get_google_credentials] never raises, and a call does little to
    the outside: nothing at all, or one request to the token endpoint, or
    one such request followed by one write of the token file.  It never
    writes without having asked the endpoint first and never asks twice. *)
Theorem credential_acquisition_never_raises (cfg : Config) (w : World) :
  exists r w1,
    get_google_credentials cfg w = (Return r, w1)
    /\ (trace w1 = trace w
        \/ (exists c, trace w1 = trace w ++ [TokenRequest c])
        \/ (exists c c', trace w1 = trace w ++ [TokenRequest c; TokenFileWrite c'])).
Proof.
  destruct (get_google_credentials_outcomes cfg w) as (r & w1 & Heq & Hcases).
  exists r, w1. split; [exact Heq |].
  destruct Hcases as [(-> & _) | [(_ & _ & c0 & Ht) | (c0 & c' & Ht & _)]]; eauto.
Qed.

(** X4. Credentials that [get_google_credentials] returns always carry an
    access token, and they are either the record loaded from the token
    file, valid as it stands (nothing was done), or a record just granted
    by the token endpoint that the token file now holds. *)
Theorem returned_credentials_are_valid_or_stored (cfg : Config) (w w1 : World)
    (c : Credentials) :
  get_google_credentials cfg w = (Return (Some c), w1) ->
  is_Some (token c)
  /\ ((w1 = w /\ loaded_credentials w = Some c
       /\ GoogleAuth.valid_at (now w) c = true)
      \/ (token_file w1 = Some (Parsed (GoogleAuth.to_json c))
          /\ exists c0, trace w1 = trace w ++ [TokenRequest c0; TokenFileWrite c])).
Proof.
  intros H.
  destruct (get_google_credentials_outcomes cfg w) as (r & w1' & Heq & Hcases).
  rewrite H in Heq. injection Heq as <- <-.
  destruct Hcases as [(-> & [? | (c1 & [= <-] & Hl & Hv)])
                     | [(? & _) | (c0 & c' & Ht & [([= <-] & _ & Htok & Hf)
                                                  | (? & _)])]];
    try discriminate.
  - split; [| left; auto].
    unfold GoogleAuth.valid_at in Hv. destruct (token c); [eauto | discriminate].
  - split; [exact Htok |]. right. eauto.
Qed.

Lemma returned_credentials_are_valid_or_stored_witness :
  is_Some (token refreshed_credentials)
  /\ ((world_after_refresh = sample_world [Some sample_grant] []
       /\ loaded_credentials (sample_world [Some sample_grant] [])
          = Some refreshed_credentials
       /\ GoogleAuth.valid_at (now (sample_world [Some sample_grant] []))
            refreshed_credentials = true)
      \/ (token_file world_after_refresh
          = Some (Parsed (GoogleAuth.to_json refreshed_credentials))
          /\ exists c0,
               trace world_after_refresh
               = trace (sample_world [Some sample_grant] [])
                 ++ [TokenRequest c0; TokenFileWrite refreshed_credentials])).
Proof.
  apply (returned_credentials_are_valid_or_stored sample_config
           (sample_world [Some sample_grant] []) world_after_refresh
           refreshed_credentials).
  reflexivity.
Defined.

(** X5. When the token file cannot be written, a refresh is of no use:
    the only credentials a call can return are the valid ones already in
    the file, and then nothing was requested.  A record that the endpoint
    granted is dropped when its write fails. *)
Theorem unwritable_token_file_loses_the_refresh (cfg : Config) (w w1 : World)
    (c : Credentials) :
  disk w <> DiskOk ->
  get_google_credentials cfg w = (Return (Some c), w1) ->
  w1 = w /\ loaded_credentials w = Some c
  /\ GoogleAuth.valid_at (now w) c = true.
Proof.
  intros Hdisk H.
  destruct (get_google_credentials_outcomes cfg w) as (r & w1' & Heq & Hcases).
  rewrite H in Heq. injection Heq as <- <-.
  destruct Hcases as [(-> & [? | (c1 & [= <-] & Hl & Hv)])
                     | [(? & _) | (c0 & c' & Ht & [(_ & Hd & _) | (? & _)])]];
    try discriminate; try contradiction.
  auto.
Qed.

Lemma unwritable_token_file_loses_the_refresh_witness :
  read_only_world = read_only_world
  /\ loaded_credentials read_only_world = Some stored_credentials
  /\ GoogleAuth.valid_at (now read_only_world) stored_credentials = true.
Proof.
  apply (unwritable_token_file_loses_the_refresh sample_config read_only_world
           read_only_world stored_credentials);
    [discriminate | reflexivity].
Defined.

(** X6. The access token that [get_refresh_token.py] saves is never used
    as it is.  The file it writes has no expiry, which google-auth reads as
    already expired, so when [get_google_credentials] returns credentials
    in a world whose token file was written by [get_refresh_token], it has
    first asked the token endpoint and then stored the record granted. *)
Theorem saved_token_is_refreshed_before_use (cfg : Config) (flow : Credentials)
    (w0 w1 : World) (c : Credentials) :
  disk w0 = DiskOk ->
  get_google_credentials cfg (get_refresh_token (Return flow) w0)
  = (Return (Some c), w1) ->
  exists c0,
    trace w1 = trace w0 ++ [TokenRequest c0; TokenFileWrite c]
    /\ token_file w1 = Some (Parsed (GoogleAuth.to_json c)).
Proof.
  intros Hdisk H.
  set (w := get_refresh_token (Return flow) w0) in *.
  assert (token_file w = Some (Parsed (token_data flow))) as Hfile
    by (unfold w, get_refresh_token; rewrite Hdisk; reflexivity).
  assert (trace w = trace w0) as Htrace
    by (unfold w, get_refresh_token; rewrite Hdisk; reflexivity).
  destruct (get_google_credentials_outcomes cfg w) as (r & w1' & Heq & Hcases).
  rewrite H in Heq. injection Heq as <- <-.
  destruct Hcases as [(-> & [? | (c1 & [= <-] & Hl & Hv)])
                     | [(? & _) | (c0 & c' & Ht & [([= <-] & _ & _ & Hf)
                                                  | (? & _)])]];
    try discriminate.
  - exfalso. apply loaded_credentials_shape in Hl
      as (_ & _ & j & Hj & Htk & _ & _ & _ & Hex).
    rewrite Hfile in Hj. injection Hj as <-.
    unfold token_data in Hex. cbn [j_expiry] in Hex.
    unfold GoogleAuth.valid_at, GoogleAuth.expired_at in Hv. rewrite Hex in Hv.
    destruct (token c); [| discriminate].
    apply negb_true_iff, Z.leb_gt in Hv.
    unfold GoogleAuth.REFRESH_THRESHOLD in Hv. lia.
  - exists c0. rewrite <- Htrace. auto.
Qed.

Lemma saved_token_is_refreshed_before_use_witness :
  exists c0,
    trace (get_google_credentials no_secrets
             (get_refresh_token (Return flow_credentials)
                (fresh_world [Some sample_grant]))).2
    = trace (fresh_world [Some sample_grant])
      ++ [TokenRequest c0; TokenFileWrite refreshed_credentials]
    /\ token_file (get_google_credentials no_secrets
                     (get_refresh_token (Return flow_credentials)
                        (fresh_world [Some sample_grant]))).2
       = Some (Parsed (GoogleAuth.to_json refreshed_credentials)).
Proof.
  apply (saved_token_is_refreshed_before_use no_secrets flow_credentials
           (fresh_world [Some sample_grant])
           (get_google_credentials no_secrets
              (get_refresh_token (Return flow_credentials)
                 (fresh_world [Some sample_grant]))).2
           refreshed_credentials);
    reflexivity.
Defined.

(** ** What the handlers return and raise, beyond the claims *)

Lemma bind_returns_envelope {A : Type} (m : Py A) (k : A -> Py PyVal) :
  (forall a, returns_envelope (k a)) -> returns_envelope (m ≫= k).
Proof.
  intros Hk w v w'. unfold mbind, Py_bind.
  destruct (m w) as [[a|e] w0]; [apply Hk | discriminate].
Qed.

Lemma try_except_returns_envelope (body : Py PyVal) (h : PyExc -> Py PyVal) :
  returns_envelope body -> (forall e, returns_envelope (h e)) ->
  returns_envelope (try_except body h).
Proof.
  intros Hb Hh w v w'. unfold try_except.
  destruct (body w) as [[a|e] w0] eqn:Hbody.
  - intros [= <- <-]. eapply Hb, Hbody.
  - apply Hh.
Qed.

Lemma ret_success_envelope (items : list (string * PyVal)) :
  returns_envelope (mret (dict (("success", VBool true) :: items))).
Proof.
  intros w v w' [= <- _]. eexists _, true. split; [reflexivity |].
  split; [| discriminate]. unfold dict. cbn [list_to_map foldr].
  apply lookup_insert_eq.
Qed.

Lemma ret_failure_envelope (msg : string) (items : list (string * PyVal)) :
  returns_envelope
    (mret (dict (("success", VBool false) :: ("error", VStr msg) :: items))).
Proof.
  intros w v w' [= <- _]. eexists _, false. split; [reflexivity |].
  unfold dict. cbn [list_to_map foldr]. split.
  - apply lookup_insert_eq.
  - intros _. exists msg. rewrite lookup_insert_ne by discriminate.
    apply lookup_insert_eq.
Qed.

Lemma except_drive_returns_envelope (rt : Runtime)
    (extra : list (string * PyVal)) (e : PyExc) :
  returns_envelope (except_drive rt extra e).
Proof. unfold except_drive. destruct e; apply ret_failure_envelope. Qed.

Ltac solve_envelope :=
  repeat first
    [ apply ret_success_envelope
    | apply ret_failure_envelope
    | apply bind_returns_envelope; intros ?
    | match goal with
      | |- returns_envelope (if ?b then _ else _) => destruct b
      | |- returns_envelope (match ?x with _ => _ end) => destruct x
      end ].

Lemma str_handlers_return_envelopes (cfg : Config) (rt : Runtime)
    (call : Invocation) :
  renders_error_with_str call = true -> returns_envelope (run_tool cfg rt call).
Proof.
  destruct call; try discriminate; intros _; cbn [run_tool].
  - unfold search_google. apply try_except_returns_envelope.
    + solve_envelope.
    + intros e. destruct e; apply ret_failure_envelope.
  - unfold read_gdrive_file. apply bind_returns_envelope. intros [c|].
    + apply try_except_returns_envelope;
        [| intros e; apply except_drive_returns_envelope].
      solve_envelope.
    + apply ret_failure_envelope.
  - unfold search_gdrive. apply bind_returns_envelope. intros [c|].
    + apply try_except_returns_envelope;
        [| intros e; apply except_drive_returns_envelope].
      solve_envelope.
    + apply ret_failure_envelope.
Qed.

(** X7. [search_google], [read_gdrive_file] and [search_gdrive] never
    raise, whatever the APIs reply: they always return a dictionary with a
    boolean [success], and with an [error] message when [success] is
    false. *)
Theorem str_handlers_always_return_an_envelope (cfg : Config) (rt : Runtime)
    (call : Invocation) (w : World) :
  renders_error_with_str call = true ->
  exists v w', run_tool cfg rt call w = (Return v, w') /\ is_envelope v.
Proof.
  intros Hcall.
  destruct (str_handlers_never_raise cfg rt call Hcall w) as (v & w' & Hrun).
  exists v, w'. split; [exact Hrun |].
  eapply str_handlers_return_envelopes; eauto.
Qed.

(** [read_gdrive_file] when the metadata request is answered by something
    that is not a dictionary: the failure envelope. *)
Lemma str_handlers_always_return_an_envelope_witness :
  exists v w',
    run_tool sample_config sample_runtime (ReadGdriveFile "f1")
      (authorized_world [Return (VList [])])
    = (Return v, w')
    /\ is_envelope v.
Proof.
  apply (str_handlers_always_return_an_envelope sample_config sample_runtime
           (ReadGdriveFile "f1") (authorized_world [Return (VList [])])).
  reflexivity.
Defined.

(** X8. The only exception that can leave a handler is the
    [UnicodeDecodeError] raised while an [except HttpError] clause decodes
    the body of the error, and only the eight Gmail and Calendar handlers,
    whose clauses decode it, can raise it. *)
Theorem only_decode_errors_leave_a_handler (cfg : Config) (rt : Runtime)
    (call : Invocation) (w w' : World) (e : PyExc) :
  run_tool cfg rt call w = (Raise e, w') ->
  e = UnicodeDecodeError /\ renders_error_with_str call = false.
Proof.
  intros Hrun. destruct (renders_error_with_str call) eqn:Hcall.
  - destruct (str_handlers_never_raise cfg rt call Hcall w) as (v & w1 & Hr).
    congruence.
  - split; [| reflexivity].
    eapply decoding_handlers_raise_only; eauto.
Qed.

Lemma only_decode_errors_leave_a_handler_witness :
  UnicodeDecodeError = UnicodeDecodeError
  /\ renders_error_with_str (SendEmail "a@example.com" "s" "b" None None) = false.
Proof.
  apply (only_decode_errors_leave_a_handler sample_config sample_runtime
           (SendEmail "a@example.com" "s" "b" None None)
           (authorized_world [Raise undecodable_error])
           (run_tool sample_config sample_runtime
              (SendEmail "a@example.com" "s" "b" None None)
              (authorized_world [Raise undecodable_error])).2
           UnicodeDecodeError).
  vm_compute. reflexivity.
Defined.

(** ** Stepping through a handler *)

Lemma execute_step (r : Request) (w : World) (reply : Outcome PyVal)
    (rest : list (Outcome PyVal)) :
  api w = reply :: rest ->
  execute r w = (reply, (execute r w).2).
Proof. unfold execute. now intros ->. Qed.

Lemma bind_raised {A B : Type} (m : Py A) (k : A -> Py B) (w w1 : World)
    (e : PyExc) :
  m w = (Raise e, w1) -> (m ≫= k) w = (Raise e, w1).
Proof. intros H. unfold mbind, Py_bind. now rewrite H. Qed.

Lemma try_except_raised {A : Type} (body : Py A) (h : PyExc -> Py A)
    (w w1 : World) (e : PyExc) :
  body w = (Raise e, w1) -> try_except body h w = h e w1.
Proof. intros H. unfold try_except. now rewrite H. Qed.

Lemma try_except_returned {A : Type} (body : Py A) (h : PyExc -> Py A)
    (w w1 : World) (a : A) :
  body w = (Return a, w1) -> try_except body h w = (Return a, w1).
Proof. intros H. unfold try_except. now rewrite H. Qed.

(** A [try] whose first statement is a request that fails. *)
Lemma first_request_fails {A : Type} (r : Request) (k : PyVal -> Py A)
    (h : PyExc -> Py A) (w : World) (e : PyExc) (rest : list (Outcome PyVal)) :
  api w = Raise e :: rest ->
  try_except (execute r ≫= k) h w = h e (execute r w).2.
Proof.
  intros Hapi. apply try_except_raised, bind_raised.
  now apply execute_step with (rest := rest).
Qed.

Lemma except_api_decodable (rt : Runtime) (name : string) (status : Z)
    (content : string) (cs : list string) (w : World) :
  Codec.utf8_chars content = Some cs ->
  except_api rt name (HttpError status content) w
  = (Return (VStr (name +:+ " API 오류: " +:+ pretty status +:+ " - " +:+ content)),
     w).
Proof.
  intros Hc. unfold except_api, mbind, Py_bind, lift_outcome, Codec.utf8_decode.
  now rewrite Hc.
Qed.

(** X9. A Gmail error is reported with its status and its body, word for
    word.  When the message listing of [list_emails] or [search_emails]
    fails with an [HttpError] whose body is UTF-8, the handler returns
    "Gmail API 오류: <status> - <body>" and has sent that one request. *)
Theorem gmail_listing_error_is_reported_verbatim (cfg : Config) (rt : Runtime)
    (query : string) (max_results status : Z) (content : string)
    (cs : list string) (w w1 : World) (c : Credentials)
    (rest : list (Outcome PyVal)) :
  get_google_credentials cfg w = (Return (Some c), w1) ->
  api w1 = Raise (HttpError status content) :: rest ->
  Codec.utf8_chars content = Some cs ->
  let message :=
    VStr ("Gmail API 오류: " +:+ pretty status +:+ " - " +:+ content) in
  (list_emails cfg rt query max_results w).1 = Return message
  /\ trace (list_emails cfg rt query max_results w).2
     = trace w1 ++ [ApiCall (GmailMessagesList "me" max_results query)]
  /\ (search_emails cfg rt query max_results w).1 = Return message
  /\ trace (search_emails cfg rt query max_results w).2
     = trace w1 ++ [ApiCall (GmailMessagesList "me" max_results query)].
Proof.
  intros Hacq Hapi Hc. cbn zeta.
  assert (or_str (Some query) "" = query) as Hq
    by (unfold or_str; destruct (String.eqb_spec query ""); congruence).
  unfold list_emails, search_emails.
  rewrite !(bind_returned _ _ _ _ _ Hacq).
  rewrite !(first_request_fails _ _ _ _ _ _ Hapi).
  rewrite !(except_api_decodable _ _ _ _ _ _ Hc). cbn [fst snd].
  rewrite !execute_world, Hq. cbn. auto.
Qed.

Lemma gmail_listing_error_is_reported_verbatim_witness :
  let message := VStr ("Gmail API 오류: " +:+ pretty 403 +:+ " - " +:+ "quota") in
  (list_emails sample_config sample_runtime "is:unread" 10
     (authorized_world [Raise (HttpError 403 "quota")])).1
  = Return message
  /\ trace (list_emails sample_config sample_runtime "is:unread" 10
              (authorized_world [Raise (HttpError 403 "quota")])).2
     = trace (authorized_world [Raise (HttpError 403 "quota")])
       ++ [ApiCall (GmailMessagesList "me" 10 "is:unread")]
  /\ (search_emails sample_config sample_runtime "is:unread" 10
        (authorized_world [Raise (HttpError 403 "quota")])).1
     = Return message
  /\ trace (search_emails sample_config sample_runtime "is:unread" 10
              (authorized_world [Raise (HttpError 403 "quota")])).2
     = trace (authorized_world [Raise (HttpError 403 "quota")])
       ++ [ApiCall (GmailMessagesList "me" 10 "is:unread")].
Proof.
  apply (gmail_listing_error_is_reported_verbatim sample_config sample_runtime
           "is:unread" 10 403 "quota" ["q"; "u"; "o"; "t"; "a"]
           (authorized_world [Raise (HttpError 403 "quota")])
           (authorized_world [Raise (HttpError 403 "quota")])
           stored_credentials []);
    reflexivity.
Defined.

(** X10. A missing event is reported as such and nothing is written.  When
    the first request of [delete_event] or [update_event] (the delete, the
    read) fails with status 404, the handler returns the message naming the
    event id, whatever the body of the error, and has sent that one
    request: [update_event] writes nothing. *)
Theorem missing_event_is_reported_and_not_written (cfg : Config) (rt : Runtime)
    (event_id content : string)
    (summary start end_ location description : option string)
    (attendees : option (list string)) (w w1 : World) (c : Credentials)
    (rest : list (Outcome PyVal)) :
  get_google_credentials cfg w = (Return (Some c), w1) ->
  api w1 = Raise (HttpError 404 content) :: rest ->
  (delete_event cfg rt event_id w).1 = Return (VStr (event_not_found event_id))
  /\ trace (delete_event cfg rt event_id w).2
     = trace w1 ++ [ApiCall (CalendarEventsDelete "primary" event_id)]
  /\ (update_event cfg rt event_id summary start end_ location description
        attendees w).1
     = Return (VStr (event_not_found event_id))
  /\ trace (update_event cfg rt event_id summary start end_ location
              description attendees w).2
     = trace w1 ++ [ApiCall (CalendarEventsGet "primary" event_id)].
Proof.
  intros Hacq Hapi. unfold delete_event, update_event.
  rewrite !(bind_returned _ _ _ _ _ Hacq).
  rewrite !(first_request_fails _ _ _ _ _ _ Hapi).
  cbn [except_event Z.eqb Pos.eqb mret Py_ret fst snd].
  rewrite !execute_world. cbn. auto.
Qed.

Lemma missing_event_is_reported_and_not_written_witness :
  (delete_event sample_config sample_runtime "ev9"
     (authorized_world [Raise (HttpError 404 "gone")])).1
  = Return (VStr (event_not_found "ev9"))
  /\ trace (delete_event sample_config sample_runtime "ev9"
              (authorized_world [Raise (HttpError 404 "gone")])).2
     = trace (authorized_world [Raise (HttpError 404 "gone")])
       ++ [ApiCall (CalendarEventsDelete "primary" "ev9")]
  /\ (update_event sample_config sample_runtime "ev9" (Some "New") None None
        None None None (authorized_world [Raise (HttpError 404 "gone")])).1
     = Return (VStr (event_not_found "ev9"))
  /\ trace (update_event sample_config sample_runtime "ev9" (Some "New") None
              None None None None
              (authorized_world [Raise (HttpError 404 "gone")])).2
     = trace (authorized_world [Raise (HttpError 404 "gone")])
       ++ [ApiCall (CalendarEventsGet "primary" "ev9")].
Proof.
  apply (missing_event_is_reported_and_not_written sample_config sample_runtime
           "ev9" "gone" (Some "New") None None None None None
           (authorized_world [Raise (HttpError 404 "gone")])
           (authorized_world [Raise (HttpError 404 "gone")])
           stored_credentials []);
    reflexivity.
Defined.

(** ** The bodies of the requests that write *)

(** X11. [modify_email] sends the labels it was given and no others.  With
    credentials and at least one non-empty list, it sends one request whose
    body has [addLabelIds] exactly when [add_labels] is non-empty,
    [removeLabelIds] exactly when [remove_labels] is non-empty, each with
    the given labels in order, and no other key: an empty or absent list
    changes nothing. *)
Theorem modify_email_sends_the_given_labels (cfg : Config) (rt : Runtime)
    (id : string) (add_labels remove_labels : option (list string))
    (w w1 : World) (c : Credentials) :
  get_google_credentials cfg w = (Return (Some c), w1) ->
  truthy_list add_labels = true \/ truthy_list remove_labels = true ->
  exists body : gmap string PyVal,
    trace (modify_email cfg rt id add_labels remove_labels w).2
    = trace w1 ++ [ApiCall (GmailMessagesModify "me" id (VDict body))]
    /\ body !! "addLabelIds"
       = (if truthy_list add_labels
          then VList <$> (fmap VStr <$> add_labels) else None)
    /\ body !! "removeLabelIds"
       = (if truthy_list remove_labels
          then VList <$> (fmap VStr <$> remove_labels) else None)
    /\ (forall key, key <> "addLabelIds" -> key <> "removeLabelIds" ->
        body !! key = None).
Proof.
  intros Hacq Hsome. unfold modify_email.
  rewrite (bind_returned _ _ _ _ _ Hacq).
  assert (negb (truthy_list add_labels) && negb (truthy_list remove_labels) = false)
    as -> by (destruct Hsome as [-> | ->]; cbn; [| rewrite andb_false_r]; reflexivity).
  rewrite try_except_world by apply pure_except_api. cbn zeta.
  eexists. split.
  - rewrite bind_world by (intros message; solve_pure).
    rewrite execute_world. reflexivity.
  - destruct add_labels as [[|a add]|], remove_labels as [[|r remove]|];
      cbn [truthy_list];
      (split; [vm_compute; reflexivity |]);
      (split; [vm_compute; reflexivity |]);
      intros key Ha Hr; rewrite ?lookup_insert_ne by congruence;
      apply lookup_empty.
Qed.

Lemma modify_email_sends_the_given_labels_witness :
  exists body : gmap string PyVal,
    trace (modify_email sample_config sample_runtime "m1" (Some []) (Some ["UNREAD"])
             (authorized_world [])).2
    = trace (authorized_world [])
      ++ [ApiCall (GmailMessagesModify "me" "m1" (VDict body))]
    /\ body !! "addLabelIds"
       = (if truthy_list (Some ([] : list string))
          then VList <$> (fmap VStr <$> Some []) else None)
    /\ body !! "removeLabelIds"
       = (if truthy_list (Some ["UNREAD"])
          then VList <$> (fmap VStr <$> Some ["UNREAD"]) else None)
    /\ (forall key, key <> "addLabelIds" -> key <> "removeLabelIds" ->
        body !! key = None).
Proof.
  apply (modify_email_sends_the_given_labels sample_config sample_runtime "m1"
           (Some []) (Some ["UNREAD"]) (authorized_world [])
           (authorized_world []) stored_credentials);
    [reflexivity | now right].
Defined.

(** X12. The event that [create_event] inserts.  With credentials it sends
    one request whose body carries the summary, the location and the
    description (the empty string when absent), start and end in the time
    zone Asia/Seoul, and [attendees] as e-mail entries exactly when the
    list given is non-empty; nothing else. *)
Theorem create_event_inserts_the_given_fields (cfg : Config) (rt : Runtime)
    (summary start end_ : string) (location description : option string)
    (attendees : option (list string)) (w w1 : World) (c : Credentials) :
  get_google_credentials cfg w = (Return (Some c), w1) ->
  exists body : gmap string PyVal,
    trace (create_event cfg rt summary start end_ location description
             attendees w).2
    = trace w1 ++ [ApiCall (CalendarEventsInsert "primary" (VDict body))]
    /\ body !! "summary" = Some (VStr summary)
    /\ body !! "location"
       = Some (VStr (match location with Some s => s | None => "" end))
    /\ body !! "description"
       = Some (VStr (match description with Some s => s | None => "" end))
    /\ body !! "start"
       = Some (dict [("dateTime", VStr start); ("timeZone", VStr "Asia/Seoul")])
    /\ body !! "end"
       = Some (dict [("dateTime", VStr end_); ("timeZone", VStr "Asia/Seoul")])
    /\ body !! "attendees"
       = (if truthy_list attendees then attendee_list <$> attendees else None)
    /\ (forall key,
          key ∉ ["summary"; "location"; "description"; "start"; "end"; "attendees"] ->
          body !! key = None).
Proof.
  intros Hacq. unfold create_event.
  rewrite (bind_returned _ _ _ _ _ Hacq).
  rewrite try_except_world by apply pure_except_api. cbn zeta.
  eexists. split.
  - rewrite bind_world by (intros created; solve_pure).
    rewrite execute_world. reflexivity.
  - assert (forall o : option string,
               or_str o "" = match o with Some s => s | None => "" end) as Hor.
    { intros [s|]; [| reflexivity]. unfold or_str.
      destruct (String.eqb_spec s ""); congruence. }
    rewrite !Hor.
    assert (forall key,
               key ∉ ["summary"; "location"; "description"; "start"; "end";
                      "attendees"] ->
               key <> "summary" /\ key <> "location" /\ key <> "description"
               /\ key <> "start" /\ key <> "end" /\ key <> "attendees") as Hkeys.
    { intros key Hkey. repeat split; intros ->; apply Hkey; set_solver. }
    destruct attendees as [[|a l]|]; cbn [truthy_list list_to_map foldr];
      do 6 (split; [vm_compute; reflexivity |]);
      intros key Hkey; apply Hkeys in Hkey as (? & ? & ? & ? & ? & ?);
      cbn [fst snd]; rewrite ?lookup_insert_ne by congruence;
      apply lookup_empty.
Qed.

Lemma create_event_inserts_the_given_fields_witness :
  exists body : gmap string PyVal,
    trace (create_event sample_config sample_runtime "Review"
             "2025-05-02T10:00:00" "2025-05-02T11:00:00" None (Some "Q2")
             (Some []) (authorized_world [])).2
    = trace (authorized_world [])
      ++ [ApiCall (CalendarEventsInsert "primary" (VDict body))]
    /\ body !! "summary" = Some (VStr "Review")
    /\ body !! "location" = Some (VStr "")
    /\ body !! "description" = Some (VStr "Q2")
    /\ body !! "start"
       = Some (dict [("dateTime", VStr "2025-05-02T10:00:00");
                     ("timeZone", VStr "Asia/Seoul")])
    /\ body !! "end"
       = Some (dict [("dateTime", VStr "2025-05-02T11:00:00");
                     ("timeZone", VStr "Asia/Seoul")])
    /\ body !! "attendees" = None
    /\ (forall key,
          key ∉ ["summary"; "location"; "description"; "start"; "end"; "attendees"] ->
          body !! key = None).
Proof.
  apply (create_event_inserts_the_given_fields sample_config sample_runtime
           "Review" "2025-05-02T10:00:00" "2025-05-02T11:00:00" None (Some "Q2")
           (Some []) (authorized_world []) (authorized_world [])
           stored_credentials).
  reflexivity.
Defined.

(** ** [read_gdrive_file] *)

Lemma next_chunk_step (r : Request) (w : World)
    (reply : Outcome (string * bool)) (rest : list (Outcome (string * bool))) :
  chunks w = reply :: rest ->
  next_chunk r w
  = (reply, mkWorld (token_file w) (disk w) (now w) (token_endpoint w) (api w)
              rest (trace w ++ [ApiCall r])).
Proof. unfold next_chunk. now intros ->. Qed.

(** The loop gathers the chunks in order, stops at the chunk that reports
    completion and leaves the later replies unread. *)
Lemma download_loop_collects (r : Request) (parts : list string) (last : string)
    (rest : list (Outcome (string * bool))) :
  forall (fuel : nat) (acc : string) (w : World),
    chunks w = chunk_replies parts last ++ rest ->
    (length parts < fuel)%nat ->
    download_loop fuel r acc w
    = (Return (acc +:+ joined parts +:+ last),
       mkWorld (token_file w) (disk w) (now w) (token_endpoint w) (api w) rest
         (trace w ++ repeat (ApiCall r) (S (length parts)))).
Proof.
  induction parts as [|data parts IH]; intros fuel acc w Hchunks Hfuel.
  - destruct fuel as [|fuel]; [cbn in Hfuel; lia |].
    cbn [download_loop]. unfold mbind, Py_bind.
    rewrite (next_chunk_step r w _ _ Hchunks). reflexivity.
  - destruct fuel as [|fuel]; [cbn in Hfuel; lia |].
    cbn [download_loop]. unfold mbind at 1, Py_bind at 1.
    rewrite (next_chunk_step r w _ _ Hchunks).
    rewrite (IH fuel) with (acc := acc +:+ data);
      [| reflexivity | cbn in Hfuel; lia].
    cbn [joined length trace token_file disk now token_endpoint api].
    f_equal; [f_equal; now rewrite !append_assoc |].
    f_equal. now rewrite <- app_assoc.
Qed.

Lemma download_collects (r : Request) (parts : list string) (last : string)
    (rest : list (Outcome (string * bool))) (w : World) :
  chunks w = chunk_replies parts last ++ rest ->
  download r w
  = (Return (joined parts +:+ last),
     mkWorld (token_file w) (disk w) (now w) (token_endpoint w) (api w) rest
       (trace w ++ repeat (ApiCall r) (S (length parts)))).
Proof.
  intros Hchunks. unfold download.
  rewrite (download_loop_collects r parts last rest _ "" w Hchunks).
  - reflexivity.
  - rewrite Hchunks. unfold chunk_replies.
    rewrite !length_app, length_fmap. cbn. lia.
Qed.

Lemma bind_lift (A B : Type) (a : A) (k : A -> Py B) (w : World) :
  (lift_outcome (Return a) ≫= k) w = k a w.
Proof. reflexivity. Qed.

Lemma bind_ret_py (A B : Type) (a : A) (k : A -> Py B) (w : World) :
  (mret a ≫= k) w = k a w.
Proof. reflexivity. Qed.

(** X13. A regular file is downloaded chunk by chunk until the download
    reports completion, and its bytes are returned whole.  With
    credentials, for a file whose MIME type is not a Google-apps type,
    [read_gdrive_file] asks for the metadata, then for one chunk after the
    other up to the first that completes the download, and returns the
    chunks joined in order: as text when the type is [text/...] or
    [application/json] (the bytes must then be UTF-8), base64-encoded
    otherwise. *)
Theorem read_gdrive_file_downloads_all_chunks (cfg : Config) (rt : Runtime)
    (file_id mt : string) (meta : gmap string PyVal)
    (rest_api : list (Outcome PyVal)) (parts : list string) (last : string)
    (rest : list (Outcome (string * bool))) (w w1 : World) (c : Credentials) :
  get_google_credentials cfg w = (Return (Some c), w1) ->
  api w1 = Return (VDict meta) :: rest_api ->
  meta !! "mimeType" = Some (VStr mt) ->
  PyStr.startswith mt "application/vnd.google-apps" = false ->
  chunks w1 = chunk_replies parts last ++ rest ->
  let data := joined parts +:+ last in
  let is_text := PyStr.startswith mt "text/" || String.eqb mt "application/json" in
  is_text = false \/ (exists cs, Codec.utf8_chars data = Some cs) ->
  (read_gdrive_file cfg rt file_id w).1
  = Return (dict [("success", VBool true);
                  ("name", match meta !! "name" with
                           | Some name => name
                           | None => VStr file_id
                           end);
                  ("mime_type", VStr mt);
                  ("content", VStr (if is_text then data
                                    else Codec.b64encode data));
                  ("is_text", VBool is_text)])
  /\ trace (read_gdrive_file cfg rt file_id w).2
     = trace w1
       ++ ApiCall (DriveFilesGet file_id "mimeType,name")
          :: repeat (ApiCall (DriveFilesGetMedia file_id)) (S (length parts)).
Proof.
  intros Hacq Hapi Hmime Hnative Hchunks data is_text Htext.
  unfold read_gdrive_file. rewrite (bind_returned _ _ _ _ _ Hacq).
  set (w2 := (execute (DriveFilesGet file_id "mimeType,name") w1).2).
  assert (chunks w2 = chunk_replies parts last ++ rest) as Hchunks2
    by (unfold w2; rewrite execute_world; exact Hchunks).
  assert (trace w2 = trace w1 ++ [ApiCall (DriveFilesGet file_id "mimeType,name")])
    as Htrace2 by (unfold w2; now rewrite execute_world).
  match goal with
  | |- context [try_except ?body ?h w1] =>
      assert (exists w3,
                 body w1
                 = (Return (dict [("success", VBool true);
                                  ("name", match meta !! "name" with
                                           | Some name => name
                                           | None => VStr file_id
                                           end);
                                  ("mime_type", VStr mt);
                                  ("content",
                                   VStr (if is_text then data
                                         else Codec.b64encode data));
                                  ("is_text", VBool is_text)]), w3)
                 /\ trace w3
                    = trace w2
                      ++ repeat (ApiCall (DriveFilesGetMedia file_id))
                           (S (length parts)))
        as (w3 & Hbody & Htrace3)
  end.
  { erewrite bind_returned by (eapply execute_step; exact Hapi). fold w2.
    cbn [py_get]. rewrite !bind_lift. rewrite Hmime.
    cbn [py_startswith]. rewrite !bind_lift. rewrite Hnative.
    erewrite bind_returned by (apply download_collects; exact Hchunks2).
    cbn [py_startswith mbind Outcome_bind mret Outcome_ret eq_str].
    rewrite bind_lift. fold data. fold is_text.
    destruct is_text eqn:His.
    - destruct Htext as [? | [cs Hcs]]; [discriminate |].
      unfold Codec.utf8_decode. rewrite Hcs. rewrite bind_lift.
      eexists. split; [reflexivity | reflexivity].
    - rewrite bind_ret_py. eexists. split; [reflexivity | reflexivity]. }
  rewrite (try_except_returned _ _ _ _ _ Hbody). cbn [fst snd].
  split; [reflexivity |]. rewrite Htrace3, Htrace2, <- app_assoc. reflexivity.
Qed.

Lemma read_gdrive_file_downloads_all_chunks_witness :
  (read_gdrive_file sample_config sample_runtime "f1"
     (download_world [Return (VDict text_file_meta)]
        (chunk_replies ["he"; "ll"] "o" ++ [Return ("unread", true)]))).1
  = Return (dict [("success", VBool true);
                  ("name", VStr "notes.txt");
                  ("mime_type", VStr "text/plain");
                  ("content", VStr "hello");
                  ("is_text", VBool true)])
  /\ trace (read_gdrive_file sample_config sample_runtime "f1"
              (download_world [Return (VDict text_file_meta)]
                 (chunk_replies ["he"; "ll"] "o" ++ [Return ("unread", true)]))).2
     = [ApiCall (DriveFilesGet "f1" "mimeType,name");
        ApiCall (DriveFilesGetMedia "f1");
        ApiCall (DriveFilesGetMedia "f1");
        ApiCall (DriveFilesGetMedia "f1")].
Proof.
  apply (read_gdrive_file_downloads_all_chunks sample_config sample_runtime
           "f1" "text/plain" text_file_meta [] ["he"; "ll"] "o"
           [Return ("unread", true)]
           (download_world [Return (VDict text_file_meta)]
              (chunk_replies ["he"; "ll"] "o" ++ [Return ("unread", true)]))
           (download_world [Return (VDict text_file_meta)]
              (chunk_replies ["he"; "ll"] "o" ++ [Return ("unread", true)]))
           stored_credentials);
    try reflexivity.
  right. now exists ["h"; "e"; "l"; "l"; "o"].
Defined.

Lemma export_is_text (mt : string) :
  PyStr.startswith (export_format (VStr mt)) "text/"
  || String.eqb (export_format (VStr mt)) "application/json"
  = negb (String.eqb mt DRAWING).
Proof.
  unfold export_format, eq_str, DRAWING.
  destruct (String.eqb_spec mt "application/vnd.google-apps.document") as [-> |];
    [reflexivity |].
  destruct (String.eqb_spec mt "application/vnd.google-apps.spreadsheet") as [-> |];
    [reflexivity |].
  destruct (String.eqb_spec mt "application/vnd.google-apps.presentation") as [-> |];
    [reflexivity |].
  destruct (String.eqb mt "application/vnd.google-apps.drawing"); reflexivity.
Qed.

(** X14. A Google-apps document is exported, as text unless it is a
    drawing.  With credentials, for a file whose MIME type starts with
    [application/vnd.google-apps], [read_gdrive_file] asks for the
    metadata and then for one export, to Markdown for a document, CSV for a
    spreadsheet, PNG for a drawing and plain text for anything else.  The
    result is marked as text and carries the export as it came, except for
    a drawing, whose bytes are returned base64-encoded and marked as not
    text. *)
Theorem read_gdrive_file_exports_native_documents (cfg : Config) (rt : Runtime)
    (file_id mt : string) (meta : gmap string PyVal) (response : PyVal)
    (rest_api : list (Outcome PyVal)) (w w1 : World) (c : Credentials) :
  get_google_credentials cfg w = (Return (Some c), w1) ->
  api w1 = Return (VDict meta) :: Return response :: rest_api ->
  meta !! "mimeType" = Some (VStr mt) ->
  PyStr.startswith mt "application/vnd.google-apps" = true ->
  let name := match meta !! "name" with
              | Some name => name
              | None => VStr file_id
              end in
  let export :=
    if String.eqb mt DOCUMENT then "text/markdown"
    else if String.eqb mt SPREADSHEET then "text/csv"
    else if String.eqb mt DRAWING then "image/png"
    else "text/plain" in
  trace (read_gdrive_file cfg rt file_id w).2
  = trace w1 ++ [ApiCall (DriveFilesGet file_id "mimeType,name");
                 ApiCall (DriveFilesExport file_id export)]
  /\ (mt <> DRAWING ->
      (read_gdrive_file cfg rt file_id w).1
      = Return (dict [("success", VBool true);
                      ("name", name);
                      ("mime_type", VStr export);
                      ("content", response);
                      ("is_text", VBool true)]))
  /\ (mt = DRAWING ->
      forall image, response = VBytes image ->
      (read_gdrive_file cfg rt file_id w).1
      = Return (dict [("success", VBool true);
                      ("name", name);
                      ("mime_type", VStr "image/png");
                      ("content", VStr (Codec.b64encode image));
                      ("is_text", VBool false)])).
Proof.
  intros Hacq Hapi Hmime Hnative name export.
  assert (export = export_format (VStr mt)) as Hexport.
  { unfold export, export_format, eq_str, DOCUMENT, SPREADSHEET, DRAWING.
    destruct (String.eqb mt "application/vnd.google-apps.document"); [reflexivity |].
    destruct (String.eqb mt "application/vnd.google-apps.spreadsheet");
      [reflexivity |].
    destruct (String.eqb_spec mt "application/vnd.google-apps.presentation")
      as [-> |]; [reflexivity |].
    destruct (String.eqb mt "application/vnd.google-apps.drawing"); reflexivity. }
  unfold read_gdrive_file. rewrite (bind_returned _ _ _ _ _ Hacq).
  set (w2 := (execute (DriveFilesGet file_id "mimeType,name") w1).2).
  assert (api w2 = Return response :: rest_api) as Hapi2
    by (unfold w2; rewrite execute_world, Hapi; reflexivity).
  assert (trace w2 = trace w1 ++ [ApiCall (DriveFilesGet file_id "mimeType,name")])
    as Htrace2 by (unfold w2; now rewrite execute_world).
  split; [| split].
  - rewrite try_except_world by apply pure_except_drive.
    erewrite bind_returned by (eapply execute_step; exact Hapi). fold w2.
    cbn [py_get]. rewrite !bind_lift, Hmime.
    cbn [py_startswith]. rewrite !bind_lift, Hnative. cbn zeta.
    rewrite bind_world.
    + rewrite execute_world, Htrace2, <- app_assoc, Hexport. reflexivity.
    + intros resp. solve_pure.
  - intros Hnot.
    assert (String.eqb mt DRAWING = false) as Hd by now apply String.eqb_neq.
    erewrite try_except_returned; [reflexivity |].
    erewrite bind_returned by (eapply execute_step; exact Hapi). fold w2.
    cbn [py_get]. rewrite !bind_lift, Hmime.
    cbn [py_startswith]. rewrite !bind_lift, Hnative. cbn zeta.
    erewrite bind_returned by (eapply execute_step; exact Hapi2).
    rewrite export_is_text, Hd. cbn [negb]. rewrite bind_ret_py.
    rewrite <- Hexport. reflexivity.
  - intros -> image ->.
    erewrite try_except_returned; [reflexivity |].
    erewrite bind_returned by (eapply execute_step; exact Hapi). fold w2.
    cbn [py_get]. rewrite !bind_lift, Hmime.
    cbn [py_startswith]. rewrite !bind_lift, Hnative. cbn zeta.
    erewrite bind_returned by (eapply execute_step; exact Hapi2).
    reflexivity.
Qed.

Lemma read_gdrive_file_exports_native_documents_witness :
  trace (read_gdrive_file sample_config sample_runtime "d1"
           (authorized_world [Return (VDict drawing_meta);
                              Return (VBytes "png")])).2
  = trace (authorized_world [Return (VDict drawing_meta); Return (VBytes "png")])
    ++ [ApiCall (DriveFilesGet "d1" "mimeType,name");
        ApiCall (DriveFilesExport "d1" "image/png")]
  /\ (DRAWING <> DRAWING ->
      (read_gdrive_file sample_config sample_runtime "d1"
         (authorized_world [Return (VDict drawing_meta);
                            Return (VBytes "png")])).1
      = Return (dict [("success", VBool true);
                      ("name", VStr "sketch");
                      ("mime_type", VStr "image/png");
                      ("content", VBytes "png");
                      ("is_text", VBool true)]))
  /\ (DRAWING = DRAWING ->
      forall image, VBytes "png" = VBytes image ->
      (read_gdrive_file sample_config sample_runtime "d1"
         (authorized_world [Return (VDict drawing_meta);
                            Return (VBytes "png")])).1
      = Return (dict [("success", VBool true);
                      ("name", VStr "sketch");
                      ("mime_type", VStr "image/png");
                      ("content", VStr (Codec.b64encode image));
                      ("is_text", VBool false)])).
Proof.
  apply (read_gdrive_file_exports_native_documents sample_config sample_runtime
           "d1" DRAWING drawing_meta (VBytes "png") []
           (authorized_world [Return (VDict drawing_meta); Return (VBytes "png")])
           (authorized_world [Return (VDict drawing_meta); Return (VBytes "png")])
           stored_credentials);
    reflexivity.
Defined.

(** ** Results that are built from a listing *)

Lemma for_each_lift {A B : Type} (f : A -> Outcome B) (xs : list A) (w : World) :
  for_each (fun x => lift_outcome (f x)) xs w = (mapM f xs, w).
Proof.
  induction xs as [|x xs IH]; [reflexivity |].
  cbn [for_each mapM]. unfold mbind at 1, Py_bind at 1, lift_outcome at 1.
  destruct (f x) as [y|e]; [| reflexivity].
  unfold mbind at 1, Py_bind at 1. rewrite IH.
  cbn [mbind Outcome_bind]. destruct (mapM f xs); reflexivity.
Qed.

Lemma mapM_dicts {B : Type} (f : PyVal -> Outcome B) (g : gmap string PyVal -> B)
    (ds : list (gmap string PyVal)) :
  (forall d, f (VDict d) = Return (g d)) ->
  mapM f (VDict <$> ds) = Return (g <$> ds).
Proof.
  intros Hf. induction ds as [|d ds IH]; [reflexivity |].
  cbn [fmap list_fmap mapM]. fold (VDict <$> ds). rewrite Hf.
  cbn [mbind Outcome_bind]. rewrite IH. reflexivity.
Qed.

(** X15. The result of [search_gdrive] lists every file of the reply, in
    order, with defaults for the fields a file lacks ("N/A" for the size,
    the empty string for the others), counts them in [total_files] and
    passes the next page token on ([None] when the reply has none). *)
Theorem search_gdrive_formats_every_file (cfg : Config) (rt : Runtime)
    (query : string) (page_token : option string) (page_size : option Z)
    (response : gmap string PyVal) (files : list (gmap string PyVal))
    (rest : list (Outcome PyVal)) (w w1 : World) (c : Credentials) :
  get_google_credentials cfg w = (Return (Some c), w1) ->
  api w1 = Return (VDict response) :: rest ->
  response !! "files" = Some (VList (VDict <$> files)) ->
  (search_gdrive cfg rt query page_token page_size w).1
  = Return (dict [("success", VBool true);
                  ("files", VList (format_file <$> files));
                  ("total_files", VInt (Z.of_nat (length files)));
                  ("next_page_token", get_or response "nextPageToken" VNone)]).
Proof.
  intros Hacq Hapi Hfiles. unfold search_gdrive.
  rewrite (bind_returned _ _ _ _ _ Hacq).
  erewrite try_except_returned; [reflexivity |]. cbn zeta.
  erewrite bind_returned by (eapply execute_step; exact Hapi).
  cbn [py_get]. rewrite !bind_lift, Hfiles. cbn [py_iter]. rewrite bind_lift.
  unfold mbind at 1, Py_bind at 1. rewrite for_each_lift.
  rewrite (mapM_dicts _ format_file) by reflexivity.
  rewrite length_fmap. reflexivity.
Qed.

Lemma search_gdrive_formats_every_file_witness :
  (search_gdrive sample_config sample_runtime "report" None None
     (authorized_world [Return (VDict sample_listing)])).1
  = Return (dict [("success", VBool true);
                  ("files",
                   VList (format_file
                          <$> [list_to_map [("id", VStr "f1"); ("name", VStr "a.txt");
                                            ("size", VStr "12")];
                               list_to_map [("id", VStr "f2"); ("name", VStr "b")]]));
                  ("total_files", VInt 2);
                  ("next_page_token", get_or sample_listing "nextPageToken" VNone)]).
Proof.
  apply (search_gdrive_formats_every_file sample_config sample_runtime "report"
           None None sample_listing
           [list_to_map [("id", VStr "f1"); ("name", VStr "a.txt");
                         ("size", VStr "12")];
            list_to_map [("id", VStr "f2"); ("name", VStr "b")]]
           [] (authorized_world [Return (VDict sample_listing)])
           (authorized_world [Return (VDict sample_listing)])
           stored_credentials);
    reflexivity.
Defined.

(** ** The round trip of the URL-safe base64 codec *)

Lemma forall_byte (P : ascii -> bool) :
  forallb P all_bytes = true -> forall a, P a = true.
Proof.
  intros H a. rewrite forallb_forall in H. apply H.
  unfold all_bytes. apply in_map_iff. exists (nat_of_ascii a).
  split; [apply ascii_nat_embedding |].
  apply in_seq. pose proof (nat_ascii_bounded a). lia.
Qed.

Lemma forall_digit (P : N -> bool) :
  forallb P all_digits = true -> forall v, (v < 64)%N -> P v = true.
Proof.
  intros H v Hv. rewrite forallb_forall in H. apply H.
  unfold all_digits. apply in_map_iff. exists (N.to_nat v).
  split; [apply N2Nat.id |]. apply in_seq. lia.
Qed.

Lemma digit_facts (v : N) : (v < 64)%N -> digit_ok v = true.
Proof. apply forall_digit. vm_compute. reflexivity. Qed.

Lemma first_byte_facts (x y : ascii) : first_byte_ok x y = true.
Proof.
  assert (H : forall x, forallb (first_byte_ok x) all_bytes = true).
  { apply (forall_byte (fun x => forallb (first_byte_ok x) all_bytes)).
    vm_compute. reflexivity. }
  now apply forall_byte.
Qed.

Lemma second_byte_facts (y z : ascii) : second_byte_ok y z = true.
Proof.
  assert (H : forall y, forallb (second_byte_ok y) all_bytes = true).
  { apply (forall_byte (fun y => forallb (second_byte_ok y) all_bytes)).
    vm_compute. reflexivity. }
  now apply forall_byte.
Qed.

Lemma third_byte_facts (z : ascii) : third_byte_ok z = true.
Proof. apply forall_byte. vm_compute. reflexivity. Qed.

Lemma string_ind3 (P : string -> Prop) :
  P "" ->
  (forall a, P (String a "")) ->
  (forall a b, P (String a (String b ""))) ->
  (forall a b c r, P r -> P (String a (String b (String c r)))) ->
  forall s, P s.
Proof.
  intros H0 H1 H2 H3. fix IH 1.
  intros [|a [|b [|c r]]]; [exact H0 | apply H1 | apply H2 |].
  apply H3. apply IH.
Qed.

(** One digit through the decoding loop. *)
Lemma a2b_digit (quad_pos leftchar pads v : N) (rest : string) :
  (v < 64)%N ->
  Codec.a2b_base64 quad_pos leftchar pads (String (Codec.b64_digit v) rest)
  = if (quad_pos =? 0)%N then Codec.a2b_base64 1 v 0 rest
    else if (quad_pos =? 1)%N then
      emit_byte (ascii_of_N (N.lor (N.shiftl leftchar 2) (N.shiftr v 4)))
        (Codec.a2b_base64 2 (N.land v 15) 0 rest)
    else if (quad_pos =? 2)%N then
      emit_byte (ascii_of_N (N.lor (N.shiftl leftchar 4) (N.shiftr v 2)))
        (Codec.a2b_base64 3 (N.land v 3) 0 rest)
    else
      emit_byte (ascii_of_N (N.lor (N.shiftl leftchar 6) v))
        (Codec.a2b_base64 0 0 0 rest).
Proof.
  intros Hv. pose proof (digit_facts v Hv) as H. unfold digit_ok in H.
  cbn zeta in H. apply andb_prop in H as [H _]. apply andb_prop in H as [H _].
  apply andb_prop in H as [Hval Hpad]. apply negb_true_iff in Hpad.
  cbn [Codec.a2b_base64]. rewrite Hpad.
  destruct (Codec.b64_value (Codec.b64_digit v)) as [u|]; [| discriminate].
  apply N.eqb_eq in Hval. subst u. reflexivity.
Qed.

(** A full group of four digits gives back its three bytes. *)
Lemma a2b_group (x y z : ascii) (rest : string) :
  Codec.a2b_base64 0 0 0
    (String (Codec.b64_digit (digit1 x))
       (String (Codec.b64_digit (digit2 x y))
          (String (Codec.b64_digit (digit3 y z))
             (String (Codec.b64_digit (digit4 z)) rest))))
  = emit_byte x (emit_byte y (emit_byte z (Codec.a2b_base64 0 0 0 rest))).
Proof.
  pose proof (first_byte_facts x y) as H1. pose proof (second_byte_facts y z) as H2.
  pose proof (third_byte_facts z) as H3.
  unfold first_byte_ok in H1. unfold second_byte_ok in H2. unfold third_byte_ok in H3.
  repeat match goal with
         | H : _ && _ = true |- _ => apply andb_prop in H as [? ?]
         end.
  repeat match goal with
         | H : (_ <? _)%N = true |- _ => apply N.ltb_lt in H
         | H : (_ =? _)%N = true |- _ => apply N.eqb_eq in H
         | H : Ascii.eqb _ _ = true |- _ => apply Ascii.eqb_eq in H
         end.
  rewrite a2b_digit by assumption. cbn [N.eqb].
  rewrite a2b_digit by assumption. cbn [N.eqb Pos.eqb].
  rewrite a2b_digit by assumption. cbn [N.eqb Pos.eqb].
  rewrite a2b_digit by assumption. cbn [N.eqb Pos.eqb].
  congruence.
Qed.

Lemma a2b_pad2 (leftchar : N) : Codec.a2b_base64 2 leftchar 0 "==" = Return "".
Proof. reflexivity. Qed.

Lemma a2b_pad1 (leftchar : N) : Codec.a2b_base64 3 leftchar 0 "=" = Return "".
Proof. reflexivity. Qed.

Lemma digit2_zero (x : ascii) :
  N.shiftl (N.land (N_of_ascii x) 3) 4 = digit2 x zero.
Proof.
  unfold digit2. change (N_of_ascii zero) with 0%N.
  now rewrite N.shiftr_0_l, N.lor_0_r.
Qed.

Lemma digit3_zero (y : ascii) :
  N.shiftl (N.land (N_of_ascii y) 15) 2 = digit3 y zero.
Proof.
  unfold digit3. change (N_of_ascii zero) with 0%N.
  now rewrite N.shiftr_0_l, N.lor_0_r.
Qed.

Lemma digit_bounds (x y : ascii) :
  (digit1 x < 64)%N /\ (digit2 x y < 64)%N /\ (digit3 x y < 64)%N
  /\ (digit4 x < 64)%N.
Proof.
  pose proof (first_byte_facts x y) as H1. pose proof (second_byte_facts x y) as H2.
  pose proof (third_byte_facts x) as H3.
  unfold first_byte_ok in H1. unfold second_byte_ok in H2. unfold third_byte_ok in H3.
  repeat match goal with
         | H : _ && _ = true |- _ => apply andb_prop in H as [? ?]
         end.
  repeat match goal with
         | H : (_ <? _)%N = true |- _ => apply N.ltb_lt in H
         end.
  auto.
Qed.

(** The two short groups at the end of an encoding. *)
Lemma a2b_one_byte (x : ascii) :
  Codec.a2b_base64 0 0 0
    (String (Codec.b64_digit (digit1 x))
       (String (Codec.b64_digit (digit2 x zero)) "=="))
  = Return (String x "").
Proof.
  destruct (digit_bounds x zero) as (B1 & B2 & _).
  pose proof (first_byte_facts x zero) as H1. unfold first_byte_ok in H1.
  apply andb_prop in H1 as [H1 _]. apply andb_prop in H1 as [_ H1].
  apply Ascii.eqb_eq in H1.
  rewrite a2b_digit by assumption. cbn [N.eqb].
  rewrite a2b_digit by assumption. cbn [N.eqb Pos.eqb].
  rewrite a2b_pad2, H1. reflexivity.
Qed.

Lemma a2b_two_bytes (x y : ascii) :
  Codec.a2b_base64 0 0 0
    (String (Codec.b64_digit (digit1 x))
       (String (Codec.b64_digit (digit2 x y))
          (String (Codec.b64_digit (digit3 y zero)) "=")))
  = Return (String x (String y "")).
Proof.
  destruct (digit_bounds x y) as (B1 & B2 & _).
  destruct (digit_bounds y zero) as (_ & _ & B3 & _).
  pose proof (first_byte_facts x y) as H1. unfold first_byte_ok in H1.
  apply andb_prop in H1 as [H1 L1]. apply andb_prop in H1 as [_ H1].
  apply Ascii.eqb_eq in H1. apply N.eqb_eq in L1.
  pose proof (second_byte_facts y zero) as H2. unfold second_byte_ok in H2.
  apply andb_prop in H2 as [H2 _]. apply andb_prop in H2 as [_ H2].
  apply Ascii.eqb_eq in H2.
  rewrite a2b_digit by assumption. cbn [N.eqb].
  rewrite a2b_digit by assumption. cbn [N.eqb Pos.eqb].
  rewrite a2b_digit by assumption. cbn [N.eqb Pos.eqb].
  rewrite a2b_pad1, H1, L1, H2. reflexivity.
Qed.

(** Decoding what [b2a_base64] encoded gives the bytes back. *)
Lemma a2b_b2a (b : string) :
  Codec.a2b_base64 0 0 0 (Codec.b2a_base64 b) = Return b.
Proof.
  induction b as [| x | x y | x y z r IH] using string_ind3.
  - reflexivity.
  - change (Codec.b2a_base64 (String x ""))
      with (String (Codec.b64_digit (digit1 x))
              (String (Codec.b64_digit (N.shiftl (N.land (N_of_ascii x) 3) 4)) "==")).
    rewrite digit2_zero. apply a2b_one_byte.
  - change (Codec.b2a_base64 (String x (String y "")))
      with (String (Codec.b64_digit (digit1 x))
              (String (Codec.b64_digit (digit2 x y))
                 (String (Codec.b64_digit (N.shiftl (N.land (N_of_ascii y) 15) 2))
                    "="))).
    rewrite digit3_zero. apply a2b_two_bytes.
  - change (Codec.b2a_base64 (String x (String y (String z r))))
      with (String (Codec.b64_digit (digit1 x))
              (String (Codec.b64_digit (digit2 x y))
                 (String (Codec.b64_digit (digit3 y z))
                    (String (Codec.b64_digit (digit4 z)) (Codec.b2a_base64 r))))).
    rewrite a2b_group, IH. reflexivity.
Qed.

Lemma urlsafe_cons (c : ascii) (s : string) :
  Codec.byte_in 0 127 (to_urlsafe c) = true ->
  Codec.urlsafe_translate (to_urlsafe c) = c ->
  Codec.is_ascii (Codec.translate to_urlsafe s) = true
  /\ Codec.translate Codec.urlsafe_translate (Codec.translate to_urlsafe s) = s ->
  Codec.is_ascii (Codec.translate to_urlsafe (String c s)) = true
  /\ Codec.translate Codec.urlsafe_translate
       (Codec.translate to_urlsafe (String c s)) = String c s.
Proof.
  intros Ha Ht [IHa IHt]. split.
  - unfold Codec.is_ascii in *.
    cbn [Codec.translate list_ascii_of_string forallb]. now rewrite Ha.
  - cbn [Codec.translate]. now rewrite Ht, IHt.
Qed.

Lemma urlsafe_digit (v : N) (s : string) :
  (v < 64)%N ->
  Codec.is_ascii (Codec.translate to_urlsafe s) = true
  /\ Codec.translate Codec.urlsafe_translate (Codec.translate to_urlsafe s) = s ->
  Codec.is_ascii (Codec.translate to_urlsafe (String (Codec.b64_digit v) s)) = true
  /\ Codec.translate Codec.urlsafe_translate
       (Codec.translate to_urlsafe (String (Codec.b64_digit v) s))
     = String (Codec.b64_digit v) s.
Proof.
  intros Hv. pose proof (digit_facts v Hv) as H. unfold digit_ok in H.
  cbn zeta in H. apply andb_prop in H as [H Ht]. apply andb_prop in H as [_ Ha].
  apply Ascii.eqb_eq in Ht. now apply urlsafe_cons.
Qed.

(** The URL-safe encoding is ASCII, and translating it back gives the
    standard encoding. *)
Lemma urlsafe_b2a (b : string) :
  Codec.is_ascii (Codec.translate to_urlsafe (Codec.b2a_base64 b)) = true
  /\ Codec.translate Codec.urlsafe_translate
       (Codec.translate to_urlsafe (Codec.b2a_base64 b))
     = Codec.b2a_base64 b.
Proof.
  induction b as [| x | x y | x y z r IH] using string_ind3.
  - split; reflexivity.
  - change (Codec.b2a_base64 (String x ""))
      with (String (Codec.b64_digit (digit1 x))
              (String (Codec.b64_digit (N.shiftl (N.land (N_of_ascii x) 3) 4)) "==")).
    rewrite digit2_zero. destruct (digit_bounds x zero) as (B1 & B2 & _).
    repeat apply urlsafe_digit; try assumption. split; reflexivity.
  - change (Codec.b2a_base64 (String x (String y "")))
      with (String (Codec.b64_digit (digit1 x))
              (String (Codec.b64_digit (digit2 x y))
                 (String (Codec.b64_digit (N.shiftl (N.land (N_of_ascii y) 15) 2))
                    "="))).
    rewrite digit3_zero. destruct (digit_bounds x y) as (B1 & B2 & _).
    destruct (digit_bounds y zero) as (_ & _ & B3 & _).
    repeat apply urlsafe_digit; try assumption. split; reflexivity.
  - change (Codec.b2a_base64 (String x (String y (String z r))))
      with (String (Codec.b64_digit (digit1 x))
              (String (Codec.b64_digit (digit2 x y))
                 (String (Codec.b64_digit (digit3 y z))
                    (String (Codec.b64_digit (digit4 z)) (Codec.b2a_base64 r))))).
    destruct (digit_bounds x y) as (B1 & B2 & _).
    destruct (digit_bounds y z) as (_ & _ & B3 & _).
    destruct (digit_bounds z z) as (_ & _ & _ & B4).
    repeat apply urlsafe_digit; assumption.
Qed.

Lemma plain_text_payload_body (data : string) :
  _get_email_body (plain_text_payload data)
  = (raw ← urlsafe_b64decode (VStr data); Codec.utf8_decode raw).
Proof. reflexivity. Qed.

Lemma urlsafe_decode_encode (b : string) :
  urlsafe_b64decode (VStr (Codec.urlsafe_b64encode b)) = Return b
  /\ urlsafe_b64decode (VBytes (Codec.urlsafe_b64encode b)) = Return b.
Proof.
  destruct (urlsafe_b2a b) as [Hascii Hback].
  unfold urlsafe_b64decode, Codec.urlsafe_b64encode.
  change (fun c : ascii => if Ascii.eqb c "+" then "-"%char
                           else if Ascii.eqb c "/" then "_"%char else c)
    with to_urlsafe.
  rewrite Hascii, Hback. split; apply a2b_b2a.
Qed.

(** X16. What [urlsafe_b64encode] writes, [urlsafe_b64decode] reads back,
    from a [str] as from [bytes]: the encoding [send_email] applies to a
    message is undone by the decoding [_get_email_body] applies to a body.
    So a [text/plain] payload whose data encodes the bytes [b] gives [b]
    when they are well-formed UTF-8 and the decoding error otherwise. *)
Theorem encoded_body_is_read_back (b : string) :
  urlsafe_b64decode (VStr (Codec.urlsafe_b64encode b)) = Return b
  /\ urlsafe_b64decode (VBytes (Codec.urlsafe_b64encode b)) = Return b
  /\ _get_email_body (plain_text_payload (Codec.urlsafe_b64encode b))
     = Codec.utf8_decode b.
Proof.
  destruct (urlsafe_decode_encode b) as [Hstr Hbytes].
  split; [exact Hstr |]. split; [exact Hbytes |].
  rewrite plain_text_payload_body, Hstr. reflexivity.
Qed.

(** ** [search_google] *)

(** X17. [search_google] works with the API key alone: whatever the reply,
    it sends exactly one request, with the key and the engine id of the
    configuration, asks the token endpoint for nothing and leaves the token
    file as it is.  A
    reply is formatted item by item, a missing title, link or snippet as
    the empty string; a reply without items gives an empty list and a reply
    without search information the total "0". *)
Theorem search_google_needs_no_credentials (cfg : Config) (rt : Runtime)
    (query : string) (num_results : Z) (w : World) :
  (search_google cfg rt query num_results w).2
  = mkWorld (token_file w) (disk w) (now w) (token_endpoint w) (tail (api w))
      (chunks w)
      (trace w ++ [ApiCall (CustomSearchList (GOOGLE_API_KEY cfg) query
                              (GOOGLE_CSE_ID cfg) num_results)])
  /\ forall (result : gmap string PyVal) (rest : list (Outcome PyVal))
       (items : option (list (gmap string PyVal)))
       (info : option (gmap string PyVal)),
       api w = Return (VDict result) :: rest ->
       result !! "items" = (fun l => VList (VDict <$> l)) <$> items ->
       result !! "searchInformation" = VDict <$> info ->
       (search_google cfg rt query num_results w).1
       = Return (dict [("success", VBool true);
                       ("results", VList (format_item <$> default [] items));
                       ("total_results",
                        get_or (default ∅ info) "totalResults" (VStr "0"))]).
Proof.
  split.
  - unfold search_google. rewrite try_except_world by (intros []; solve_pure).
    rewrite bind_world; [apply execute_world |].
    intros result. solve_pure.
  - intros result rest items info Hapi Hitems Hinfo. unfold search_google.
    erewrite try_except_returned; [reflexivity |].
    erewrite bind_returned by (eapply execute_step; exact Hapi).
    cbn [py_in py_item py_get]. rewrite !bind_lift, Hitems, Hinfo.
    destruct items as [items|]; cbn [fmap option_fmap option_map default].
    + rewrite bool_decide_true by eauto.
      match goal with
      | |- (?m ≫= _) ?w0 = _ =>
          rewrite (bind_returned m _ w0 w0 (format_item <$> items))
      end.
      * rewrite !bind_lift. destruct info; reflexivity.
      * rewrite bind_lift. cbn [py_iter]. rewrite bind_lift, for_each_lift.
        now rewrite (mapM_dicts _ format_item).
    + rewrite bool_decide_false by (intros [? [=]]).
      rewrite bind_ret_py, !bind_lift. destruct info; reflexivity.
Qed.

Lemma search_google_needs_no_credentials_witness :
  (search_google sample_config sample_runtime "rocq" 5
     (unauthorized_world [Return (VDict sample_search_reply)])).1
  = Return (dict [("success", VBool true);
                  ("results",
                   VList (format_item
                          <$> default []
                                (Some [list_to_map
                                         [("title", VStr "Rocq");
                                          ("link", VStr "https://rocq-prover.org")]])));
                  ("total_results",
                   get_or (default ∅ None) "totalResults" (VStr "0"))]).
Proof.
  apply (proj2 (search_google_needs_no_credentials sample_config sample_runtime
                  "rocq" 5 (unauthorized_world [Return (VDict sample_search_reply)]))
           sample_search_reply []
           (Some [list_to_map [("title", VStr "Rocq");
                               ("link", VStr "https://rocq-prover.org")]])
           None);
    [reflexivity | vm_compute; reflexivity | vm_compute; reflexivity].
Defined.

(** ** [list_emails]: one request for each listed message *)

Lemma listed_fields (l : Listed) :
  py_item (listed_value l) "id" = Return (VStr (l_id l))
  /\ py_get (listed_value l) "threadId" VNone = Return (VStr (l_thread l)).
Proof. destruct l. split; vm_compute; reflexivity. Qed.

Lemma metadata_fields (m : Metadata) :
  py_get (metadata_value m) "payload" (dict [])
  = Return (dict [("headers", VList (header_value <$> m_headers m))])
  /\ py_get (dict [("headers", VList (header_value <$> m_headers m))])
       "headers" (VList [])
     = Return (VList (header_value <$> m_headers m))
  /\ py_get (metadata_value m) "snippet" VNone = Return (VStr (m_snippet m)).
Proof. destruct m. repeat split; vm_compute; reflexivity. Qed.

Lemma header_value_fields (n v : string) :
  py_item (header_value (n, v)) "name" = Return (VStr n)
  /\ py_item (header_value (n, v)) "value" = Return (VStr v).
Proof. split; vm_compute; reflexivity. Qed.

(** The dictionary comprehension over well-formed headers: a later header
    replaces an earlier one of the same name. *)
Lemma header_dict_values (hs : list (string * string)) (acc : gmap string PyVal) :
  exists headers,
    header_dict (header_value <$> hs) acc = Return headers
    /\ forall name,
         headers !! name
         = match last_header name hs with
           | Some v => Some (VStr v)
           | None => acc !! name
           end.
Proof.
  revert acc. induction hs as [|[n v] hs IH]; intros acc.
  - exists acc. split; reflexivity.
  - destruct (IH (<[n := VStr v]> acc)) as (headers & Hrun & Hlook).
    exists headers. split.
    + cbn [fmap list_fmap header_dict].
      destruct (header_value_fields n v) as [-> ->].
      cbn [mbind Outcome_bind]. exact Hrun.
    + intros name. rewrite Hlook. cbn [last_header].
      destruct (last_header name hs); [reflexivity |].
      destruct (String.eqb_spec n name) as [-> | Hne].
      * apply lookup_insert_eq.
      * now apply lookup_insert_ne.
Qed.

Lemma header_of_values (headers : gmap string PyVal) (hs : list (string * string))
    (name : string) (default : PyVal) :
  (forall name,
      headers !! name
      = match last_header name hs with
        | Some v => Some (VStr v)
        | None => (∅ : gmap string PyVal) !! name
        end) ->
  header headers name default = header_or name hs default.
Proof.
  intros H. unfold header, header_or. rewrite H.
  destruct (last_header name hs); [reflexivity |]. now rewrite lookup_empty.
Qed.

Lemma or_str_query (query : string) : or_str (Some query) "" = query.
Proof.
  unfold or_str. destruct (String.eqb_spec query ""); [now subst | reflexivity].
Qed.

(** A loop whose body makes one request for each message, against replies
    that arrive in the order of the messages. *)
Lemma for_each_message (f : PyVal -> Py PyVal) (lms : list (Listed * Metadata)) :
  (forall lm w rest,
      api w = Return (metadata_value lm.2) :: rest ->
      f (listed_value lm.1) w
      = (Return (email_summary lm),
         mkWorld (token_file w) (disk w) (now w) (token_endpoint w) rest
           (chunks w) (trace w ++ [metadata_request lm]))) ->
  forall w rest,
    api w = ((fun lm => Return (metadata_value lm.2)) <$> lms) ++ rest ->
    for_each f ((fun lm => listed_value lm.1) <$> lms) w
    = (Return (email_summary <$> lms),
       mkWorld (token_file w) (disk w) (now w) (token_endpoint w) rest
         (chunks w) (trace w ++ (metadata_request <$> lms))).
Proof.
  intros Hstep. induction lms as [|lm lms IH]; intros w rest Hapi.
  - destruct w. cbn in Hapi. subst. cbn. now rewrite app_nil_r.
  - cbn [fmap list_fmap for_each]. cbn [fmap list_fmap app] in Hapi.
    rewrite (bind_returned _ _ _ _ _ (Hstep lm w _ Hapi)).
    erewrite bind_returned by (apply IH; reflexivity).
    cbn [mret Py_ret token_file disk now token_endpoint chunks trace].
    now rewrite <- app_assoc.
Qed.

(** X18. [list_emails] asks for the metadata of every listed message, in
    the order of the listing, after the listing itself and nothing else;
    its result has one entry for each message, in the same order.  The
    subject, the sender and the date are those of the last header of that
    exact name: a message without a [Subject] header is shown as
    "(No Subject)", one without [From] or [Date] has [None] there. *)
Theorem list_emails_fetches_each_listed_message (cfg : Config) (rt : Runtime)
    (query : string) (max_results : Z) (results : gmap string PyVal)
    (lms : list (Listed * Metadata)) (rest : list (Outcome PyVal))
    (w w1 : World) (c : Credentials) :
  get_google_credentials cfg w = (Return (Some c), w1) ->
  api w1 = Return (VDict results)
           :: ((fun lm => Return (metadata_value lm.2)) <$> lms) ++ rest ->
  results !! "messages" = Some (VList ((fun lm => listed_value lm.1) <$> lms)) ->
  list_emails cfg rt query max_results w
  = (Return (VList (email_summary <$> lms)),
     mkWorld (token_file w1) (disk w1) (now w1) (token_endpoint w1) rest
       (chunks w1)
       (trace w1 ++ ApiCall (GmailMessagesList "me" max_results query)
                    :: (metadata_request <$> lms))).
Proof.
  intros Hacq Hapi Hmessages. unfold list_emails.
  rewrite (bind_returned _ _ _ _ _ Hacq). rewrite or_str_query.
  apply try_except_returned.
  erewrite bind_returned by (eapply execute_step; exact Hapi).
  rewrite execute_world, Hapi. cbn [tail py_get]. rewrite !bind_lift, Hmessages.
  cbn [py_iter]. rewrite bind_lift.
  erewrite bind_returned.
  2: { apply for_each_message; [| reflexivity].
       intros lm w0 rest0 Hreply.
       destruct (listed_fields lm.1) as [Hid Hthread].
       destruct (metadata_fields lm.2) as (Hpayload & Hheaders & Hsnippet).
       destruct (header_dict_values (m_headers lm.2) ∅) as (headers & Hdict & Hlook).
       rewrite Hid, !bind_lift.
       erewrite bind_returned by (eapply execute_step; exact Hreply).
       rewrite execute_world, Hreply. cbn [tail].
       rewrite Hpayload, bind_lift, Hheaders, bind_lift. cbn [py_iter].
       rewrite bind_lift, Hdict, bind_lift, Hthread, bind_lift, Hsnippet, bind_lift.
       rewrite !(header_of_values headers (m_headers lm.2)) by exact Hlook.
       reflexivity. }
  cbn [mret Py_ret token_file disk now token_endpoint chunks trace].
  now rewrite <- app_assoc.
Qed.

Lemma list_emails_fetches_each_listed_message_witness :
  list_emails sample_config sample_runtime "is:unread" 10
    (authorized_world sample_mail_replies)
  = (Return (VList (email_summary <$> sample_mailbox)),
     mkWorld (token_file (authorized_world sample_mail_replies))
       (disk (authorized_world sample_mail_replies))
       (now (authorized_world sample_mail_replies))
       (token_endpoint (authorized_world sample_mail_replies)) []
       (chunks (authorized_world sample_mail_replies))
       (trace (authorized_world sample_mail_replies)
        ++ ApiCall (GmailMessagesList "me" 10 "is:unread")
           :: (metadata_request <$> sample_mailbox))).
Proof.
  apply (list_emails_fetches_each_listed_message sample_config sample_runtime
           "is:unread" 10 sample_mail_listing sample_mailbox []
           (authorized_world sample_mail_replies)
           (authorized_world sample_mail_replies) stored_credentials);
    [reflexivity | reflexivity | vm_compute; reflexivity].
Defined.

(** ** [send_email] *)

(** X19. The request of [send_email] carries the message itself: with
    credentials, and when the MIME message can be built (without the [cc]
    or [bcc] that is absent or empty), exactly one request is sent, and its
    [raw] field decodes, by URL-safe base64, to the bytes of that message.
    A reply with an id is reported with that id. *)
Theorem send_email_sends_the_encoded_message (cfg : Config) (rt : Runtime)
    (to subject body : string) (cc bcc : option string) (message : string)
    (w w1 : World) (c : Credentials) :
  get_google_credentials cfg w = (Return (Some c), w1) ->
  mime_bytes rt to subject body
    (if truthy cc then cc else None) (if truthy bcc then bcc else None)
  = Return message ->
  exists raw : string,
    trace (send_email cfg rt to subject body cc bcc w).2
    = trace w1 ++ [ApiCall (GmailMessagesSend "me" (dict [("raw", VStr raw)]))]
    /\ urlsafe_b64decode (VStr raw) = Return message
    /\ forall (reply : gmap string PyVal) (id : string)
         (rest : list (Outcome PyVal)),
         api w1 = Return (VDict reply) :: rest ->
         reply !! "id" = Some (VStr id) ->
         (send_email cfg rt to subject body cc bcc w).1
         = Return (VStr ("이메일 발송 성공. 메시지 ID: " +:+ id)).
Proof.
  intros Hacq Hmime. unfold send_email.
  rewrite (bind_returned _ _ _ _ _ Hacq), Hmime.
  exists (Codec.urlsafe_b64encode message). split; [| split].
  - rewrite try_except_world by apply pure_except_api.
    rewrite bind_lift. cbn zeta.
    rewrite bind_world by (intros sent; solve_pure).
    rewrite execute_world. reflexivity.
  - apply urlsafe_decode_encode.
  - intros reply id rest Hapi Hid.
    erewrite try_except_returned; [reflexivity |].
    rewrite bind_lift. cbn zeta.
    erewrite bind_returned by (eapply execute_step; exact Hapi).
    cbn [py_item]. rewrite Hid, bind_lift. reflexivity.
Qed.

Lemma send_email_sends_the_encoded_message_witness :
  exists raw : string,
    trace (send_email sample_config sample_runtime "a@example.org" "Hi" "Hello"
             (Some "") None (authorized_world [])).2
    = trace (authorized_world [])
      ++ [ApiCall (GmailMessagesSend "me" (dict [("raw", VStr raw)]))]
    /\ urlsafe_b64decode (VStr raw)
       = Return "To: a@example.org Subject: Hi Hello"
    /\ forall (reply : gmap string PyVal) (id : string)
         (rest : list (Outcome PyVal)),
         api (authorized_world []) = Return (VDict reply) :: rest ->
         reply !! "id" = Some (VStr id) ->
         (send_email sample_config sample_runtime "a@example.org" "Hi" "Hello"
            (Some "") None (authorized_world [])).1
         = Return (VStr ("이메일 발송 성공. 메시지 ID: " +:+ id)).
Proof.
  apply (send_email_sends_the_encoded_message sample_config sample_runtime
           "a@example.org" "Hi" "Hello" (Some "") None
           "To: a@example.org Subject: Hi Hello"
           (authorized_world []) (authorized_world []) stored_credentials);
    reflexivity.
Defined.

(** ** [list_events]: what is shown of an event *)

Lemma mapM_dicts_on {B : Type} (P : gmap string PyVal -> bool)
    (f : PyVal -> Outcome B) (g : gmap string PyVal -> B)
    (ds : list (gmap string PyVal)) :
  (forall d, P d = true -> f (VDict d) = Return (g d)) ->
  forallb P ds = true ->
  mapM f (VDict <$> ds) = Return (g <$> ds).
Proof.
  intros Hf. induction ds as [|d ds IH]; [reflexivity |].
  cbn [forallb]. intros [Hd Hds]%andb_prop.
  cbn [fmap list_fmap mapM]. fold (VDict <$> ds). rewrite (Hf d Hd).
  cbn [mbind Outcome_bind]. rewrite (IH Hds). reflexivity.
Qed.

(** X20. [list_events] shows every event of the reply, in order: a timed
    event with the [dateTime] of its start and end, an all-day event (which
    has only a [date]) with that date, and [None] for every field the event
    lacks, its summary and its times included. *)
Theorem list_events_shows_every_event (cfg : Config) (rt : Runtime)
    (time_min time_max : option string) (max_results : Z)
    (events_result : gmap string PyVal) (events : list (gmap string PyVal))
    (rest : list (Outcome PyVal)) (w w1 : World) (c : Credentials) :
  get_google_credentials cfg w = (Return (Some c), w1) ->
  api w1 = Return (VDict events_result) :: rest ->
  events_result !! "items" = Some (VList (VDict <$> events)) ->
  forallb well_timed events = true ->
  (list_events cfg rt time_min time_max max_results w).1
  = Return (VList (format_event <$> events)).
Proof.
  intros Hacq Hapi Hitems Htimes. unfold list_events.
  rewrite (bind_returned _ _ _ _ _ Hacq).
  erewrite try_except_returned; [reflexivity |].
  unfold utcnow at 1. unfold mbind at 1, Py_bind at 1. cbn zeta.
  erewrite bind_returned by (eapply execute_step; exact Hapi).
  cbn [py_get]. rewrite bind_lift, Hitems. cbn [py_iter]. rewrite bind_lift.
  unfold mbind at 1, Py_bind at 1. rewrite for_each_lift.
  rewrite (mapM_dicts_on well_timed _ format_event); [reflexivity | | exact Htimes].
  intros d [Hstart Hend]%andb_prop. unfold format_event.
  cbn [py_get mbind Outcome_bind].
  destruct (d !! "start") as [[]|]; try discriminate Hstart;
    destruct (d !! "end") as [[]|]; try discriminate Hend;
    cbn [py_get shown_time mbind Outcome_bind]; unfold or_val, get_or;
    repeat match goal with
           | |- context [truth ?v] => destruct (truth v)
           end; reflexivity.
Qed.

Lemma list_events_shows_every_event_witness :
  (list_events sample_config sample_runtime None None 10
     (authorized_world [Return (VDict sample_calendar)])).1
  = Return (VList (format_event <$> sample_events)).
Proof.
  apply (list_events_shows_every_event sample_config sample_runtime None None 10
           sample_calendar sample_events []
           (authorized_world [Return (VDict sample_calendar)])
           (authorized_world [Return (VDict sample_calendar)])
           stored_credentials);
    [reflexivity | reflexivity | vm_compute; reflexivity | vm_compute; reflexivity].
Defined.
